(** * Authentication and session-token lifecycle of the e-commerce backend

    A shallow embedding of the token ledger ([models/token.model.js]),
    the token service ([services/token.service.js]), the auth service
    ([services/auth.service.js]), the auth middleware
    ([middlewares/auth.middleware.js]), the role table ([config/roles.js])
    and the profile handlers ([controllers/auth.controller.js],
    [services/user.service.js]).

    The JavaScript code is [async]: it threads a database, a clock and a mail
    transport through every call and signals failure by throwing.  Here that
    is a state-and-exception monad [M] over a [World]; state changes made
    before a throw persist, as they do in the database.  [jsonwebtoken],
    [bcrypt], the day arithmetic of [moment], the configuration and the
    [save] of the user model are external: they are fields of the classes
    [Config], [Jwt], [Bcrypt], [Moment] and [UserModel]. *)

From Stdlib Require Import ZArith Lia List Bool String Ascii.
From stdpp Require Import base decidable countable gmap strings list.
Import ListNotations.

Local Open Scope string_scope.
Local Open Scope list_scope.
Local Open Scope Z_scope.

(** ** Errors ([utils/ApiError.js]) *)

(** An [ApiError] carries [statusCode], [message] and [isOperational];
    every other thrown value is kept by its [name] and [message]. *)
Inductive Error :=
| ApiError (statusCode : Z) (message : string) (isOperational : bool)
| JsError (name : string) (message : string).

Definition NotFoundError (message : string) : Error := ApiError 404 message true.
Definition BadRequestError (message : string) : Error := ApiError 400 message true.
Definition UnauthorizedError (message : string) : Error := ApiError 401 message true.
Definition ForbiddenError (message : string) : Error := ApiError 403 message true.
Definition ConflictError (message : string) : Error := ApiError 409 message true.

(** [new Error()], and the [TypeError] of a property read on [undefined]. *)
Definition PlainError : Error := JsError "Error" "".
Definition TypeError (message : string) : Error := JsError "TypeError" message.

Inductive Result (A : Type) :=
| Ok (a : A)
| Throw (e : Error).
Arguments Ok {A} a.
Arguments Throw {A} e.

Definition is_ok {A} (r : Result A) : bool :=
  match r with Ok _ => true | Throw _ => false end.

(** ** Token kinds and the signed payload ([models/token.model.js]) *)

Inductive TokenType := ACCESS | REFRESH | RESET_PASSWORD | VERIFY_EMAIL.

Definition tokenType_name (t : TokenType) : string :=
  match t with
  | ACCESS => "access"
  | REFRESH => "refresh"
  | RESET_PASSWORD => "resetPassword"
  | VERIFY_EMAIL => "verifyEmail"
  end.

Definition tokenType_eqb (a b : TokenType) : bool :=
  match a, b with
  | ACCESS, ACCESS | REFRESH, REFRESH
  | RESET_PASSWORD, RESET_PASSWORD | VERIFY_EMAIL, VERIFY_EMAIL => true
  | _, _ => false
  end.

(** The payload [generateToken] signs: [{ sub, iat, exp, type }]. *)
Record Payload := mkPayload {
  sub : string;
  iat : Z;
  exp : Z;
  ptype : TokenType
}.

(** ** Roles ([config/roles.js]) *)

Inductive Role := user_role | admin_role | moderator_role.

Definition role_name (r : Role) : string :=
  match r with
  | user_role => "user"
  | admin_role => "admin"
  | moderator_role => "moderator"
  end.

Definition allRoles : list (string * list string) :=
  [ ("user", ["getProducts"; "manageOwnProfile"; "createOrder"; "viewOwnOrders"]);
    ("admin", ["getUsers"; "manageUsers"; "getProducts"; "manageProducts";
               "getOrders"; "manageOrders"; "manageOwnProfile"; "createOrder";
               "viewOwnOrders"; "viewAnalytics"; "manageSettings"]);
    ("moderator", ["getUsers"; "getProducts"; "manageProducts"; "getOrders";
                   "manageOwnProfile"; "viewOwnOrders"]) ].

(** [roleRights = new Map(Object.entries(allRoles))]; [roleRights.get]. *)
Fixpoint roleRights_get_in (m : list (string * list string)) (k : string)
  : option (list string) :=
  match m with
  | [] => None
  | (k', v) :: m' => if String.eqb k' k then Some v else roleRights_get_in m' k
  end.

Definition roleRights_get (k : string) : option (list string) :=
  roleRights_get_in allRoles k.

(** [Array.prototype.includes] on an array of strings. *)
Definition includes (l : list string) (x : string) : bool :=
  List.existsb (String.eqb x) l.

(** ** Documents *)

(** Modelled from the spec: the user document, whose schema file is not part
    of the sources.  "Attributes: email, password (stored only as a salted
    irreversible hash), role (one of a fixed small set), active flag,
    email-verified flag, password changed at timestamp, last-login
    timestamp"; [id] and [name] are read by the services.  The fixed small
    set of roles is the key set of [allRoles].  Dates are milliseconds since
    the epoch. *)
Module UserDoc.
Record t := mk {
  id : string;
  name : string;
  email : string;
  password : string;
  role : Role;
  isActive : bool;
  isEmailVerified : bool;
  passwordChangedAt : option Z;
  lastLogin : option Z
}.

Definition set_lastLogin (d : Z) (u : t) : t :=
  mk (id u) (name u) (email u) (password u) (role u) (isActive u)
     (isEmailVerified u) (passwordChangedAt u) (Some d).

Definition set_isEmailVerified (b : bool) (u : t) : t :=
  mk (id u) (name u) (email u) (password u) (role u) (isActive u)
     b (passwordChangedAt u) (lastLogin u).

Definition find (p : t -> bool) (us : list t) : option t := List.find p us.

(** [user.save()]: the stored document with this id is replaced. *)
Fixpoint replace (u : t) (us : list t) : list t :=
  match us with
  | [] => []
  | v :: us' => if String.eqb (id v) (id u) then u :: us' else v :: replace u us'
  end.
End UserDoc.

(** The ledger record of [tokenSchema], with the [_id] and the [createdAt]
    timestamp the store adds. *)
Module TokenDoc.
Record t := mk {
  _id : nat;
  token : string;
  user : string;
  type : TokenType;
  expires : Z;
  blacklisted : bool;
  createdAt : Z
}.

Definition set_expires (e : Z) (d : t) : t :=
  mk (_id d) (token d) (user d) (type d) e (blacklisted d) (createdAt d).

Definition set_blacklisted (b : bool) (d : t) : t :=
  mk (_id d) (token d) (user d) (type d) (expires d) b (createdAt d).

(** A query filter: the conjunction of the conditions that are present. *)
Record Query := mkQuery {
  q_token : option string;
  q_type : option TokenType;
  q_user : option string;
  q_blacklisted : option bool;
  q_expires_lt : option Z;
  q_createdAt_lt : option Z
}.

Definition cond {A} (c : option A) (test : A -> bool) : bool :=
  match c with None => true | Some a => test a end.

Definition matches (q : Query) (d : t) : bool :=
  cond (q_token q) (String.eqb (token d))
  && cond (q_type q) (tokenType_eqb (type d))
  && cond (q_user q) (String.eqb (user d))
  && cond (q_blacklisted q) (Bool.eqb (blacklisted d))
  && cond (q_expires_lt q) (fun bound => Z.ltb (expires d) bound)
  && cond (q_createdAt_lt q) (fun bound => Z.ltb (createdAt d) bound).

(** [Token.findOne(filter)]: the first matching record. *)
Definition findOne_in (q : Query) (l : list t) : option t :=
  List.find (matches q) l.

(** [Token.deleteMany(filter)]. *)
Definition deleteMany_in (q : Query) (l : list t) : list t :=
  List.filter (fun d => negb (matches q d)) l.

(** [doc.deleteOne()]: at most one record, the one with the document's
    [_id], is removed; nothing happens when there is none. *)
Fixpoint deleteOne_in (i : nat) (l : list t) : list t :=
  match l with
  | [] => []
  | d :: l' => if Nat.eqb (_id d) i then l' else d :: deleteOne_in i l'
  end.

(** [findOneAndUpdate(filter, update)]: the first match is updated. *)
Fixpoint findOneAndUpdate_in (q : Query) (f : t -> t) (l : list t) : list t :=
  match l with
  | [] => []
  | d :: l' => if matches q d then f d :: l' else d :: findOneAndUpdate_in q f l'
  end.
End TokenDoc.

(** ** The world: database, clock, mail transport *)

(** A message handed to the transport: recipient, subject, and the value
    the HTML template embeds (the token of the link, or the name). *)
Record Mail := mkMail {
  mail_to : string;
  mail_subject : string;
  mail_param : string
}.

Record World := mkWorld {
  users : list UserDoc.t;
  tokens : list TokenDoc.t;
  nextId : nat;
  clock : Z;
  outbox : list Mail;
  smtpUp : bool
}.

Definition with_users (us : list UserDoc.t) (w : World) : World :=
  mkWorld us (tokens w) (nextId w) (clock w) (outbox w) (smtpUp w).
Definition with_tokens (ts : list TokenDoc.t) (w : World) : World :=
  mkWorld (users w) ts (nextId w) (clock w) (outbox w) (smtpUp w).
Definition with_nextId (n : nat) (w : World) : World :=
  mkWorld (users w) (tokens w) n (clock w) (outbox w) (smtpUp w).
Definition with_outbox (o : list Mail) (w : World) : World :=
  mkWorld (users w) (tokens w) (nextId w) (clock w) o (smtpUp w).

(** Time passes between two requests: the clock moves.  The TTL index of
    [tokenSchema] lets the database delete records whose [expires] date has
    passed, in the background and at a time of its choosing; that deletion
    is not part of [at_time] (see [not_stored_since] for later worlds from
    which records may have gone). *)
Definition at_time (t : Z) (w : World) : World :=
  mkWorld (users w) (tokens w) (nextId w) t (outbox w) (smtpUp w).

(** ** The monad of the async code *)

Definition M (A : Type) : Type := World -> Result A * World.

Definition ret {A} (a : A) : M A := fun w => (Ok a, w).
Definition throw {A} (e : Error) : M A := fun w => (Throw e, w).
Definition bind {A B} (c : M A) (k : A -> M B) : M B :=
  fun w => match c w with
           | (Ok a, w') => k a w'
           | (Throw e, w') => (Throw e, w')
           end.
(** [try { c } catch (error) { h error }] *)
Definition try_catch {A} (c : M A) (h : Error -> M A) : M A :=
  fun w => match c w with
           | (Ok a, w') => (Ok a, w')
           | (Throw e, w') => h e w'
           end.
Definition lift_result {A} (r : Result A) : M A := fun w => (r, w).

Notation "x <- c ;; k" := (bind c (fun x => k))
  (at level 100, c at next level, right associativity).
Notation "c ;;; k" := (bind c (fun _ => k))
  (at level 100, right associativity).

(** [moment()] / [new Date()]: the clock, in milliseconds.  It stands still
    while one call runs; [at_time] moves it between calls. *)
Definition moment : M Z := fun w => (Ok (clock w), w).
(** [m.unix()]: whole seconds. *)
Definition unix (m : Z) : Z := m / 1000.
(** [m.add(n, 'minutes')]: minutes are added as milliseconds. *)
Definition add_minutes (n : Z) (m : Z) : Z := m + n * 60000.

(** ** External collaborators *)

(** [config]: the values read from the process environment. *)
Class Config := {
  config_env : string;
  jwt_secret : string;
  jwt_accessExpirationMinutes : Z;
  jwt_refreshExpirationDays : Z;
  jwt_resetPasswordExpirationMinutes : Z;
  jwt_verifyEmailExpirationMinutes : Z
}.

(** [jsonwebtoken]: [jwt.sign(payload, secret)] and
    [jwt.verify(token, secret)], the latter at a clock reading in whole
    seconds.  [verify] throws [JsonWebTokenError] or [TokenExpiredError]. *)
Class Jwt := {
  jwt_sign : Payload -> string -> string;
  jwt_verify : string -> string -> Z -> Result Payload
}.

Definition TokenExpiredError : Error := JsError "TokenExpiredError" "jwt expired".
Definition JsonWebTokenError (message : string) : Error :=
  JsError "JsonWebTokenError" message.

(** What the flows rely on: a token signed with a secret verifies under the
    same secret to the payload that was signed, until its [exp]. *)
Class JwtSound `{Jwt} := verify_sign :
  forall (p : Payload) (secret : string) (clockTimestamp : Z),
    jwt_verify (jwt_sign p secret) secret clockTimestamp =
    if Z.leb (exp p) clockTimestamp then Throw TokenExpiredError else Ok p.

(** [bcrypt]: [hash] and [compare(candidate, hash)]. *)
Class Bcrypt := {
  bcrypt_hash : string -> string;
  bcrypt_compare : string -> string -> bool
}.

(** [moment]: [m.add(n, 'days')] moves the date by [n] days on the local
    calendar and keeps the local time of day, so the instant it yields
    depends on the time zone of the process: across a daylight-saving
    change a day has 23 or 25 hours.  [add_days n m] is that instant, for
    the instant [m], both in milliseconds. *)
Class Moment := {
  add_days : Z -> Z -> Z
}.

(** ** The collections *)

Module User.
Definition findById (i : string) : M (option UserDoc.t) :=
  fun w => (Ok (List.find (fun u => String.eqb (UserDoc.id u) i) (users w)), w).

(** [User.findOne({ email })] *)
Definition findOne_email (e : string) : M (option UserDoc.t) :=
  fun w => (Ok (List.find (fun u => String.eqb (UserDoc.email u) e) (users w)), w).

(** [user.save()] of a document whose password was not assigned. *)
Definition save (u : UserDoc.t) : M unit :=
  fun w => (Ok tt, with_users (UserDoc.replace u (users w)) w).

(** Modelled from the spec: the [comparePassword] method of the user
    schema, which is not part of the sources.  "verifyPassword(user,
    candidate): comparison against stored hash". *)
Definition comparePassword `{Bcrypt} (u : UserDoc.t) (candidate : string) : bool :=
  bcrypt_compare candidate (UserDoc.password u).

(** Modelled from the spec: [user.password = newPassword; user.save()].
    The pre-save hook of the user schema is not part of the sources.  The
    password is "stored only as a salted irreversible hash" and a password
    change "bumps password changed at". *)
Definition save_password `{Bcrypt} (u : UserDoc.t) (newPassword : string)
  : M UserDoc.t :=
  now <- moment ;;
  let u' := UserDoc.mk (UserDoc.id u) (UserDoc.name u) (UserDoc.email u)
              (bcrypt_hash newPassword) (UserDoc.role u) (UserDoc.isActive u)
              (UserDoc.isEmailVerified u) (Some now) (UserDoc.lastLogin u) in
  save u' ;;; ret u'.

(** Modelled from the spec: the [changedPasswordAfter] method of the user
    schema, which is not part of the sources.  "a token is rejected if the
    user's password changed at timestamp is newer than the token's
    issued-at claim".  The claim is in seconds, the date in
    milliseconds. *)
Definition changedPasswordAfter (u : UserDoc.t) (JWTTimestamp : Z) : bool :=
  match UserDoc.passwordChangedAt u with
  | Some changed => Z.ltb JWTTimestamp (unix changed)
  | None => false
  end.
End User.

Module Token.
(** [Token.create({...})]: one record is inserted under a fresh [_id]. *)
Definition create (token user : string) (expires : Z) (type : TokenType)
           (blacklisted : bool) : M TokenDoc.t :=
  fun w =>
    let d := TokenDoc.mk (nextId w) token user type expires blacklisted (clock w) in
    (Ok d, with_nextId (S (nextId w)) (with_tokens (tokens w ++ [d]) w)).

Definition findOne (q : TokenDoc.Query) : M (option TokenDoc.t) :=
  fun w => (Ok (TokenDoc.findOne_in q (tokens w)), w).

Definition deleteMany (q : TokenDoc.Query) : M unit :=
  fun w => (Ok tt, with_tokens (TokenDoc.deleteMany_in q (tokens w)) w).

Definition deleteOne (d : TokenDoc.t) : M unit :=
  fun w => (Ok tt, with_tokens (TokenDoc.deleteOne_in (TokenDoc._id d) (tokens w)) w).

Definition findOneAndUpdate (q : TokenDoc.Query) (f : TokenDoc.t -> TokenDoc.t)
  : M unit :=
  fun w => (Ok tt, with_tokens (TokenDoc.findOneAndUpdate_in q f (tokens w)) w).
End Token.

(** ** [services/email.service.js] *)

Module emailService.
(** [sendEmail]: [transporter.sendMail(msg)]; a transport failure is
    logged and thrown again. *)
Definition sendEmail (m : Mail) : M unit :=
  fun w => if smtpUp w
           then (Ok tt, with_outbox (outbox w ++ [m]) w)
           else (Throw (JsError "Error" "sendMail failed"), w).

Definition sendResetPasswordEmail (to token : string) : M unit :=
  sendEmail (mkMail to "Reset Your Password" token).

Definition sendVerificationEmail (to token : string) : M unit :=
  sendEmail (mkMail to "Verify Your Email" token).

Definition sendWelcomeEmail (to name : string) : M unit :=
  sendEmail (mkMail to "Welcome to Our Platform!" name).
End emailService.

(** ** [services/token.service.js] *)

Record TokenAndExpiry := mkTokenAndExpiry {
  tk_token : string;
  tk_expires : Z
}.

(** [{ access: { token, expires }, refresh: { token, expires } }] *)
Record AuthTokens := mkAuthTokens {
  access : TokenAndExpiry;
  refresh : TokenAndExpiry
}.

Module tokenService.
Section WithEnv.
Context `{Config} `{Jwt} `{Moment}.

Definition generateToken (userId : string) (expires : Z) (type : TokenType)
  : M string :=
  now <- moment ;;
  let payload := mkPayload userId (unix now) (unix expires) type in
  ret (jwt_sign payload jwt_secret).

Definition saveToken (token userId : string) (expires : Z) (type : TokenType)
           (blacklisted : bool) : M TokenDoc.t :=
  Token.create token userId expires type blacklisted.

Definition verifyToken (token : string) (type : TokenType) : M TokenDoc.t :=
  now <- moment ;;
  payload <- lift_result (jwt_verify token jwt_secret (unix now)) ;;
  tokenDoc <- Token.findOne
    (TokenDoc.mkQuery (Some token) (Some type) (Some (sub payload)) (Some false)
                      None None) ;;
  match tokenDoc with
  | None => throw (UnauthorizedError "Token not found")
  | Some d => ret d
  end.

Definition generateAuthTokens (user : UserDoc.t) : M AuthTokens :=
  now <- moment ;;
  let accessTokenExpires := add_minutes jwt_accessExpirationMinutes now in
  accessToken <- generateToken (UserDoc.id user) accessTokenExpires ACCESS ;;
  now' <- moment ;;
  let refreshTokenExpires := add_days jwt_refreshExpirationDays now' in
  refreshToken <- generateToken (UserDoc.id user) refreshTokenExpires REFRESH ;;
  saveToken refreshToken (UserDoc.id user) refreshTokenExpires REFRESH false ;;;
  ret (mkAuthTokens (mkTokenAndExpiry accessToken accessTokenExpires)
                    (mkTokenAndExpiry refreshToken refreshTokenExpires)).

Definition generateResetPasswordToken (userId : string) : M string :=
  now <- moment ;;
  let expires := add_minutes jwt_resetPasswordExpirationMinutes now in
  resetPasswordToken <- generateToken userId expires RESET_PASSWORD ;;
  saveToken resetPasswordToken userId expires RESET_PASSWORD false ;;;
  ret resetPasswordToken.

Definition generateVerifyEmailToken (userId : string) : M string :=
  now <- moment ;;
  let expires := add_minutes jwt_verifyEmailExpirationMinutes now in
  verifyEmailToken <- generateToken userId expires VERIFY_EMAIL ;;
  saveToken verifyEmailToken userId expires VERIFY_EMAIL false ;;;
  ret verifyEmailToken.

Definition blacklistToken (token : string) (type : TokenType) : M unit :=
  Token.findOneAndUpdate
    (TokenDoc.mkQuery (Some token) (Some type) None None None None)
    (TokenDoc.set_blacklisted true).

Definition deleteUserTokens (userId : string) (type : option TokenType) : M unit :=
  Token.deleteMany (TokenDoc.mkQuery None type (Some userId) None None None).
End WithEnv.
End tokenService.

(** ** [services/auth.service.js] *)

Module authService.
Section WithEnv.
Context `{Config} `{Jwt} `{Bcrypt} `{Moment}.

Definition login (email password : string) : M UserDoc.t :=
  user <- User.findOne_email email ;;
  match user with
  | None => throw (UnauthorizedError "Incorrect email or password")
  | Some user =>
      if negb (User.comparePassword user password)
      then throw (UnauthorizedError "Incorrect email or password")
      else if negb (UserDoc.isActive user)
      then throw (UnauthorizedError "Your account has been deactivated")
      else
        now <- moment ;;
        let user := UserDoc.set_lastLogin now user in
        User.save user ;;;
        ret user
  end.

Definition logout (refreshToken : string) : M unit :=
  refreshTokenDoc <- Token.findOne
    (TokenDoc.mkQuery (Some refreshToken) (Some REFRESH) None (Some false)
                      None None) ;;
  match refreshTokenDoc with
  | None => throw (NotFoundError "Token not found")
  | Some d => Token.deleteOne d
  end.

(** The [try] block ends in [return tokenService.generateAuthTokens(user)]
    without [await]: the tokens are generated after the block is left. *)
Definition refreshAuth (refreshToken : string) : M AuthTokens :=
  user <- try_catch
    (refreshTokenDoc <- tokenService.verifyToken refreshToken REFRESH ;;
     user <- User.findById (TokenDoc.user refreshTokenDoc) ;;
     match user with
     | None => throw PlainError
     | Some user => Token.deleteOne refreshTokenDoc ;;; ret user
     end)
    (fun _ => throw (UnauthorizedError "Please authenticate")) ;;
  tokenService.generateAuthTokens user.

Definition resetPassword (resetPasswordToken newPassword : string) : M unit :=
  try_catch
    (resetPasswordTokenDoc <-
       tokenService.verifyToken resetPasswordToken RESET_PASSWORD ;;
     user <- User.findById (TokenDoc.user resetPasswordTokenDoc) ;;
     match user with
     | None => throw PlainError
     | Some user =>
         user <- User.save_password user newPassword ;;
         Token.deleteMany
           (TokenDoc.mkQuery None (Some RESET_PASSWORD) (Some (UserDoc.id user))
                             None None None) ;;;
         Token.deleteMany
           (TokenDoc.mkQuery None (Some REFRESH) (Some (UserDoc.id user))
                             None None None)
     end)
    (fun _ => throw (UnauthorizedError "Password reset failed")).

Definition verifyEmail (verifyEmailToken : string) : M unit :=
  try_catch
    (verifyEmailTokenDoc <-
       tokenService.verifyToken verifyEmailToken VERIFY_EMAIL ;;
     user <- User.findById (TokenDoc.user verifyEmailTokenDoc) ;;
     match user with
     | None => throw PlainError
     | Some user =>
         Token.deleteMany
           (TokenDoc.mkQuery None (Some VERIFY_EMAIL) (Some (UserDoc.id user))
                             None None None) ;;;
         let user := UserDoc.set_isEmailVerified true user in
         User.save user ;;;
         try_catch
           (emailService.sendWelcomeEmail (UserDoc.email user) (UserDoc.name user))
           (fun _ => ret tt)
     end)
    (fun _ => throw (UnauthorizedError "Email verification failed")).

Definition forgotPassword (email : string) : M unit :=
  user <- User.findOne_email email ;;
  match user with
  | None => ret tt
  | Some user =>
      resetPasswordToken <-
        tokenService.generateResetPasswordToken (UserDoc.id user) ;;
      emailService.sendResetPasswordEmail email resetPasswordToken
  end.

Definition changePassword (userId currentPassword newPassword : string) : M unit :=
  user <- User.findById userId ;;
  match user with
  | None => throw (BadRequestError "Current password is incorrect")
  | Some user =>
      if negb (User.comparePassword user currentPassword)
      then throw (BadRequestError "Current password is incorrect")
      else
        user <- User.save_password user newPassword ;;
        Token.deleteMany
          (TokenDoc.mkQuery None (Some REFRESH) (Some (UserDoc.id user))
                            None None None)
  end.
End WithEnv.
End authService.

(** ** [middlewares/auth.middleware.js] *)

(** JSON values of a request body. *)
Unset Elimination Schemes.
Inductive Json :=
| JNull
| JBool (b : bool)
| JNum (n : Z)
| JStr (s : string)
| JArr (l : list Json)
| JObj (l : list (string * Json)).
Set Elimination Schemes.

(** The parts of the Express request the handlers read.  [cookies_accessToken]
    is [req.cookies && req.cookies.accessToken]. *)
Record Request := mkRequest {
  headers_authorization : option string;
  cookies_accessToken : option string;
  params_userId : option string;
  body : gmap string Json;
  req_user : option UserDoc.t
}.

Definition set_req_user (u : UserDoc.t) (req : Request) : Request :=
  mkRequest (headers_authorization req) (cookies_accessToken req)
            (params_userId req) (body req) (Some u).

(** [s.split(c)] for a one-character separator. *)
Fixpoint split (c : ascii) (s : string) : list string :=
  match s with
  | EmptyString => [EmptyString]
  | String a s' =>
      if Ascii.eqb a c then EmptyString :: split c s'
      else match split c s' with
           | [] => [String a EmptyString]
           | h :: t => String a h :: t
           end
  end.

(** Truthiness of a possibly undefined string. *)
Definition truthy_string (s : option string) : bool :=
  match s with
  | None => false
  | Some s => negb (String.eqb s "")
  end.

Module auth.
Section WithEnv.
Context `{Config} `{Jwt}.

(** The token the middleware picks: from the [Authorization] header when
    it starts with [Bearer], else from the [accessToken] cookie. *)
Definition pickToken (req : Request) : option string :=
  match headers_authorization req with
  | Some h =>
      if truthy_string (Some h) && String.prefix "Bearer" h
      then nth_error (split " "%char h) 1
      else if truthy_string (cookies_accessToken req)
           then cookies_accessToken req else None
  | None =>
      if truthy_string (cookies_accessToken req)
      then cookies_accessToken req else None
  end.

(** [Ok req'] is [next()] with the request as it is then; [Throw e] is
    [next(e)]. *)
Definition verifyToken (req : Request) : M Request :=
  try_catch
    (match pickToken req with
     | None => throw (UnauthorizedError "Access denied. No token provided.")
     | Some token =>
         if negb (truthy_string (Some token))
         then throw (UnauthorizedError "Access denied. No token provided.")
         else
           now <- moment ;;
           decoded <- lift_result (jwt_verify token jwt_secret (unix now)) ;;
           user <- User.findById (sub decoded) ;;
           match user with
           | None =>
               throw (UnauthorizedError
                        "The user belonging to this token no longer exists.")
           | Some user =>
               if User.changedPasswordAfter user (iat decoded)
               then throw (UnauthorizedError
                        "User recently changed password. Please log in again.")
               else if negb (UserDoc.isActive user)
               then throw (UnauthorizedError "Your account has been deactivated.")
               else ret (set_req_user user req)
           end
     end)
    (fun error =>
       match error with
       | JsError name _ =>
           if String.eqb name "JsonWebTokenError"
           then throw (UnauthorizedError "Invalid token.")
           else if String.eqb name "TokenExpiredError"
           then throw (UnauthorizedError "Token has expired.")
           else throw error
       | _ => throw error
       end).

(** [authorize(...requiredRights)]: the middleware it returns. *)
Definition authorize (requiredRights : list string) (req : Request) : M Request :=
  match req_user req with
  | None => throw (UnauthorizedError "Please authenticate first.")
  | Some user =>
      if Nat.eqb (length requiredRights) 0 then ret req
      else
        match roleRights_get (role_name (UserDoc.role user)) with
        | None =>
            throw (TypeError "Cannot read properties of undefined (reading 'includes')")
        | Some userRights =>
            let hasRequiredRights :=
              List.forallb (fun right => includes userRights right) requiredRights in
            if negb hasRequiredRights
               && negb (match params_userId req with
                        | Some p => String.eqb p (UserDoc.id user)
                        | None => false
                        end)
            then throw (ForbiddenError
                          "You do not have permission to perform this action.")
            else ret req
        end
  end.
End WithEnv.
End auth.

(** ** [jobs/cron.js]: the daily sweep *)

Module cron.
Definition cleanupExpiredTokens : M unit :=
  try_catch
    (now <- moment ;;
     Token.deleteMany (TokenDoc.mkQuery None None None None (Some now) None))
    (fun _ => ret tt).
End cron.

(** ** [middlewares/error.middleware.js] and the controllers *)

Record Response := mkResponse {
  status : Z;
  success : bool;
  message : string
}.

Section ErrorHandling.
Context `{Config}.

(** The store of the model raises no [mongoose.Error], so the branches for
    those are left out, as is the stack trace added in development. *)
Definition errorConverter (err : Error) : Error :=
  match err with
  | ApiError _ _ _ => err
  | JsError _ m =>
      ApiError 500 (if String.eqb m "" then "Something went wrong" else m) false
  end.

Definition errorHandler (err : Error) : Response :=
  match err with
  | ApiError statusCode message isOperational =>
      let statusCode := if Z.eqb statusCode 0 then 500 else statusCode in
      let message := if String.eqb message "" then "Internal server error" else message in
      if String.eqb config_env "production" && negb isOperational
      then mkResponse 500 false "Internal server error"
      else mkResponse statusCode false message
  | JsError _ message =>
      mkResponse 500 false
        (if String.eqb config_env "production" then "Internal server error"
         else if String.eqb message "" then "Internal server error" else message)
  end.

(** What the client receives from a handler wrapped in [catchAsync] and
    followed by [errorConverter] and [errorHandler]. *)
Definition respond (handler : M Response) : World -> Response * World :=
  fun w => match handler w with
           | (Ok r, w') => (r, w')
           | (Throw e, w') => (errorHandler (errorConverter e), w')
           end.
End ErrorHandling.

Module authController.
Section WithEnv.
Context `{Config} `{Jwt} `{Bcrypt}.

(** [req.body.email] has passed [validate(authValidation.forgotPassword)]:
    it is a string. *)
Definition forgotPassword (body_email : string) : M Response :=
  authService.forgotPassword body_email ;;;
  ret (mkResponse 200 true
    "If an account exists with this email, a password reset link has been sent.").

End WithEnv.
End authController.

(** ** [services/user.service.js] and [updateMe]

    [updateUserById] copies the keys of an arbitrary object onto the user
    document with [Object.assign].  For these two functions the document is
    the plain object the code treats it as: a finite map from property names
    to values, in a collection keyed by id.  Of what the document class
    adds to a plain object the code uses the method [save]. *)

(** The user model ([models/user.model.js]) is not part of the sources, so
    what [user.save()] does once it runs (validation, the pre-save hooks,
    which paths are written) is left open: [user_save stored doc] is the
    document that is persisted when the document read as [stored] is saved
    with the own properties [doc], or the error the save rejects with.  A
    rejected save writes nothing. *)
Class UserModel := {
  user_save : gmap string Json -> gmap string Json -> Result (gmap string Json)
}.

Module userService.
Definition truthy (j : Json) : bool :=
  match j with
  | JNull => false
  | JBool b => b
  | JNum n => negb (Z.eqb n 0)
  | JStr s => negb (String.eqb s "")
  | JArr _ | JObj _ => true
  end.

(** [Object.assign(target, source)]: [target[key] = source[key]] for every
    own key of [source].  For the key [__proto__] the assignment runs the
    setter of [Object.prototype]: no own property is created, the prototype
    of [target] is replaced instead (see [replaces_prototype]). *)
Definition Object_assign (target source : gmap string Json) : gmap string Json :=
  delete "__proto__" source ∪ target.

(** Whether the assignments of [Object.assign(target, source)] give the
    target another prototype: the setter acts when the value is an object
    or [null], and ignores every other value. *)
Definition replaces_prototype (source : gmap string Json) : bool :=
  match source !! "__proto__" with
  | Some (JObj _) | Some (JArr _) | Some JNull => true
  | _ => false
  end.

(** Whether [user.save] is still the method of the model after
    [Object.assign(user, source)]: an own key [save] of [source] shadows it
    with a JSON value, and a replaced prototype does not have it. *)
Definition keeps_save (source : gmap string Json) : bool :=
  match source !! "save" with
  | Some _ => false
  | None => negb (replaces_prototype source)
  end.

Definition getUserById (id : string) (store : gmap string (gmap string Json))
  : Result (gmap string Json) :=
  match store !! id with
  | Some user => Ok user
  | None => Throw (NotFoundError "User not found")
  end.

(** Modelled from the spec: the static [User.isEmailTaken(email,
    excludeUserId)] of the user schema, which is not part of the sources.
    "email (unique)": the email is taken when a document other than the
    excluded one carries it. *)
Definition isEmailTaken (email : Json) (excludeUserId : string)
           (store : gmap string (gmap string Json)) : bool :=
  match email with
  | JStr e =>
      List.existsb
        (fun kv => negb (String.eqb (fst kv) excludeUserId)
                   && match snd kv !! "email" with
                      | Some (JStr e') => String.eqb e' e
                      | _ => false
                      end)
        (map_to_list store)
  | _ => false
  end.

(** [updateBody.email && (await User.isEmailTaken(updateBody.email, userId))] *)
Definition emailConflict (userId : string) (updateBody : gmap string Json)
           (store : gmap string (gmap string Json)) : bool :=
  match updateBody !! "email" with
  | Some e => truthy e && isEmailTaken e userId store
  | None => false
  end.

(** [user.save()] on the document after [Object.assign]: calling a
    [user.save] that is no longer the method throws the [TypeError]. *)
Definition updateUserById `{UserModel} (userId : string)
           (updateBody : gmap string Json) (store : gmap string (gmap string Json))
  : Result (gmap string Json) * gmap string (gmap string Json) :=
  match getUserById userId store with
  | Throw e => (Throw e, store)
  | Ok stored =>
      if emailConflict userId updateBody store
      then (Throw (ConflictError "Email already taken"), store)
      else
        let user := Object_assign stored updateBody in
        if keeps_save updateBody
        then match user_save stored user with
             | Ok saved => (Ok saved, <[userId := saved]> store)
             | Throw e => (Throw e, store)
             end
        else (Throw (TypeError "user.save is not a function"), store)
  end.
End userService.

Module profile.
(** [const { password, role, isActive, isEmailVerified, ...updateData } = req.body] *)
Definition updateData (body : gmap string Json) : gmap string Json :=
  delete "isEmailVerified" (delete "isActive" (delete "role" (delete "password" body))).

(** [authController.updateMe] for the authenticated user [req.user.id] and
    a request body that is an object. *)
Definition updateMe `{UserModel} (req_user_id : string) (body : gmap string Json)
           (store : gmap string (gmap string Json))
  : Result (Response * gmap string Json) * gmap string (gmap string Json) :=
  match userService.updateUserById req_user_id (updateData body) store with
  | (Ok user, store') =>
      (Ok (mkResponse 200 true "Profile updated successfully", user), store')
  | (Throw e, store') => (Throw e, store')
  end.

Definition sensitive : list string :=
  ["password"; "role"; "isActive"; "isEmailVerified"].
End profile.

(** ** Two rotations at once

    Node runs one handler at a time and switches between requests at every
    [await].  [refreshAuth] awaits four times: the ledger lookup of
    [verifyToken], [User.findById], [deleteOne], and the [Token.create] of
    [generateAuthTokens].  [step] runs the code up to the next [await]. *)

Module rotation.
Section WithEnv.
Context `{Config} `{Jwt} `{Moment}.

Inductive Pc :=
| AtVerifyToken (refreshToken : string)
| AtFindById (refreshTokenDoc : TokenDoc.t)
| AtDeleteOne (refreshTokenDoc : TokenDoc.t) (user : UserDoc.t)
| AtGenerateAuthTokens (user : UserDoc.t)
| Finished (r : Result AuthTokens).

Definition rejected : Pc :=
  Finished (Throw (UnauthorizedError "Please authenticate")).

Definition step (pc : Pc) (w : World) : Pc * World :=
  match pc with
  | AtVerifyToken refreshToken =>
      match tokenService.verifyToken refreshToken REFRESH w with
      | (Ok d, w') => (AtFindById d, w')
      | (Throw _, w') => (rejected, w')
      end
  | AtFindById d =>
      match User.findById (TokenDoc.user d) w with
      | (Ok (Some user), w') => (AtDeleteOne d user, w')
      | (_, w') => (rejected, w')
      end
  | AtDeleteOne d user =>
      match Token.deleteOne d w with
      | (Ok _, w') => (AtGenerateAuthTokens user, w')
      | (Throw _, w') => (rejected, w')
      end
  | AtGenerateAuthTokens user =>
      match tokenService.generateAuthTokens user w with
      | (r, w') => (Finished r, w')
      end
  | Finished r => (Finished r, w)
  end.

(** One request running alone for [n] steps. *)
Fixpoint steps (n : nat) (pc : Pc) (w : World) : Pc * World :=
  match n with
  | O => (pc, w)
  | S n' => match step pc w with (pc', w') => steps n' pc' w' end
  end.

Inductive Client := client1 | client2.

Record Sys := mkSys {
  pc1 : Pc;
  pc2 : Pc;
  world : World
}.

Definition sys_step (s : Sys) (c : Client) : Sys :=
  match c with
  | client1 => match step (pc1 s) (world s) with
               | (pc', w') => mkSys pc' (pc2 s) w'
               end
  | client2 => match step (pc2 s) (world s) with
               | (pc', w') => mkSys (pc1 s) pc' w'
               end
  end.

(** The schedule lists which request runs to its next [await]. *)
Definition run (schedule : list Client) (s : Sys) : Sys :=
  List.fold_left sys_step schedule s.

(** Both clients present the same refresh token. *)
Definition start (refreshToken : string) (w : World) : Sys :=
  mkSys (AtVerifyToken refreshToken) (AtVerifyToken refreshToken) w.

Definition succeeded (pc : Pc) : bool :=
  match pc with
  | Finished r => is_ok r
  | _ => false
  end.
End WithEnv.
End rotation.

(** ** Well-formed ledgers *)

(** The store gives every record its own [_id], below the next one it will
    hand out. *)
Definition ids (l : list TokenDoc.t) : list nat := List.map TokenDoc._id l.

Definition wf (w : World) : Prop :=
  List.NoDup (ids (tokens w)) /\ List.Forall (fun i => (i < nextId w)%nat) (ids (tokens w)).

(** How many ledger records carry a given token string. *)
Definition count_token (token : string) (l : list TokenDoc.t) : nat :=
  length (List.filter (fun d => String.eqb (TokenDoc.token d) token) l).

(** The ledger with every [expires] date rewritten by [f]. *)
Definition redate (f : TokenDoc.t -> Z) (w : World) : World :=
  with_tokens (List.map (fun d => TokenDoc.set_expires (f d) d) (tokens w)) w.

(** ** A reference environment

    The defaults of [config/config.js], and small deterministic stand-ins
    for the two libraries: a token is the bit string of an encoding of the
    secret and the payload, a hash is the password behind a prefix.  They
    serve to run the model on concrete requests. *)

Definition tokenType_code (t : TokenType) : nat :=
  match t with
  | ACCESS => 0
  | REFRESH => 1
  | RESET_PASSWORD => 2
  | VERIFY_EMAIL => 3
  end.

Definition tokenType_of_code (n : nat) : option TokenType :=
  match n with
  | 0%nat => Some ACCESS
  | 1%nat => Some REFRESH
  | 2%nat => Some RESET_PASSWORD
  | 3%nat => Some VERIFY_EMAIL
  | _ => None
  end.

Fixpoint bits_of_pos (p : positive) : string :=
  match p with
  | xH => EmptyString
  | xO q => String "0" (bits_of_pos q)
  | xI q => String "1" (bits_of_pos q)
  end.

Fixpoint pos_of_bits (s : string) : option positive :=
  match s with
  | EmptyString => Some xH
  | String c s' =>
      if Ascii.eqb c "0" then option_map xO (pos_of_bits s')
      else if Ascii.eqb c "1" then option_map xI (pos_of_bits s')
      else None
  end.

Definition sample_sign (p : Payload) (secret : string) : string :=
  bits_of_pos (encode (secret, sub p, iat p, exp p, tokenType_code (ptype p))).

Definition sample_verify (token secret : string) (clockTimestamp : Z)
  : Result Payload :=
  match pos_of_bits token with
  | None => Throw (JsonWebTokenError "jwt malformed")
  | Some n =>
      match decode n : option (string * string * Z * Z * nat) with
      | Some (secret', s, i, e, c) =>
          match tokenType_of_code c with
          | Some t =>
              if negb (String.eqb secret' secret)
              then Throw (JsonWebTokenError "invalid signature")
              else if Z.leb e clockTimestamp then Throw TokenExpiredError
              else Ok (mkPayload s i e t)
          | None => Throw (JsonWebTokenError "jwt malformed")
          end
      | None => Throw (JsonWebTokenError "jwt malformed")
      end
  end.

#[export] Instance sampleConfig : Config := {|
  config_env := "test";
  jwt_secret := "k";
  jwt_accessExpirationMinutes := 30;
  jwt_refreshExpirationDays := 30;
  jwt_resetPasswordExpirationMinutes := 10;
  jwt_verifyEmailExpirationMinutes := 60
|}.

#[export] Instance sampleJwt : Jwt := {|
  jwt_sign := sample_sign;
  jwt_verify := sample_verify
|}.

#[export] Instance sampleBcrypt : Bcrypt := {|
  bcrypt_hash := fun s => String "#" s;
  bcrypt_compare := fun candidate h => String.eqb (String "#" candidate) h
|}.

(** A process whose time zone is UTC: every day has 24 hours. *)
#[export] Instance sampleMoment : Moment := {|
  add_days := fun n m => m + n * 86400000
|}.

(** A user model without validation or hooks: the document is written as
    it is. *)
#[export] Instance sampleUserModel : UserModel := {|
  user_save := fun _ doc => Ok doc
|}.

(** A user, and a world that holds her and nothing else. *)
Definition alice : UserDoc.t :=
  UserDoc.mk "u1" "Alice" "a@x.com" "#abc12345" user_role true false None None.

Definition world0 : World := mkWorld [alice] [] 0 1000 [] true.

(** ** Notions the properties are stated with *)

(** The refresh token [generateAuthTokens] signs for a user at a clock
    reading. *)
Definition refreshTokenAt `{Config} `{Jwt} `{Moment} (userId : string) (now : Z) : string :=
  jwt_sign (mkPayload userId (unix now)
                      (unix (add_days jwt_refreshExpirationDays now)) REFRESH)
           jwt_secret.

(** No refresh record of the user is in the ledger. *)
Definition no_refresh_records (uid : string) (l : list TokenDoc.t) : Prop :=
  forall d, In d l -> TokenDoc.user d = uid -> TokenDoc.type d <> REFRESH.

(** In the later world [w2] no record carrying the token string has been
    stored since [w1]: every record of that string was already there.
    Whatever else has happened in between is left open: the clock may have
    moved, users changed, other records been stored, and records removed
    (by a flow, the sweep or the TTL index). *)
Definition not_stored_since (token : string) (w1 w2 : World) : Prop :=
  forall d, In d (tokens w2) -> TokenDoc.token d = token -> In d (tokens w1).

(** [password_changed uid w w'] holds when [w'] is the world left by a
    completed [changePassword] or [resetPassword] for the user [uid]. *)
Definition password_changed `{Config} `{Jwt} `{Bcrypt}
           (uid : string) (w w' : World) : Prop :=
  (exists currentPassword newPassword,
      authService.changePassword uid currentPassword newPassword w = (Ok tt, w'))
  \/
  (exists resetPasswordToken newPassword d,
      fst (tokenService.verifyToken resetPasswordToken RESET_PASSWORD w) = Ok d
      /\ TokenDoc.user d = uid
      /\ authService.resetPassword resetPasswordToken newPassword w = (Ok tt, w')).

(** The states of two rotations of one token from the moment the first
    client has deleted the record: the ledger has no record for the token,
    the first client is about to issue or has finished, the second has not
    looked up yet or has been refused. *)
Definition after_delete `{Config} `{Jwt} (refreshToken : string) (user : UserDoc.t)
           (now : Z) (s : rotation.Sys) : Prop :=
  count_token refreshToken (tokens (rotation.world s)) = 0%nat
  /\ clock (rotation.world s) = now
  /\ (rotation.pc1 s = rotation.AtGenerateAuthTokens user
      \/ exists r, rotation.pc1 s = rotation.Finished r)
  /\ (rotation.pc2 s = rotation.AtVerifyToken refreshToken
      \/ rotation.pc2 s = rotation.rejected).

(** Both clients run to their next [await] in turn, four times. *)
Definition alternating : list rotation.Client :=
  [rotation.client1; rotation.client2; rotation.client1; rotation.client2;
   rotation.client1; rotation.client2; rotation.client1; rotation.client2].

(** How many entries of a schedule are the client's. *)
Definition same_client (a b : rotation.Client) : bool :=
  match a, b with
  | rotation.client1, rotation.client1 | rotation.client2, rotation.client2 => true
  | _, _ => false
  end.

Definition steps_of (c : rotation.Client) (schedule : list rotation.Client) : nat :=
  length (List.filter (same_client c) schedule).

(** The entries of a client in a schedule are its steps in order: the
    first is its lookup, the third its delete.  With [n1] and [n2] steps
    taken so far, [lookups_before_deletes n1 n2 schedule] says that no
    client takes its third step before the other has taken its first. *)
Fixpoint lookups_before_deletes (n1 n2 : nat) (schedule : list rotation.Client)
  : bool :=
  match schedule with
  | [] => true
  | rotation.client1 :: rest =>
      (if Nat.eqb n1 2 then Nat.leb 1 n2 else true)
      && lookups_before_deletes (S n1) n2 rest
  | rotation.client2 :: rest =>
      (if Nat.eqb n2 2 then Nat.leb 1 n1 else true)
      && lookups_before_deletes n1 (S n2) rest
  end.

(** Where a rotation stands after [n] steps when its lookup found the
    record [d] and the user was stored. *)
Definition reached (refreshToken : string) (d : TokenDoc.t) (user : UserDoc.t)
           (n : nat) (pc : rotation.Pc) : Prop :=
  match n with
  | 0%nat => pc = rotation.AtVerifyToken refreshToken
  | 1%nat => pc = rotation.AtFindById d
  | 2%nat => pc = rotation.AtDeleteOne d user
  | 3%nat => pc = rotation.AtGenerateAuthTokens user
  | _ => rotation.succeeded pc = true
  end.

(** ** Sample worlds and requests *)

(** Alice right after a login at clock reading 1000 (second 1): the refresh
    token that login handed her, its ledger record and the access token. *)
Definition world_login : World :=
  snd (tokenService.generateAuthTokens alice world0).

Definition token_login : string := refreshTokenAt "u1" 1000.

Definition doc_login : TokenDoc.t :=
  TokenDoc.mk 0 token_login "u1" REFRESH 2592001000 false 1000.

Definition access_login : string :=
  jwt_sign (mkPayload "u1" 1 1801 ACCESS) jwt_secret.

(** One second after the login. *)
Definition world_later : World := at_time 2000 world_login.

(** The world after Alice changed her password. *)
Definition world_changed : World :=
  snd (authService.changePassword "u1" "abc12345" "newpass99" world_login).

(** The first world while the mail relay refuses connections. *)
Definition world_smtp_down : World := mkWorld [alice] [] 0 1000 [] false.

(** A request that carries the access token in its header, and one from
    Alice, authenticated, that names her own id in the path. *)
Definition request_bearer : Request :=
  mkRequest (Some (String.append "Bearer " access_login)) None None ∅ None.

Definition request_own_id : Request :=
  mkRequest None None (Some "u1") ∅ (Some alice).

(** Alice's profile document, a collection that holds it, and a profile
    update that also asks for the admin role. *)
Definition alice_obj : gmap string Json :=
  list_to_map [("name", JStr "Alice"); ("email", JStr "a@x.com");
               ("password", JStr "#abc12345"); ("role", JStr "user");
               ("isActive", JBool true); ("isEmailVerified", JBool false)].

Definition store0 : gmap string (gmap string Json) := {[ "u1" := alice_obj ]}.

Definition body_role : gmap string Json :=
  list_to_map [("name", JStr "Al"); ("role", JStr "admin")].

(** ** Further collaborators, guards and notions *)

Definition with_smtpUp (b : bool) (w : World) : World :=
  mkWorld (users w) (tokens w) (nextId w) (clock w) (outbox w) b.

(** The payload is part of the token: whenever [jwt.verify] accepts a
    token, it returns the payload the token carries. *)
Class JwtStable `{Jwt} := verify_stable :
  forall (token secret : string) (t1 t2 : Z) (p1 p2 : Payload),
    jwt_verify token secret t1 = Ok p1 ->
    jwt_verify token secret t2 = Ok p2 ->
    p1 = p2.

(** The other two guards of [middlewares/auth.middleware.js]. *)
Module authGuards.
Section WithEnv.
Context `{Config} `{Jwt}.

(** [optionalAuth]: the user is attached when the token holds; every
    failure is swallowed and the request goes on without a user. *)
Definition optionalAuth (req : Request) : M Request :=
  try_catch
    (match auth.pickToken req with
     | None => ret req
     | Some token =>
         if negb (truthy_string (Some token)) then ret req
         else
           now <- moment ;;
           decoded <- lift_result (jwt_verify token jwt_secret (unix now)) ;;
           user <- User.findById (sub decoded) ;;
           match user with
           | None => ret req
           | Some user =>
               if UserDoc.isActive user
                  && negb (User.changedPasswordAfter user (iat decoded))
               then ret (set_req_user user req)
               else ret req
           end
     end)
    (fun _ => ret req).

(** [requireVerifiedEmail] reads [req.user.isEmailVerified]; without a user
    on the request the read throws. *)
Definition requireVerifiedEmail (req : Request) : M Request :=
  match req_user req with
  | None =>
      throw (TypeError "Cannot read properties of undefined (reading 'isEmailVerified')")
  | Some user =>
      if negb (UserDoc.isEmailVerified user)
      then throw (ForbiddenError "Please verify your email to access this resource.")
      else ret req
  end.
End WithEnv.
End authGuards.

(** The ledger records that are not a refresh record of the user. *)
Definition not_refresh_of (uid : string) (d : TokenDoc.t) : Prop :=
  TokenDoc.user d <> uid \/ TokenDoc.type d <> REFRESH.

(** Alice with two sessions: the login at second 1 and another at second 2. *)
Definition world_two_sessions : World :=
  snd (tokenService.generateAuthTokens alice world_later).

Definition token_second : string := refreshTokenAt "u1" 2000.

(** The welcome mail of [verifyEmail]: sent when the relay is up, and the
    failure swallowed when it is not. *)
Definition welcomed (user : UserDoc.t) (w : World) : World :=
  if smtpUp w
  then with_outbox (outbox w ++ [mkMail (UserDoc.email user) "Welcome to Our Platform!"
                                         (UserDoc.name user)]) w
  else w.

(** The same user under another role. *)
Definition with_role (r : Role) (u : UserDoc.t) : UserDoc.t :=
  UserDoc.mk (UserDoc.id u) (UserDoc.name u) (UserDoc.email u) (UserDoc.password u)
             r (UserDoc.isActive u) (UserDoc.isEmailVerified u)
             (UserDoc.passwordChangedAt u) (UserDoc.lastLogin u).

(** The string has no blank in it. *)
Definition no_blank (s : string) : Prop :=
  ~ In " "%char (list_ascii_of_string s).

(** The configuration of a production deployment. *)
Definition productionConfig : Config := {|
  config_env := "production";
  jwt_secret := "k";
  jwt_accessExpirationMinutes := 30;
  jwt_refreshExpirationDays := 30;
  jwt_resetPasswordExpirationMinutes := 10;
  jwt_verifyEmailExpirationMinutes := 60
|}.

(** The rest of [services/user.service.js] that works on one document:
    [deleteUserById], [deactivateUser] and [activateUser], on the collection
    of plain objects of [userService].  The two that save assign the one
    schema field [isActive] and save with [validateBeforeSave: false]: the
    document is written as it is. *)
Module userAdmin.
Definition deleteUserById (userId : string) (store : gmap string (gmap string Json))
  : Result (gmap string Json) * gmap string (gmap string Json) :=
  match userService.getUserById userId store with
  | Throw e => (Throw e, store)
  | Ok user => (Ok user, delete userId store)
  end.

Definition deactivateUser (userId : string) (store : gmap string (gmap string Json))
  : Result (gmap string Json) * gmap string (gmap string Json) :=
  match userService.getUserById userId store with
  | Throw e => (Throw e, store)
  | Ok user =>
      let user := <["isActive" := JBool false]> user in
      (Ok user, <[userId := user]> store)
  end.

Definition activateUser (userId : string) (store : gmap string (gmap string Json))
  : Result (gmap string Json) * gmap string (gmap string Json) :=
  match userService.getUserById userId store with
  | Throw e => (Throw e, store)
  | Ok user =>
      let user := <["isActive" := JBool true]> user in
      (Ok user, <[userId := user]> store)
  end.
End userAdmin.

(** ** Sequences of service calls

    What a client, a controller or the scheduler can do to the world through
    the services: one constructor per call, and the passing of time. *)
Inductive Call :=
| call_login (email password : string)
| call_generateAuthTokens (user : UserDoc.t)
| call_logout (refreshToken : string)
| call_refreshAuth (refreshToken : string)
| call_forgotPassword (email : string)
| call_resetPassword (resetPasswordToken newPassword : string)
| call_generateVerifyEmailToken (userId : string)
| call_verifyEmail (verifyEmailToken : string)
| call_changePassword (userId currentPassword newPassword : string)
| call_blacklistToken (token : string) (type : TokenType)
| call_deleteUserTokens (userId : string) (type : option TokenType)
| call_cleanupExpiredTokens
| call_tick (t : Z)
| call_smtp (up : bool).

Definition exec `{Config} `{Jwt} `{Bcrypt} `{Moment} (c : Call) (w : World) : World :=
  match c with
  | call_login email password => snd (authService.login email password w)
  | call_generateAuthTokens user => snd (tokenService.generateAuthTokens user w)
  | call_logout refreshToken => snd (authService.logout refreshToken w)
  | call_refreshAuth refreshToken => snd (authService.refreshAuth refreshToken w)
  | call_forgotPassword email => snd (authService.forgotPassword email w)
  | call_resetPassword token newPassword =>
      snd (authService.resetPassword token newPassword w)
  | call_generateVerifyEmailToken userId =>
      snd (tokenService.generateVerifyEmailToken userId w)
  | call_verifyEmail token => snd (authService.verifyEmail token w)
  | call_changePassword userId currentPassword newPassword =>
      snd (authService.changePassword userId currentPassword newPassword w)
  | call_blacklistToken token type => snd (tokenService.blacklistToken token type w)
  | call_deleteUserTokens userId type =>
      snd (tokenService.deleteUserTokens userId type w)
  | call_cleanupExpiredTokens => snd (cron.cleanupExpiredTokens w)
  | call_tick t => at_time t w
  | call_smtp up => with_smtpUp up w
  end.

Definition run_calls `{Config} `{Jwt} `{Bcrypt} `{Moment} (calls : list Call) (w : World)
  : World :=
  List.fold_left (fun w c => exec c w) calls w.

(** What every call keeps, relative to the world [w0] the sequence started
    from: record ids stay unique and below the next id, no access token is
    ever stored, the users are the same ids in the same order, ids are not
    handed out again, and mail once sent stays sent. *)
Definition kept (w0 w : World) : Prop :=
  wf w
  /\ (forall d, In d (tokens w) -> TokenDoc.type d <> ACCESS)
  /\ List.map UserDoc.id (users w) = List.map UserDoc.id (users w0)
  /\ (nextId w0 <= nextId w)%nat
  /\ exists sent, outbox w = outbox w0 ++ sent.

(** A computation keeps a property of the world, whatever it returns. *)
Definition keeps {A} (P : World -> Prop) (c : M A) : Prop :=
  forall w, P w -> P (snd (c w)).

(** ** [utils/helpers.js] *)

(** A JavaScript number as [parseInt] and [Math.min] know it. *)
Inductive JsNum := NaN | Num (z : Z) | PosInf | NegInf.

Record PaginationOptions := mkPaginationOptions {
  page : JsNum;
  limit : JsNum;
  sortBy : string;
  order : string
}.

(** An object as [pick] builds it from [{}]: its own properties, and its
    prototype once that is no longer [Object.prototype]. *)
Record Obj := mkObj {
  own : gmap string Json;
  proto : option Json
}.

Module helpers.
Definition is_object_or_null (v : Json) : bool :=
  match v with
  | JObj _ | JArr _ | JNull => true
  | _ => false
  end.

(** Whether an assignment to [obj.__proto__] reaches the accessor of
    [Object.prototype]: not when [obj] has the own property, nor when its
    prototype is [null] or has the own property. *)
Definition reaches_setter (obj : Obj) : bool :=
  match own obj !! "__proto__" with
  | Some _ => false
  | None =>
      match proto obj with
      | None => true
      | Some JNull => false
      | Some (JObj l) =>
          negb (List.existsb (fun kv => String.eqb (fst kv) "__proto__") l)
      | Some _ => true
      end
  end.

(** [obj[key] = v].  The accessor [__proto__] replaces the prototype when
    [v] is an object or [null] and ignores every other value; it creates no
    own property.  Every other assignment sets an own property. *)
Definition assign (obj : Obj) (key : string) (v : Json) : Obj :=
  if String.eqb key "__proto__" && reaches_setter obj
  then if is_object_or_null v then mkObj (own obj) (Some v) else obj
  else mkObj (<[key := v]> (own obj)) (proto obj).

(** [pick(object, keys)]: the own properties of [object] named in [keys]
    are assigned to a new object; a falsy [object] has none. *)
Definition pick (object : option (gmap string Json)) (keys : list string) : Obj :=
  List.fold_left
    (fun obj key =>
       match object with
       | Some o => match o !! key with
                   | Some v => assign obj key v
                   | None => obj
                   end
       | None => obj
       end)
    keys (mkObj ∅ None).

(** Truthiness of a number, and [a || b] on numbers. *)
Definition num_truthy (n : JsNum) : bool :=
  match n with
  | NaN => false
  | Num z => negb (Z.eqb z 0)
  | PosInf | NegInf => true
  end.

Definition num_or (a b : JsNum) : JsNum := if num_truthy a then a else b.

Definition Math_min (a b : JsNum) : JsNum :=
  match a, b with
  | NaN, _ | _, NaN => NaN
  | NegInf, _ | _, NegInf => NegInf
  | PosInf, x | x, PosInf => x
  | Num x, Num y => Num (Z.min x y)
  end.

(** [getPaginationOptions(query)] for a query whose four values are strings
    or absent.  [parseInt(_, 10)] is the built-in, taken as it is. *)
Definition getPaginationOptions (parseInt : option string -> JsNum)
           (query_page query_limit query_sortBy query_order : option string)
  : PaginationOptions :=
  let page := num_or (parseInt query_page) (Num 1) in
  let limit := Math_min (num_or (parseInt query_limit) (Num 10)) (Num 100) in
  let sortBy := match query_sortBy with
                | Some s => if String.eqb s "" then "createdAt" else s
                | None => "createdAt"
                end in
  let order := match query_order with
               | Some s => if String.eqb s "asc" then "asc" else "desc"
               | None => "desc"
               end in
  mkPaginationOptions page limit sortBy order.

(** [retryWithBackoff(fn, maxRetries, baseDelay)].  [attempt i] is what the
    call number [i] of [fn] does; the result is the value returned or the
    value thrown ([None] is [undefined]), with the delays slept in order. *)
Fixpoint retry_from {A} (attempt : nat -> Result A) (maxRetries : nat) (baseDelay : Z)
         (left i : nat) (lastError : option Error) (slept : list Z)
  : (A + option Error) * list Z :=
  match left with
  | O => (inr lastError, slept)
  | S left' =>
      match attempt i with
      | Ok a => (inl a, slept)
      | Throw error =>
          retry_from attempt maxRetries baseDelay left' (S i) (Some error)
            (if Nat.ltb i (maxRetries - 1)
             then slept ++ [baseDelay * 2 ^ Z.of_nat i] else slept)
      end
  end.

Definition retryWithBackoff {A} (attempt : nat -> Result A) (maxRetries : nat)
           (baseDelay : Z) : (A + option Error) * list Z :=
  retry_from attempt maxRetries baseDelay maxRetries 0 None [].
End helpers.

(** ** [authController.logout] *)

(** What a handler sent: the cookies it cleared and the JSON response. *)
Record Reply := mkReply {
  reply_clearedCookies : list string;
  reply_response : Response
}.

Module sessionController.
(** [req.body.refreshToken || req.cookies.refreshToken] *)
Definition presented (body_refreshToken cookies_refreshToken : option string)
  : option string :=
  if truthy_string body_refreshToken then body_refreshToken else cookies_refreshToken.

Definition logout (body_refreshToken cookies_refreshToken : option string) : M Reply :=
  match presented body_refreshToken cookies_refreshToken with
  | Some refreshToken =>
      if truthy_string (Some refreshToken)
      then authService.logout refreshToken else ret tt
  | None => ret tt
  end ;;;
  ret (mkReply ["refreshToken"] (mkResponse 200 true "Logout successful")).
End sessionController.

(** ** Further sample worlds *)

(** Alice right after registration: a verify-email token is in the ledger;
    and right after she asked for a password reset. *)
Definition world_verify : World :=
  snd (tokenService.generateVerifyEmailToken "u1" world0).

Definition token_verify : string :=
  jwt_sign (mkPayload "u1" 1 3601 VERIFY_EMAIL) jwt_secret.

Definition world_forgot : World :=
  snd (authService.forgotPassword "a@x.com" world0).

(** Alice logged in and then asked for a password reset, within second 1. *)
Definition world_login_forgot : World :=
  snd (authService.forgotPassword "a@x.com" world_login).

Definition token_reset : string :=
  jwt_sign (mkPayload "u1" 1 601 RESET_PASSWORD) jwt_secret.


(** * Properties *)

(** ** The reference libraries are sound *)

Lemma pos_of_bits_of_pos (p : positive) : pos_of_bits (bits_of_pos p) = Some p.
Proof.
  induction p as [q IH | q IH |]; simpl; try rewrite IH; reflexivity.
Qed.

Lemma tokenType_of_code_code (t : TokenType) :
  tokenType_of_code (tokenType_code t) = Some t.
Proof. destruct t; reflexivity. Qed.

Lemma sampleJwt_sound : @JwtSound sampleJwt.
Proof.
  intros p secret ts. simpl. unfold sample_verify, sample_sign.
  rewrite pos_of_bits_of_pos, decode_encode, tokenType_of_code_code.
  rewrite String.eqb_refl. simpl. destruct p; reflexivity.
Qed.

#[export] Existing Instance sampleJwt_sound.

(** ** Basic facts about the model *)

Lemma tokenType_eqb_eq (a b : TokenType) : tokenType_eqb a b = true <-> a = b.
Proof. destruct a, b; simpl; split; intros E; try reflexivity; discriminate. Qed.

Lemma includes_In (l : list string) (x : string) : includes l x = true <-> In x l.
Proof.
  unfold includes. rewrite List.existsb_exists. split.
  - intros [y [Hy E]]. apply String.eqb_eq in E. subst. exact Hy.
  - intros Hx. exists x. split; [exact Hx | apply String.eqb_refl].
Qed.

Lemma count_token_app (token : string) (l1 l2 : list TokenDoc.t) :
  count_token token (l1 ++ l2) = (count_token token l1 + count_token token l2)%nat.
Proof. unfold count_token. rewrite List.filter_app, List.length_app. reflexivity. Qed.

Lemma count_token_In (d : TokenDoc.t) (l : list TokenDoc.t) :
  In d l -> (1 <= count_token (TokenDoc.token d) l)%nat.
Proof.
  unfold count_token. induction l as [| h l IH]; simpl; [tauto |].
  intros [-> | Hin].
  - rewrite String.eqb_refl. simpl. lia.
  - specialize (IH Hin). destruct (String.eqb _ _); simpl; lia.
Qed.

Lemma findOne_in_Some (q : TokenDoc.Query) (l : list TokenDoc.t) (d : TokenDoc.t) :
  TokenDoc.findOne_in q l = Some d -> In d l /\ TokenDoc.matches q d = true.
Proof. unfold TokenDoc.findOne_in. apply List.find_some. Qed.

Lemma matches_token (q : TokenDoc.Query) (d : TokenDoc.t) (token : string) :
  TokenDoc.q_token q = Some token -> TokenDoc.matches q d = true ->
  TokenDoc.token d = token.
Proof.
  unfold TokenDoc.matches. intros ->. simpl.
  rewrite !andb_true_iff. intros [[[[[E _] _] _] _] _].
  apply String.eqb_eq. exact E.
Qed.

Lemma findOne_in_no_token (q : TokenDoc.Query) (l : list TokenDoc.t) (token : string) :
  TokenDoc.q_token q = Some token -> count_token token l = 0%nat ->
  TokenDoc.findOne_in q l = None.
Proof.
  intros Hq Hc. destruct (TokenDoc.findOne_in q l) as [d |] eqn:E; [| reflexivity].
  apply findOne_in_Some in E as [Hin Hm].
  apply (matches_token _ _ _ Hq) in Hm. subst token.
  apply count_token_In in Hin. lia.
Qed.

(** A search for a token string that finds nothing still finds nothing
    later, as long as no record of that string has been stored since. *)
Lemma findOne_in_later (q : TokenDoc.Query) (token : string) (l1 l2 : list TokenDoc.t) :
  TokenDoc.q_token q = Some token ->
  TokenDoc.findOne_in q l1 = None ->
  (forall d, In d l2 -> TokenDoc.token d = token -> In d l1) ->
  TokenDoc.findOne_in q l2 = None.
Proof.
  intros Hq Hnone Hsince.
  destruct (TokenDoc.findOne_in q l2) as [d |] eqn:E; [| reflexivity].
  apply findOne_in_Some in E as [Hin Hm].
  pose proof (matches_token _ _ _ Hq Hm) as Ht.
  unfold TokenDoc.findOne_in in Hnone.
  rewrite (List.find_none _ _ Hnone d (Hsince d Hin Ht)) in Hm. discriminate Hm.
Qed.

Lemma find_map_invariant {A} (p : A -> bool) (g : A -> A) (l : list A) :
  (forall x, p (g x) = p x) ->
  List.find p (List.map g l) = option_map g (List.find p l).
Proof.
  intros Hp. induction l as [| x l IH]; simpl; [reflexivity |].
  rewrite Hp. destruct (p x); [reflexivity | exact IH].
Qed.

(** ** The ledger *)

(** C3, as amended: [saveToken] inserts one new record on every call.  A
    second call with the same token string adds a second record under a
    fresh [_id]; it does not leave the ledger as the first call left it. *)
Theorem saveToken_inserts_each_call :
  forall (token userId : string) (expires : Z) (type : TokenType)
         (blacklisted : bool) (w : World),
    let r1 := tokenService.saveToken token userId expires type blacklisted w in
    let r2 := tokenService.saveToken token userId expires type blacklisted (snd r1) in
    tokens (snd r1) =
      tokens w ++ [TokenDoc.mk (nextId w) token userId type expires blacklisted (clock w)]
    /\ count_token token (tokens (snd r1)) = S (count_token token (tokens w))
    /\ count_token token (tokens (snd r2)) = S (count_token token (tokens (snd r1))).
Proof.
  intros token userId expires type blacklisted w.
  unfold tokenService.saveToken, Token.create. simpl.
  rewrite !count_token_app. unfold count_token. simpl.
  rewrite String.eqb_refl. simpl. repeat split; lia.
Qed.

(** C3, as stated, fails: saved twice into the empty ledger, one token
    string has two records, and the ledger after the second call is not the
    ledger after the first. *)
Lemma saveToken_twice_two_records :
  let w1 := snd (tokenService.saveToken "t" "u1" 5000 REFRESH false world0) in
  let w2 := snd (tokenService.saveToken "t" "u1" 5000 REFRESH false w1) in
  w2 <> w1 /\ count_token "t" (tokens w1) = 1%nat /\ count_token "t" (tokens w2) = 2%nat.
Proof.
  cbn. split; [| split; reflexivity].
  intros E. apply (f_equal nextId) in E. discriminate E.
Qed.

(** C4: the ledger lookup of [verifyToken] returns a record only if the
    record is in the ledger, carries the presented token string, is of the
    requested kind and is not blacklisted.  The [expires] date of a record
    is no part of the filter: however the dates in the ledger are rewritten,
    the lookup returns the same record. *)
Theorem verifyToken_lookup_ignores_expiry `{Config} `{Jwt} :
  forall (token : string) (type : TokenType) (w w' : World) (d : TokenDoc.t),
    tokenService.verifyToken token type w = (Ok d, w') ->
    (In d (tokens w) /\ TokenDoc.token d = token /\ TokenDoc.type d = type
     /\ TokenDoc.blacklisted d = false /\ w' = w)
    /\ forall f : TokenDoc.t -> Z,
        tokenService.verifyToken token type (redate f w) =
        (Ok (TokenDoc.set_expires (f d) d), redate f w).
Proof.
  intros token type w w' d.
  unfold tokenService.verifyToken, bind, moment, lift_result, Token.findOne.
  destruct (jwt_verify token jwt_secret (unix (clock w))) as [p | e] eqn:Ev;
    [| discriminate].
  set (q := TokenDoc.mkQuery _ _ _ _ _ _).
  destruct (TokenDoc.findOne_in q (tokens w)) as [d0 |] eqn:Ef; [| discriminate].
  intros E. injection E as <- <-. split.
  - apply findOne_in_Some in Ef as [Hin Hm]. repeat split; try assumption.
    + exact (matches_token q d0 token eq_refl Hm).
    + unfold TokenDoc.matches, q in Hm. simpl in Hm.
      rewrite !andb_true_iff in Hm. apply tokenType_eqb_eq. tauto.
    + unfold TokenDoc.matches, q in Hm. simpl in Hm.
      rewrite !andb_true_iff in Hm. destruct Hm as [[[[[_ _] _] Hb] _] _].
      destruct (TokenDoc.blacklisted d0); [discriminate Hb | reflexivity].
  - intros f. cbn. rewrite Ev. fold q. unfold TokenDoc.findOne_in.
    rewrite (find_map_invariant (TokenDoc.matches q)
               (fun d => TokenDoc.set_expires (f d) d)) by reflexivity.
    unfold TokenDoc.findOne_in in Ef. rewrite Ef. reflexivity.
Qed.

(** ** Login *)

(** C7: an unknown email and a wrong password for a known email fail with
    the same error, [UnauthorizedError("Incorrect email or password")], and
    leave the store as it was. *)
Theorem login_failure_indistinguishable `{Bcrypt} :
  forall (w w' : World) (email email' password password' : string)
         (user : UserDoc.t),
    fst (User.findOne_email email w) = Ok None ->
    fst (User.findOne_email email' w') = Ok (Some user) ->
    User.comparePassword user password' = false ->
    authService.login email password w =
      (Throw (UnauthorizedError "Incorrect email or password"), w)
    /\ authService.login email' password' w' =
      (Throw (UnauthorizedError "Incorrect email or password"), w').
Proof.
  intros w w' email email' password password' user Hnone Hsome Hcmp.
  unfold authService.login, bind, User.findOne_email in *. simpl in *.
  injection Hnone as ->. injection Hsome as ->.
  rewrite Hcmp. split; reflexivity.
Qed.

(** ** The authorization gate *)


Lemma role_has_rights (r : Role) :
  exists userRights, roleRights_get (role_name r) = Some userRights.
Proof. destruct r; eexists; reflexivity. Qed.

(** C9: with a user on the request and at least one required right,
    [authorize] calls [next()] exactly when the user's role has every
    required right or the [userId] path parameter is the user's own id, and
    answers [ForbiddenError] otherwise.  A user without the rights passes
    on their own id. *)
Theorem authorize_rights_or_own_id :
  forall (requiredRights : list string) (req : Request) (user : UserDoc.t)
         (w : World),
    req_user req = Some user ->
    requiredRights <> [] ->
    exists userRights,
      roleRights_get (role_name (UserDoc.role user)) = Some userRights
      /\ ((forall right, In right requiredRights -> In right userRights)
            \/ params_userId req = Some (UserDoc.id user) ->
          auth.authorize requiredRights req w = (Ok req, w))
      /\ (~ ((forall right, In right requiredRights -> In right userRights)
            \/ params_userId req = Some (UserDoc.id user)) ->
          auth.authorize requiredRights req w =
          (Throw (ForbiddenError "You do not have permission to perform this action."), w))
      /\ (params_userId req = Some (UserDoc.id user) ->
          auth.authorize requiredRights req w = (Ok req, w)).
Proof.
  intros requiredRights req user w Hu Hne.
  destruct (role_has_rights (UserDoc.role user)) as [userRights Hr].
  exists userRights. split; [exact Hr |].
  assert (Hlen : Nat.eqb (length requiredRights) 0 = false).
  { destruct requiredRights; [contradiction | reflexivity]. }
  unfold auth.authorize. rewrite Hu, Hlen, Hr.
  assert (Hall : List.forallb (fun right => includes userRights right) requiredRights = true
                 <-> forall right, In right requiredRights -> In right userRights).
  { rewrite List.forallb_forall. split; intros Hx right Hin.
    - apply includes_In. auto.
    - apply includes_In. auto. }
  assert (Hown : match params_userId req with
                 | Some p => String.eqb p (UserDoc.id user)
                 | None => false
                 end = true <-> params_userId req = Some (UserDoc.id user)).
  { destruct (params_userId req) as [p |].
    - rewrite String.eqb_eq. split; [intros -> | intros [= ->]]; reflexivity.
    - split; discriminate. }
  destruct (List.forallb _ requiredRights) eqn:Ea;
    destruct (match params_userId req with Some _ => _ | None => _ end) eqn:Eo;
    simpl; repeat split; intros Hg; try reflexivity; exfalso;
    destruct Hall as [Hall1 Hall2]; destruct Hown as [Hown1 Hown2];
    intuition discriminate.
Qed.

(** ** Forgot password *)

(** While mail is delivered, [forgotPassword] answers every email with the
    same success response. *)
Lemma forgotPassword_response_when_delivered `{Config} `{Jwt} `{Bcrypt} :
  forall (w : World) (email : string),
    smtpUp w = true ->
    fst (respond (authController.forgotPassword email) w) =
    mkResponse 200 true
      "If an account exists with this email, a password reset link has been sent.".
Proof.
  intros w email Hup.
  unfold respond, authController.forgotPassword, authService.forgotPassword,
    bind, ret, User.findOne_email.
  destruct (List.find _ (users w)); [| reflexivity].
  unfold tokenService.generateResetPasswordToken, tokenService.generateToken,
    tokenService.saveToken, Token.create, emailService.sendResetPasswordEmail,
    emailService.sendEmail, bind, ret, moment.
  simpl. rewrite Hup. reflexivity.
Qed.

(** For an unknown email nothing is issued and nothing is sent. *)
Lemma forgotPassword_unknown_email `{Config} `{Jwt} `{Bcrypt} :
  forall (w : World) (email : string),
    fst (User.findOne_email email w) = Ok None ->
    authService.forgotPassword email w = (Ok tt, w).
Proof.
  intros w email Hnone.
  unfold authService.forgotPassword, bind, User.findOne_email in *. simpl in *.
  injection Hnone as ->. reflexivity.
Qed.

(** C8 does not hold of the code.  [register] and [verifyEmail] catch a
    failed mail delivery; [forgotPassword] does not.  While the relay is
    down, a registered email is answered with status 500 and an unknown one
    with the 200 success message, after a reset token was stored for the
    registered one. *)
Theorem forgotPassword_mail_failure_reveals_account :
  fst (respond (authController.forgotPassword "a@x.com") world_smtp_down)
    = mkResponse 500 false "sendMail failed"
  /\ fst (respond (authController.forgotPassword "nobody@x.com") world_smtp_down)
    = mkResponse 200 true
        "If an account exists with this email, a password reset link has been sent."
  /\ length (tokens (snd (respond (authController.forgotPassword "a@x.com")
                               world_smtp_down))) = 1%nat.
Proof. vm_compute. repeat split; reflexivity. Qed.

(** ** Profile update *)

Lemma updateData_sensitive (body : gmap string Json) (k : string) :
  In k profile.sensitive -> profile.updateData body !! k = None.
Proof.
  unfold profile.sensitive, profile.updateData. simpl.
  intros [<- | [<- | [<- | [<- | []]]]];
    repeat (rewrite lookup_delete_ne by discriminate);
    apply lookup_delete_eq.
Qed.

Lemma updateData_other (body : gmap string Json) (k : string) :
  ~ In k profile.sensitive -> profile.updateData body !! k = body !! k.
Proof.
  unfold profile.sensitive, profile.updateData. simpl. intros Hk.
  rewrite !lookup_delete_ne; [reflexivity | | | |]; intros <-; tauto.
Qed.

(** C10: [updateMe] removes [password], [role], [isActive] and
    [isEmailVerified] from the request body and forwards every other key to
    [updateUserById].  The document it hands to [user.save()] has the four
    fields as they are stored and every other supplied key at the supplied
    value; the handler stores what the save persisted and answers 200 with
    it, so the four stored fields stay as they were whenever the save
    writes them as the document holds them.  A body key [save], or a
    [__proto__] that replaces the prototype, ends the handler with the
    [TypeError] of calling [user.save]; a handler that fails leaves the
    collection unchanged. *)
Theorem updateMe_keeps_sensitive_fields `{UserModel} :
  forall (uid : string) (body : gmap string Json)
         (store : gmap string (gmap string Json)) (old : gmap string Json),
    store !! uid = Some old ->
    let doc := userService.Object_assign old (profile.updateData body) in
    (forall k, In k profile.sensitive -> profile.updateData body !! k = None)
    /\ (forall k, ~ In k profile.sensitive -> profile.updateData body !! k = body !! k)
    /\ (forall k, In k profile.sensitive -> doc !! k = old !! k)
    /\ (forall k v, ~ In k profile.sensitive -> k <> "__proto__" ->
                    body !! k = Some v -> doc !! k = Some v)
    /\ (userService.emailConflict uid (profile.updateData body) store = false ->
        userService.keeps_save body = true ->
        profile.updateMe uid body store =
        match user_save old doc with
        | Ok new =>
            (Ok (mkResponse 200 true "Profile updated successfully", new),
             <[uid := new]> store)
        | Throw e => (Throw e, store)
        end)
    /\ (forall new store',
          profile.updateMe uid body store
            = (Ok (mkResponse 200 true "Profile updated successfully", new), store') ->
          (forall k, In k profile.sensitive -> new !! k = doc !! k) ->
          store' !! uid = Some new
          /\ forall k, In k profile.sensitive -> new !! k = old !! k)
    /\ (userService.emailConflict uid (profile.updateData body) store = false ->
        userService.keeps_save body = false ->
        profile.updateMe uid body store
        = (Throw (TypeError "user.save is not a function"), store))
    /\ (forall e store', profile.updateMe uid body store = (Throw e, store') ->
                         store' = store).
Proof.
  intros uid body store old Hold doc.
  assert (Hdoc : forall k, In k profile.sensitive -> doc !! k = old !! k).
  { intros k Hk. unfold doc, userService.Object_assign. apply lookup_union_r.
    destruct (String.eqb_spec k "__proto__") as [-> | Hne];
      [apply lookup_delete_eq |].
    rewrite lookup_delete_ne by congruence. apply updateData_sensitive. exact Hk. }
  assert (Hks : userService.keeps_save (profile.updateData body)
                = userService.keeps_save body).
  { unfold userService.keeps_save, userService.replaces_prototype.
    rewrite !updateData_other; [reflexivity | |];
      unfold profile.sensitive; simpl; intros [E | [E | [E | [E | []]]]];
      discriminate E. }
  split; [intros k; apply updateData_sensitive |].
  split; [intros k; apply updateData_other |].
  split; [exact Hdoc |].
  split.
  { intros k v Hk Hne Hv. unfold doc, userService.Object_assign.
    apply lookup_union_Some_l. rewrite lookup_delete_ne by congruence.
    rewrite updateData_other by exact Hk. exact Hv. }
  unfold profile.updateMe, userService.updateUserById, userService.getUserById.
  rewrite Hold, Hks. fold doc.
  destruct (userService.emailConflict uid (profile.updateData body) store).
  { split; [discriminate |]. split; [intros new store' E; discriminate E |].
    split; [discriminate |]. intros e store' E. injection E as _ <-. reflexivity. }
  destruct (userService.keeps_save body).
  - destruct (user_save old doc) as [saved | err].
    + split; [reflexivity |]. split.
      * intros new store' E Hsave. injection E as <- <-.
        split; [apply lookup_insert_eq |].
        intros k Hk. rewrite Hsave by exact Hk. apply Hdoc. exact Hk.
      * split; [discriminate |]. intros e store' E. discriminate E.
    + split; [reflexivity |]. split; [intros new store' E; discriminate E |].
      split; [discriminate |]. intros e store' E. injection E as _ <-. reflexivity.
  - split; [discriminate |]. split; [intros new store' E; discriminate E |].
    split; [reflexivity |]. intros e store' E. injection E as _ <-. reflexivity.
Qed.

(** ** Rotation *)

Lemma generateAuthTokens_eq `{Config} `{Jwt} `{Moment} (user : UserDoc.t) (w : World) :
  tokenService.generateAuthTokens user w =
  let now := clock w in
  let accessExpires := add_minutes jwt_accessExpirationMinutes now in
  let refreshExpires := add_days jwt_refreshExpirationDays now in
  let accessToken :=
    jwt_sign (mkPayload (UserDoc.id user) (unix now) (unix accessExpires) ACCESS)
             jwt_secret in
  let refreshToken := refreshTokenAt (UserDoc.id user) now in
  (Ok (mkAuthTokens (mkTokenAndExpiry accessToken accessExpires)
                    (mkTokenAndExpiry refreshToken refreshExpires)),
   with_nextId (S (nextId w))
     (with_tokens
        (tokens w ++ [TokenDoc.mk (nextId w) refreshToken (UserDoc.id user) REFRESH
                                  refreshExpires false now]) w)).
Proof. reflexivity. Qed.

(** What a successful rotation went through. *)
Lemma refreshAuth_Ok_inv `{Config} `{Jwt} `{Moment} (refreshToken : string) (w w1 : World)
      (issued : AuthTokens) :
  authService.refreshAuth refreshToken w = (Ok issued, w1) ->
  exists (p : Payload) (d : TokenDoc.t) (user : UserDoc.t),
    jwt_verify refreshToken jwt_secret (unix (clock w)) = Ok p
    /\ TokenDoc.findOne_in
         (TokenDoc.mkQuery (Some refreshToken) (Some REFRESH) (Some (sub p))
                           (Some false) None None) (tokens w) = Some d
    /\ List.find (fun u => String.eqb (UserDoc.id u) (TokenDoc.user d)) (users w)
       = Some user
    /\ tokenService.generateAuthTokens user
         (with_tokens (TokenDoc.deleteOne_in (TokenDoc._id d) (tokens w)) w)
       = (Ok issued, w1).
Proof.
  unfold authService.refreshAuth, tokenService.verifyToken, try_catch, bind,
    moment, lift_result, Token.findOne, User.findById, Token.deleteOne, throw, ret.
  destruct (jwt_verify refreshToken jwt_secret (unix (clock w))) as [p | e];
    [| discriminate].
  destruct (TokenDoc.findOne_in _ (tokens w)) as [d |] eqn:Ef; [| discriminate].
  destruct (List.find _ (users w)) as [user |] eqn:Eu; [| discriminate].
  intros E. exists p, d, user. repeat split; assumption.
Qed.


Lemma deleteOne_in_other (i : nat) (l : list TokenDoc.t) :
  ~ In i (ids l) -> TokenDoc.deleteOne_in i l = l.
Proof.
  induction l as [| h l IH]; simpl; [reflexivity |]. intros Hn.
  destruct (Nat.eqb (TokenDoc._id h) i) eqn:E.
  - apply Nat.eqb_eq in E. tauto.
  - f_equal. apply IH. tauto.
Qed.

Lemma In_ids (d : TokenDoc.t) (l : list TokenDoc.t) :
  In d l -> In (TokenDoc._id d) (ids l).
Proof. apply List.in_map. Qed.

(** Deleting the record a lookup returned leaves no record for its token
    string, when it was the only one. *)
Lemma deleteOne_in_clears_token (d : TokenDoc.t) (l : list TokenDoc.t) :
  List.NoDup (ids l) -> In d l ->
  (count_token (TokenDoc.token d) l <= 1)%nat ->
  count_token (TokenDoc.token d) (TokenDoc.deleteOne_in (TokenDoc._id d) l) = 0%nat.
Proof.
  induction l as [| h l IH]; simpl; [tauto |].
  intros Hnd Hin Hc. inversion Hnd as [| ? ? Hnotin Hnd']; subst.
  unfold count_token in Hc. simpl in Hc.
  destruct (Nat.eqb (TokenDoc._id h) (TokenDoc._id d)) eqn:Eid.
  - apply Nat.eqb_eq in Eid. destruct Hin as [-> | Hin].
    + rewrite String.eqb_refl in Hc. simpl in Hc. fold (count_token (TokenDoc.token d) l) in Hc. lia.
    + exfalso. apply Hnotin. rewrite Eid. apply In_ids. exact Hin.
  - destruct Hin as [-> | Hin]; [rewrite Nat.eqb_refl in Eid; discriminate |].
    pose proof (count_token_In d l Hin) as H1.
    destruct (String.eqb (TokenDoc.token h) (TokenDoc.token d)) eqn:Et; simpl in Hc;
      fold (count_token (TokenDoc.token d) l) in Hc; [lia |].
    unfold count_token. simpl. rewrite Et.
    apply IH; [assumption | assumption | lia].
Qed.



(** ** Password change and reset *)

Lemma find_replace (u' u : UserDoc.t) (us : list UserDoc.t) :
  List.find (fun v => String.eqb (UserDoc.id v) (UserDoc.id u')) us = Some u ->
  List.find (fun v => String.eqb (UserDoc.id v) (UserDoc.id u'))
            (UserDoc.replace u' us) = Some u'.
Proof.
  induction us as [| v us IH]; simpl; [discriminate |].
  destruct (String.eqb (UserDoc.id v) (UserDoc.id u')) eqn:E; simpl.
  - intros _. rewrite String.eqb_refl. reflexivity.
  - rewrite E. exact IH.
Qed.

Lemma find_id (i : string) (us : list UserDoc.t) (u : UserDoc.t) :
  List.find (fun v => String.eqb (UserDoc.id v) i) us = Some u -> UserDoc.id u = i.
Proof. intros E. apply List.find_some in E as [_ E]. apply String.eqb_eq. exact E. Qed.

Lemma deleteMany_in_refresh (uid : string) (l : list TokenDoc.t) :
  no_refresh_records uid
    (TokenDoc.deleteMany_in
       (TokenDoc.mkQuery None (Some REFRESH) (Some uid) None None None) l).
Proof.
  intros d Hin Hu Ht. unfold TokenDoc.deleteMany_in in Hin.
  apply List.filter_In in Hin as [_ Hm].
  unfold TokenDoc.matches in Hm. simpl in Hm.
  rewrite Hu, Ht, String.eqb_refl in Hm. discriminate Hm.
Qed.

(** What a completed password change leaves behind. *)
Lemma password_changed_inv `{Config} `{Jwt} `{Bcrypt} `{Moment} (uid : string) (w w' : World) :
  password_changed uid w w' ->
  no_refresh_records uid (tokens w')
  /\ exists u, List.find (fun v => String.eqb (UserDoc.id v) uid) (users w') = Some u.
Proof.
  intros [(cur & new & E) | (tok & new & d & Ev & Hd & E)].
  - unfold authService.changePassword, User.findById, User.save_password,
      User.save, Token.deleteMany, bind, ret, throw, moment in E.
    destruct (List.find _ (users w)) as [u |] eqn:Eu; [| discriminate].
    destruct (negb (User.comparePassword u cur)); [discriminate |].
    simpl in E. injection E as <-. simpl.
    pose proof (find_id _ _ _ Eu) as Hid. subst uid. split.
    + apply deleteMany_in_refresh.
    + eexists.
      apply (find_replace (UserDoc.mk (UserDoc.id u) _ _ _ _ _ _ _ _) u).
      exact Eu.
  - unfold authService.resetPassword, try_catch, bind in E.
    destruct (tokenService.verifyToken tok RESET_PASSWORD w) as [[d0 | e] w0] eqn:Ev0;
      simpl in Ev; [| discriminate]. injection Ev as ->.
    assert (w0 = w) as ->.
    { unfold tokenService.verifyToken, bind, moment, lift_result, Token.findOne,
        throw, ret in Ev0.
      destruct (jwt_verify _ _ _); [| congruence].
      destruct (TokenDoc.findOne_in _ _); congruence. }
    unfold User.findById, User.save_password, User.save, Token.deleteMany,
      bind, ret, throw, moment in E.
    destruct (List.find _ (users w)) as [u |] eqn:Eu; [| discriminate].
    simpl in E. injection E as <-. simpl.
    pose proof (find_id _ _ _ Eu) as Hid.
    assert (uid = UserDoc.id u) as -> by congruence.
    rewrite <- Hid in Eu. split.
    + apply deleteMany_in_refresh.
    + eexists.
      apply (find_replace (UserDoc.mk (UserDoc.id u) _ _ _ _ _ _ _ _) u).
      exact Eu.
Qed.

Lemma find_app_last {A} (p : A -> bool) (l : list A) (x : A) :
  p x = true -> exists y, List.find p (l ++ [x]) = Some y.
Proof.
  intros Hx. induction l as [| h l IH]; simpl.
  - rewrite Hx. eauto.
  - destruct (p h); eauto.
Qed.

(** A pair issued to a stored user rotates until the refresh token
    expires. *)
Lemma fresh_pair_rotates {J : Jwt} {JS : @JwtSound J} `{Config} `{Moment}
      (user stored : UserDoc.t) (w : World) (t2 : Z) :
  List.find (fun v => String.eqb (UserDoc.id v) (UserDoc.id user)) (users w)
    = Some stored ->
  unix t2 < unix (add_days jwt_refreshExpirationDays (clock w)) ->
  exists fresh w'',
    tokenService.generateAuthTokens user w = (Ok fresh, w'')
    /\ is_ok (fst (authService.refreshAuth (tk_token (refresh fresh))
                     (at_time t2 w''))) = true.
Proof.
  intros Hu Hlt. rewrite generateAuthTokens_eq. cbv zeta.
  eexists _, _. split; [reflexivity |].
  unfold authService.refreshAuth, tokenService.verifyToken, try_catch, bind,
    moment, lift_result, Token.findOne, User.findById, Token.deleteOne, throw, ret.
  cbn [tk_token refresh clock at_time with_nextId with_tokens tokens users].
  unfold refreshTokenAt at 1. rewrite verify_sign.
  cbn [exp sub].
  destruct (Z.leb_spec (unix (add_days jwt_refreshExpirationDays (clock w))) (unix t2))
    as [Hle | _]; [lia |].
  set (q := TokenDoc.mkQuery _ _ _ _ _ _).
  set (nd := TokenDoc.mk _ _ _ _ _ _ _).
  assert (Hm : TokenDoc.matches q nd = true).
  { unfold TokenDoc.matches, q, nd. simpl. rewrite !String.eqb_refl. reflexivity. }
  destruct (find_app_last (TokenDoc.matches q) (tokens w) nd Hm) as [d Hd].
  unfold TokenDoc.findOne_in. rewrite Hd.
  assert (Hud : TokenDoc.user d = UserDoc.id user).
  { apply List.find_some in Hd as [_ Hd].
    unfold TokenDoc.matches, q in Hd. simpl in Hd. rewrite !andb_true_iff in Hd.
    destruct Hd as [[[[[_ _] Hd] _] _] _]. apply String.eqb_eq in Hd. exact Hd. }
  cbn [users at_time with_nextId with_tokens]. rewrite Hud, Hu.
  rewrite generateAuthTokens_eq. reflexivity.
Qed.

(** C5, as amended: [changePassword] completes when the current password
    matches and [resetPassword] when the reset token verifies against the
    ledger for a stored user.  Once either has completed, the ledger holds
    no refresh record of that user; every refresh token signed for the user
    is refused at rotation in every later world in which no record with its
    string has been stored since; and a pair issued to the user afterwards
    rotates until the expiry it was issued with. *)
Theorem password_change_revokes_refresh_tokens
        {J : Jwt} {JS : @JwtSound J} `{Config} `{Bcrypt} `{Moment} :
  forall (uid : string) (w : World) (stored : UserDoc.t),
    List.find (fun v => String.eqb (UserDoc.id v) uid) (users w) = Some stored ->
    (forall currentPassword newPassword,
        User.comparePassword stored currentPassword = true ->
        exists w',
          authService.changePassword uid currentPassword newPassword w = (Ok tt, w'))
    /\ (forall resetPasswordToken newPassword d,
          fst (tokenService.verifyToken resetPasswordToken RESET_PASSWORD w) = Ok d ->
          TokenDoc.user d = uid ->
          exists w',
            authService.resetPassword resetPasswordToken newPassword w = (Ok tt, w'))
    /\ (forall w',
          password_changed uid w w' ->
          no_refresh_records uid (tokens w')
          /\ (forall (p : Payload) (w'' : World),
                sub p = uid ->
                not_stored_since (jwt_sign p jwt_secret) w' w'' ->
                authService.refreshAuth (jwt_sign p jwt_secret) w'' =
                (Throw (UnauthorizedError "Please authenticate"), w''))
          /\ (forall (user : UserDoc.t) (t1 : Z),
                UserDoc.id user = uid ->
                exists fresh w'',
                  tokenService.generateAuthTokens user (at_time t1 w')
                    = (Ok fresh, w'')
                  /\ forall t2 : Z,
                       unix t2 < unix (tk_expires (refresh fresh)) ->
                       is_ok (fst (authService.refreshAuth (tk_token (refresh fresh))
                                     (at_time t2 w''))) = true)).
Proof.
  intros uid w stored Hstored. split; [| split].
  - intros cur new Hcmp.
    unfold authService.changePassword, User.findById, User.save_password,
      User.save, Token.deleteMany, bind, ret, throw, moment.
    rewrite Hstored, Hcmp. simpl. eexists. reflexivity.
  - intros tok new d Hv Hd.
    unfold authService.resetPassword, try_catch, bind.
    destruct (tokenService.verifyToken tok RESET_PASSWORD w) as [[d0 | e] w0] eqn:Ev0;
      simpl in Hv; [| discriminate]. injection Hv as ->.
    assert (w0 = w) as ->.
    { unfold tokenService.verifyToken, bind, moment, lift_result, Token.findOne,
        throw, ret in Ev0.
      destruct (jwt_verify _ _ _); [| congruence].
      destruct (TokenDoc.findOne_in _ _); congruence. }
    unfold User.findById, User.save_password, User.save, Token.deleteMany,
      bind, ret, throw, moment.
    rewrite Hd, Hstored. simpl. eexists. reflexivity.
  - intros w' Hpc.
    destruct (password_changed_inv uid w w' Hpc) as [Hno [stored' Hstored']].
    split; [exact Hno |]. split.
    + intros p w'' Hsub Hsince.
      unfold authService.refreshAuth, tokenService.verifyToken, try_catch, bind,
        moment, lift_result, Token.findOne, throw.
      rewrite verify_sign.
      destruct (Z.leb (exp p) (unix (clock w''))); [reflexivity |].
      set (q := TokenDoc.mkQuery _ _ _ _ _ _).
      rewrite (findOne_in_later q (jwt_sign p jwt_secret) (tokens w') (tokens w''));
        [reflexivity | reflexivity | | exact Hsince].
      destruct (TokenDoc.findOne_in q (tokens w')) as [d |] eqn:Ef; [| reflexivity].
      exfalso. apply findOne_in_Some in Ef as [Hin Hm].
      unfold TokenDoc.matches, q in Hm. simpl in Hm. rewrite !andb_true_iff in Hm.
      destruct Hm as [[[[[_ Ht] Hu] _] _] _].
      apply tokenType_eqb_eq in Ht. apply String.eqb_eq in Hu.
      apply (Hno d Hin); congruence.
    + intros user t1 Hid. rewrite generateAuthTokens_eq. cbv zeta.
      eexists _, _. split; [reflexivity |].
      cbn [tk_expires refresh]. intros t2 Hlt.
      destruct (fresh_pair_rotates user stored' (at_time t1 w') t2) as (fresh & w2 & Hg & Hok).
      * rewrite Hid. exact Hstored'.
      * exact Hlt.
      * rewrite generateAuthTokens_eq in Hg. cbv zeta in Hg.
        injection Hg as <- <-. exact Hok.
Qed.

(** C5, as stated, fails: Alice changes her password in the second her
    refresh token was issued in; the token is refused right after the
    change, but a login within the same second stores a record with the
    very same string, and the old token rotates. *)
Lemma old_token_rotates_after_password_change :
  tokenService.verifyToken token_login REFRESH world_login = (Ok doc_login, world_login)
  /\ authService.changePassword "u1" "abc12345" "newpass99" world_login
     = (Ok tt, world_changed)
  /\ is_ok (fst (authService.refreshAuth token_login (at_time 1500 world_changed)))
     = false
  /\ is_ok (fst (authService.refreshAuth token_login
                   (snd (tokenService.generateAuthTokens alice
                           (at_time 1500 world_changed))))) = true.
Proof. vm_compute. repeat split; reflexivity. Qed.

(** ** Two rotations at once *)

Lemma verifyToken_eq `{Config} `{Jwt} (token : string) (type : TokenType) (w : World) :
  tokenService.verifyToken token type w =
  (match jwt_verify token jwt_secret (unix (clock w)) with
   | Ok p =>
       match TokenDoc.findOne_in
               (TokenDoc.mkQuery (Some token) (Some type) (Some (sub p)) (Some false)
                                 None None) (tokens w) with
       | Some d => Ok d
       | None => Throw (UnauthorizedError "Token not found")
       end
   | Throw e => Throw e
   end, w).
Proof.
  unfold tokenService.verifyToken, bind, moment, lift_result, Token.findOne, throw, ret.
  destruct (jwt_verify token jwt_secret (unix (clock w))); [| reflexivity].
  destruct (TokenDoc.findOne_in _ (tokens w)); reflexivity.
Qed.

Lemma verifyToken_no_record `{Config} `{Jwt} (token : string) (type : TokenType)
      (w : World) :
  count_token token (tokens w) = 0%nat ->
  exists e, tokenService.verifyToken token type w = (Throw e, w).
Proof.
  intros Hc. rewrite verifyToken_eq.
  destruct (jwt_verify token jwt_secret (unix (clock w))) as [p | e]; [| eauto].
  set (q := TokenDoc.mkQuery _ _ _ _ _ _).
  rewrite (findOne_in_no_token q _ token eq_refl Hc). eauto.
Qed.

(** Run alone, the four steps are [refreshAuth]. *)
Lemma steps_refreshAuth `{Config} `{Jwt} `{Moment} (refreshToken : string) (w : World) :
  rotation.steps 4 (rotation.AtVerifyToken refreshToken) w =
  (rotation.Finished (fst (authService.refreshAuth refreshToken w)),
   snd (authService.refreshAuth refreshToken w)).
Proof.
  unfold authService.refreshAuth, try_catch, bind, throw, ret, rotation.steps,
    rotation.step, rotation.rejected.
  rewrite verifyToken_eq.
  destruct (jwt_verify refreshToken jwt_secret (unix (clock w))) as [p | e];
    [| reflexivity].
  destruct (TokenDoc.findOne_in _ (tokens w)) as [d |]; [| reflexivity].
  unfold User.findById, Token.deleteOne.
  destruct (List.find _ (users w)) as [user |]; [| reflexivity].
  destruct (tokenService.generateAuthTokens user _) as [r w4]. reflexivity.
Qed.

(** What the world looks like once the first client has deleted the record
    it looked up, with the second client still to start. *)
Lemma first_client_deleted `{Config} `{Jwt} `{Moment} (refreshToken : string) (w : World)
      (user : UserDoc.t) :
  rotation.pc1 (rotation.run [rotation.client1; rotation.client1; rotation.client1]
                             (rotation.start refreshToken w))
    = rotation.AtGenerateAuthTokens user ->
  exists d,
    tokenService.verifyToken refreshToken REFRESH w = (Ok d, w)
    /\ In d (tokens w)
    /\ TokenDoc.token d = refreshToken
    /\ List.find (fun u => String.eqb (UserDoc.id u) (TokenDoc.user d)) (users w)
       = Some user
    /\ rotation.run [rotation.client1; rotation.client1; rotation.client1]
                    (rotation.start refreshToken w)
       = rotation.mkSys (rotation.AtGenerateAuthTokens user)
           (rotation.AtVerifyToken refreshToken)
           (with_tokens (TokenDoc.deleteOne_in (TokenDoc._id d) (tokens w)) w).
Proof.
  unfold rotation.run, rotation.start. simpl.
  rewrite verifyToken_eq.
  destruct (jwt_verify refreshToken jwt_secret (unix (clock w))) as [p | e];
    [| discriminate].
  destruct (TokenDoc.findOne_in _ (tokens w)) as [d |] eqn:Ef; [| discriminate].
  simpl. unfold User.findById.
  destruct (List.find _ (users w)) as [u |] eqn:Eu; [| discriminate].
  simpl. intros [= ->]. exists d.
  apply findOne_in_Some in Ef as [Hin Hm].
  repeat split; try assumption.
  eapply matches_token; [| exact Hm]. reflexivity.
Qed.

Lemma after_delete_step `{Config} `{Jwt} `{Moment} (refreshToken : string) (user : UserDoc.t)
      (now : Z) (s : rotation.Sys) (c : rotation.Client) :
  refreshTokenAt (UserDoc.id user) now <> refreshToken ->
  after_delete refreshToken user now s ->
  after_delete refreshToken user now (rotation.sys_step s c)
  /\ (c = rotation.client2 \/ rotation.pc2 s = rotation.rejected ->
      rotation.pc2 (rotation.sys_step s c) = rotation.rejected).
Proof.
  intros Hne (Hc & Hclk & Hp1 & Hp2).
  destruct s as [p1 p2 w0]. unfold after_delete.
  cbn [rotation.pc1 rotation.pc2 rotation.world] in *.
  destruct c; unfold rotation.sys_step;
    cbn [rotation.pc1 rotation.pc2 rotation.world].
  - (* the first client runs *)
    destruct Hp1 as [-> | [r ->]]; cbn [rotation.step].
    + rewrite generateAuthTokens_eq. cbv zeta.
      cbn [rotation.pc1 rotation.pc2 rotation.world tokens clock with_nextId
           with_tokens].
      split; [| intros [[=] | ->]; reflexivity].
      repeat split; try assumption; [| eauto].
      rewrite count_token_app, Hc. unfold count_token.
      cbn [List.filter TokenDoc.token]. rewrite Hclk.
      destruct (String.eqb _ refreshToken) eqn:E; [| reflexivity].
      apply String.eqb_eq in E. contradiction.
    + cbn [rotation.pc1 rotation.pc2 rotation.world].
      split; [| intros [[=] | ->]; reflexivity].
      repeat split; try assumption. eauto.
  - (* the second client runs *)
    destruct Hp2 as [-> | ->]; cbn [rotation.step rotation.rejected].
    + destruct (verifyToken_no_record refreshToken REFRESH w0 Hc) as [e ->].
      cbn [rotation.pc1 rotation.pc2 rotation.world].
      split; [| reflexivity].
      repeat split; try assumption. right. reflexivity.
    + cbn [rotation.pc1 rotation.pc2 rotation.world].
      split; [| reflexivity].
      repeat split; try assumption. right. reflexivity.
Qed.

Lemma after_delete_run `{Config} `{Jwt} `{Moment} (refreshToken : string) (user : UserDoc.t)
      (now : Z) (schedule : list rotation.Client) (s : rotation.Sys) :
  refreshTokenAt (UserDoc.id user) now <> refreshToken ->
  after_delete refreshToken user now s ->
  after_delete refreshToken user now (rotation.run schedule s)
  /\ (In rotation.client2 schedule \/ rotation.pc2 s = rotation.rejected ->
      rotation.pc2 (rotation.run schedule s) = rotation.rejected).
Proof.
  intros Hne. revert s.
  induction schedule as [| c schedule IH]; intros s Hs; simpl.
  - split; [exact Hs | intros [[] | E]; exact E].
  - destruct (after_delete_step refreshToken user now s c Hne Hs) as [Hs' Hr].
    destruct (IH _ Hs') as [Hfinal Hrej]. split; [exact Hfinal |].
    intros [[Ec | Hin] | E].
    + apply Hrej. right. apply Hr. left. exact Ec.
    + apply Hrej. left. exact Hin.
    + apply Hrej. right. apply Hr. right. exact E.
Qed.

Lemma sys_step_client1 `{Config} `{Jwt} `{Moment} (p1 p2 : rotation.Pc) (w : World) :
  rotation.sys_step (rotation.mkSys p1 p2 w) rotation.client1 =
  rotation.mkSys (fst (rotation.step p1 w)) p2 (snd (rotation.step p1 w)).
Proof. unfold rotation.sys_step. simpl. destruct (rotation.step p1 w). reflexivity. Qed.

Lemma sys_step_client2 `{Config} `{Jwt} `{Moment} (p1 p2 : rotation.Pc) (w : World) :
  rotation.sys_step (rotation.mkSys p1 p2 w) rotation.client2 =
  rotation.mkSys p1 (fst (rotation.step p2 w)) (snd (rotation.step p2 w)).
Proof. unfold rotation.sys_step. simpl. destruct (rotation.step p2 w). reflexivity. Qed.

Lemma step_AtVerifyToken `{Config} `{Jwt} `{Moment} (refreshToken : string) (w : World)
      (d : TokenDoc.t) :
  tokenService.verifyToken refreshToken REFRESH w = (Ok d, w) ->
  rotation.step (rotation.AtVerifyToken refreshToken) w = (rotation.AtFindById d, w).
Proof. intros E. simpl. rewrite E. reflexivity. Qed.

Lemma step_AtFindById `{Config} `{Jwt} `{Moment} (d : TokenDoc.t) (w : World)
      (user : UserDoc.t) :
  List.find (fun u => String.eqb (UserDoc.id u) (TokenDoc.user d)) (users w)
    = Some user ->
  rotation.step (rotation.AtFindById d) w = (rotation.AtDeleteOne d user, w).
Proof. intros E. simpl. unfold User.findById. rewrite E. reflexivity. Qed.

Lemma step_AtDeleteOne `{Config} `{Jwt} `{Moment} (d : TokenDoc.t) (user : UserDoc.t)
      (w : World) :
  rotation.step (rotation.AtDeleteOne d user) w =
  (rotation.AtGenerateAuthTokens user,
   with_tokens (TokenDoc.deleteOne_in (TokenDoc._id d) (tokens w)) w).
Proof. reflexivity. Qed.

Lemma step_AtGenerateAuthTokens `{Config} `{Jwt} `{Moment} (user : UserDoc.t) (w : World) :
  exists issued,
    rotation.step (rotation.AtGenerateAuthTokens user) w =
    (rotation.Finished (Ok issued), snd (tokenService.generateAuthTokens user w)).
Proof.
  cbn [rotation.step]. rewrite generateAuthTokens_eq. cbv zeta.
  eexists. reflexivity.
Qed.

(** One step of a rotation that has come [n] steps, in a world with the
    users of [w0] that is still [w0] if the lookup is yet to run. *)
Lemma step_reached `{Config} `{Jwt} `{Moment} (refreshToken : string) (w0 : World)
      (d : TokenDoc.t) (user : UserDoc.t) (n : nat) (pc : rotation.Pc) (w : World) :
  tokenService.verifyToken refreshToken REFRESH w0 = (Ok d, w0) ->
  List.find (fun u => String.eqb (UserDoc.id u) (TokenDoc.user d)) (users w0)
    = Some user ->
  reached refreshToken d user n pc ->
  users w = users w0 ->
  (n = 0%nat -> w = w0) ->
  reached refreshToken d user (S n) (fst (rotation.step pc w))
  /\ users (snd (rotation.step pc w)) = users w0
  /\ ((n <= 1)%nat -> snd (rotation.step pc w) = w).
Proof.
  intros Hv Hu Hr Husers Hw0.
  destruct n as [| [| [| [| n]]]]; cbn [reached] in Hr; try subst pc.
  - rewrite (Hw0 eq_refl), (step_AtVerifyToken _ _ _ Hv). cbn [fst snd reached].
    rewrite (Hw0 eq_refl) in Husers. auto.
  - rewrite <- Husers in Hu. rewrite (step_AtFindById _ _ _ Hu).
    cbn [fst snd reached]. auto.
  - rewrite step_AtDeleteOne. cbn [fst snd reached users with_tokens].
    split; [reflexivity |]. split; [exact Husers | lia].
  - destruct (step_AtGenerateAuthTokens user w) as [issued ->].
    cbn [fst snd reached]. split; [reflexivity |].
    rewrite generateAuthTokens_eq. cbv zeta.
    cbn [snd users with_nextId with_tokens]. split; [exact Husers | lia].
  - cbn [reached]. destruct pc as [| | | | r]; try discriminate Hr.
    cbn [rotation.step fst snd]. split; [exact Hr |]. split; [exact Husers | lia].
Qed.

(** Two rotations of one token under a schedule in which no client deletes
    before the other has looked up: each comes as far as it has steps. *)
Lemma raced_run `{Config} `{Jwt} `{Moment} (refreshToken : string) (w0 : World)
      (d : TokenDoc.t) (user : UserDoc.t) :
  tokenService.verifyToken refreshToken REFRESH w0 = (Ok d, w0) ->
  List.find (fun u => String.eqb (UserDoc.id u) (TokenDoc.user d)) (users w0)
    = Some user ->
  forall (schedule : list rotation.Client) (n1 n2 : nat) (s : rotation.Sys),
    lookups_before_deletes n1 n2 schedule = true ->
    reached refreshToken d user n1 (rotation.pc1 s) ->
    reached refreshToken d user n2 (rotation.pc2 s) ->
    users (rotation.world s) = users w0 ->
    ((n1 <= 2)%nat -> (n2 <= 2)%nat -> rotation.world s = w0) ->
    (n1 = 0%nat -> (n2 <= 2)%nat) ->
    (n2 = 0%nat -> (n1 <= 2)%nat) ->
    reached refreshToken d user (n1 + steps_of rotation.client1 schedule)
            (rotation.pc1 (rotation.run schedule s))
    /\ reached refreshToken d user (n2 + steps_of rotation.client2 schedule)
               (rotation.pc2 (rotation.run schedule s)).
Proof.
  intros Hv Hu schedule.
  induction schedule as [| c schedule IH]; intros n1 n2 s Hsched Hr1 Hr2 Husers Hw Hz1 Hz2.
  - cbn [steps_of List.filter length rotation.run List.fold_left].
    rewrite !Nat.add_0_r. split; assumption.
  - destruct s as [p1 p2 w]. cbn [rotation.pc1 rotation.pc2 rotation.world] in *.
    cbn [lookups_before_deletes] in Hsched.
    unfold rotation.run. cbn [List.fold_left]. fold (rotation.run schedule).
    destruct c; apply andb_true_iff in Hsched as [Hthird Hrest].
    + assert (Hstart : n1 = 0%nat -> w = w0) by (intros E; apply Hw; [lia | auto]).
      destruct (step_reached refreshToken w0 d user n1 p1 w Hv Hu Hr1 Husers Hstart)
        as (Hr & Hus & Hsame).
      rewrite sys_step_client1.
      specialize (IH (S n1) n2
                     (rotation.mkSys (fst (rotation.step p1 w)) p2
                                     (snd (rotation.step p1 w)))
                     Hrest Hr Hr2 Hus).
      cbn [rotation.pc1 rotation.pc2 rotation.world] in IH.
      cbn [steps_of List.filter same_client length].
      fold (steps_of rotation.client1 schedule).
      fold (steps_of rotation.client2 schedule).
      rewrite Nat.add_succ_r. apply IH.
      * intros Hle1 Hle2. rewrite Hsame by lia. apply Hw; lia.
      * intros E. discriminate E.
      * intros E. subst n2.
        destruct (Nat.eqb_spec n1 2) as [-> | Hne]; [discriminate Hthird |].
        specialize (Hz2 eq_refl). lia.
    + assert (Hstart : n2 = 0%nat -> w = w0) by (intros E; apply Hw; [auto | lia]).
      destruct (step_reached refreshToken w0 d user n2 p2 w Hv Hu Hr2 Husers Hstart)
        as (Hr & Hus & Hsame).
      rewrite sys_step_client2.
      specialize (IH n1 (S n2)
                     (rotation.mkSys p1 (fst (rotation.step p2 w))
                                     (snd (rotation.step p2 w)))
                     Hrest Hr1 Hr Hus).
      cbn [rotation.pc1 rotation.pc2 rotation.world] in IH.
      cbn [steps_of List.filter same_client length].
      fold (steps_of rotation.client1 schedule).
      fold (steps_of rotation.client2 schedule).
      rewrite Nat.add_succ_r. apply IH.
      * intros Hle1 Hle2. rewrite Hsame by lia. apply Hw; lia.
      * intros E. subst n1.
        destruct (Nat.eqb_spec n2 2) as [-> | Hne]; [discriminate Hthird |].
        specialize (Hz1 eq_refl). lia.
      * intros E. discriminate E.
Qed.

Lemma reached_finished (refreshToken : string) (d : TokenDoc.t) (user : UserDoc.t)
      (n : nat) (pc : rotation.Pc) :
  (4 <= n)%nat -> reached refreshToken d user n pc -> rotation.succeeded pc = true.
Proof.
  intros Hn Hr. destruct n as [| [| [| [| n]]]]; try lia. exact Hr.
Qed.

(** C2, as amended: the consumed record is looked up with [findOne] and
    deleted later by [_id], in two statements.  Of two rotations of one
    token the second is refused whenever its lookup runs after the first
    one's delete, the ledger having held one record for the token and the
    first rotation issuing another string; under every schedule in which
    both lookups run before either delete and both rotations run to their
    end, both succeed. *)
Theorem concurrent_rotation_needs_lookup_after_delete `{Config} `{Jwt} `{Moment} :
  forall (refreshToken : string) (w : World) (user : UserDoc.t)
         (schedule : list rotation.Client),
    wf w ->
    (count_token refreshToken (tokens w) <= 1)%nat ->
    rotation.pc1 (rotation.run [rotation.client1; rotation.client1; rotation.client1]
                               (rotation.start refreshToken w))
      = rotation.AtGenerateAuthTokens user ->
    refreshTokenAt (UserDoc.id user) (clock w) <> refreshToken ->
    let ordered :=
      rotation.run ([rotation.client1; rotation.client1; rotation.client1] ++ schedule)
                   (rotation.start refreshToken w) in
    rotation.succeeded (rotation.pc2 ordered) = false
    /\ (In rotation.client2 schedule -> rotation.pc2 ordered = rotation.rejected)
    /\ (forall raced : list rotation.Client,
          lookups_before_deletes 0 0 raced = true ->
          (4 <= steps_of rotation.client1 raced)%nat ->
          (4 <= steps_of rotation.client2 raced)%nat ->
          rotation.succeeded
            (rotation.pc1 (rotation.run raced (rotation.start refreshToken w))) = true
          /\ rotation.succeeded
               (rotation.pc2 (rotation.run raced (rotation.start refreshToken w)))
             = true).
Proof.
  intros refreshToken w user schedule [Hnd _] Hc H3 Hne ordered.
  destruct (first_client_deleted refreshToken w user H3)
    as (d & Hv & Hin & Ht & Hu & Hrun).
  assert (Hinv : after_delete refreshToken user (clock w)
                   (rotation.run [rotation.client1; rotation.client1; rotation.client1]
                                 (rotation.start refreshToken w))).
  { rewrite Hrun. repeat split; simpl; auto.
    subst refreshToken. apply deleteOne_in_clears_token; assumption. }
  destruct (after_delete_run refreshToken user (clock w) schedule _ Hne Hinv)
    as [(_ & _ & _ & Hp2) Hrej].
  unfold ordered, rotation.run. rewrite List.fold_left_app.
  fold (rotation.run [rotation.client1; rotation.client1; rotation.client1]
                     (rotation.start refreshToken w)).
  fold (rotation.run schedule
          (rotation.run [rotation.client1; rotation.client1; rotation.client1]
                        (rotation.start refreshToken w))).
  split; [| split].
  - destruct Hp2 as [-> | ->]; reflexivity.
  - intros Hc2. apply Hrej. left. exact Hc2.
  - intros raced Hsched Hn1 Hn2.
    destruct (raced_run refreshToken w d user Hv Hu raced 0 0
                (rotation.start refreshToken w) Hsched eq_refl eq_refl eq_refl)
      as [Hr1 Hr2]; [reflexivity | lia | lia |].
    split; [apply (reached_finished refreshToken d user _ _ Hn1 Hr1)
           | apply (reached_finished refreshToken d user _ _ Hn2 Hr2)].
Qed.

(** C2, as stated, fails: with one record for the token in the ledger and
    the clock a second past the login, two rotations that take turns at
    every [await] both succeed. *)
Lemma concurrent_rotations_both_succeed :
  wf world_later
  /\ count_token token_login (tokens world_later) = 1%nat
  /\ rotation.succeeded
       (rotation.pc1 (rotation.run alternating (rotation.start token_login world_later)))
     = true
  /\ rotation.succeeded
       (rotation.pc2 (rotation.run alternating (rotation.start token_login world_later)))
     = true.
Proof.
  split; [| vm_compute; repeat split; reflexivity].
  split; simpl.
  - constructor; [intros [] | constructor].
  - constructor; [lia | constructor].
Qed.

(** ** Well-formedness is kept by the ledger operations *)

Lemma wf_world0 : wf world0.
Proof. split; simpl; constructor. Qed.

Lemma wf_at_time (t : Z) (w : World) : wf w -> wf (at_time t w).
Proof. intros Hw. exact Hw. Qed.

Lemma wf_create (token user : string) (expires : Z) (type : TokenType)
      (blacklisted : bool) (w : World) :
  wf w -> wf (snd (Token.create token user expires type blacklisted w)).
Proof.
  intros [Hnd Hlt]. unfold wf, ids in *. simpl.
  rewrite List.map_app. simpl. split.
  - apply List.NoDup_app. repeat split.
    + exact Hnd.
    + constructor; [intros [] | constructor].
    + intros i Hi [<- | []].
      rewrite List.Forall_forall in Hlt. specialize (Hlt _ Hi). lia.
  - apply List.Forall_app. split.
    + eapply List.Forall_impl; [| exact Hlt]. simpl. intros i Hi. lia.
    + constructor; [lia | constructor].
Qed.

Lemma deleteOne_in_incl (i : nat) (l : list TokenDoc.t) (d : TokenDoc.t) :
  In d (TokenDoc.deleteOne_in i l) -> In d l.
Proof.
  induction l as [| h l IH]; simpl; [tauto |].
  destruct (Nat.eqb (TokenDoc._id h) i); simpl; tauto.
Qed.

Lemma NoDup_ids_deleteOne_in (i : nat) (l : list TokenDoc.t) :
  List.NoDup (ids l) -> List.NoDup (ids (TokenDoc.deleteOne_in i l)).
Proof.
  induction l as [| h l IH]; simpl; [tauto |].
  intros Hnd. inversion Hnd as [| ? ? Hnotin Hnd']; subst.
  destruct (Nat.eqb (TokenDoc._id h) i); [exact Hnd' |].
  simpl. constructor; [| apply IH; exact Hnd'].
  intros Hin. apply Hnotin. unfold ids in *. apply List.in_map_iff in Hin.
  destruct Hin as (d & Hd & Hin). apply List.in_map_iff.
  exists d. split; [exact Hd |]. eapply deleteOne_in_incl. exact Hin.
Qed.

Lemma wf_deleteOne (d : TokenDoc.t) (w : World) :
  wf w -> wf (snd (Token.deleteOne d w)).
Proof.
  intros [Hnd Hlt]. split; simpl.
  - apply NoDup_ids_deleteOne_in. exact Hnd.
  - rewrite List.Forall_forall in *. intros i Hi. apply Hlt.
    unfold ids in *. apply List.in_map_iff in Hi as (x & Hx & Hin).
    apply List.in_map_iff. exists x. split; [exact Hx |].
    eapply deleteOne_in_incl. exact Hin.
Qed.

Lemma wf_deleteMany (q : TokenDoc.Query) (w : World) :
  wf w -> wf (snd (Token.deleteMany q w)).
Proof.
  intros [Hnd Hlt]. unfold wf, ids, TokenDoc.deleteMany_in in *. simpl.
  induction (tokens w) as [| h l IH]; simpl; [split; constructor |].
  inversion Hnd as [| ? ? Hnotin Hnd']; subst.
  inversion Hlt as [| ? ? Hh Hlt']; subst.
  destruct (IH Hnd' Hlt') as [IHn IHl].
  destruct (negb (TokenDoc.matches q h)); simpl; [| split; assumption].
  split; [| constructor; assumption].
  constructor; [| exact IHn].
  intros Hin. apply Hnotin. apply List.in_map_iff in Hin as (x & Hx & Hin).
  apply List.in_map_iff. exists x. split; [exact Hx |].
  apply List.filter_In in Hin. tauto.
Qed.

(** Rotation keeps the ledger well formed, whatever its outcome. *)
Lemma wf_refreshAuth `{Config} `{Jwt} `{Moment} (refreshToken : string) (w : World) :
  wf w -> wf (snd (authService.refreshAuth refreshToken w)).
Proof.
  intros Hw.
  unfold authService.refreshAuth, try_catch, bind, throw, ret.
  rewrite verifyToken_eq.
  destruct (jwt_verify refreshToken jwt_secret (unix (clock w))) as [p | e];
    [| exact Hw].
  destruct (TokenDoc.findOne_in _ (tokens w)) as [d |]; [| exact Hw].
  unfold User.findById.
  destruct (List.find _ (users w)) as [user |]; [| exact Hw].
  unfold Token.deleteOne. rewrite generateAuthTokens_eq. cbv zeta.
  apply (wf_create _ _ _ _ _ (snd (Token.deleteOne d w))).
  apply wf_deleteOne. exact Hw.
Qed.

Lemma wf_world_login : wf world_login.
Proof. apply (wf_create _ _ _ _ _ world0). exact wf_world0. Qed.

(** ** The replay within the issuing second, for every sound library

    A rotation at the clock reading of the login is replayed whatever the
    library: signing is a function of the payload, and the payload has whole
    seconds. *)

Lemma at_time_clock (w : World) : at_time (clock w) w = w.
Proof. destruct w. reflexivity. Qed.

Lemma replay_in_issuing_second {J : Jwt} {JS : @JwtSound J} `{Config} `{Moment}
      (user stored : UserDoc.t) (w : World) :
  List.find (fun v => String.eqb (UserDoc.id v) (UserDoc.id user)) (users w)
    = Some stored ->
  unix (clock w) < unix (add_days jwt_refreshExpirationDays (clock w)) ->
  let login := snd (tokenService.generateAuthTokens user w) in
  let token := refreshTokenAt (UserDoc.id user) (clock w) in
  let rotated := authService.refreshAuth token login in
  is_ok (fst rotated) = true
  /\ is_ok (fst (authService.refreshAuth token (snd rotated))) = true.
Proof.
  intros Hu Hlt login token rotated.
  destruct (fresh_pair_rotates user stored w (clock w) Hu Hlt)
    as (fresh & w1 & Hg & Hok).
  assert (Hlogin : login = w1) by (unfold login; rewrite Hg; reflexivity).
  assert (Htok : tk_token (refresh fresh) = token).
  { rewrite generateAuthTokens_eq in Hg. cbv zeta in Hg.
    injection Hg as <- _. reflexivity. }
  assert (Hclk : clock w1 = clock w).
  { rewrite generateAuthTokens_eq in Hg. cbv zeta in Hg.
    injection Hg as _ <-. reflexivity. }
  assert (Husers : users w1 = users w).
  { rewrite generateAuthTokens_eq in Hg. cbv zeta in Hg.
    injection Hg as _ <-. reflexivity. }
  rewrite <- Hclk, at_time_clock, Htok in Hok.
  unfold rotated. rewrite Hlogin. split; [exact Hok |].
  destruct (authService.refreshAuth token w1) as [[issued | e] w2] eqn:Er;
    [| discriminate Hok].
  apply refreshAuth_Ok_inv in Er as (p & d & user' & Hv & Hf & Hu' & Hg').
  unfold token, refreshTokenAt in Hv. rewrite verify_sign in Hv.
  destruct (Z.leb _ _); [discriminate Hv |]. injection Hv as <-.
  apply findOne_in_Some in Hf as [_ Hm].
  unfold TokenDoc.matches in Hm. simpl in Hm. rewrite !andb_true_iff in Hm.
  destruct Hm as [[[[[_ _] Hud] _] _] _]. apply String.eqb_eq in Hud.
  pose proof (find_id _ _ _ Hu') as Hid. rewrite Hud in Hid.
  set (w1' := with_tokens (TokenDoc.deleteOne_in (TokenDoc._id d) (tokens w1)) w1) in *.
  assert (Hu1 : List.find (fun v => String.eqb (UserDoc.id v) (UserDoc.id user'))
                          (users w1') = Some user').
  { unfold w1'. simpl. rewrite Hid, <- Hud. exact Hu'. }
  assert (Hlt1 : unix (clock w1') < unix (add_days jwt_refreshExpirationDays (clock w1'))).
  { unfold w1'. simpl. rewrite Hclk. exact Hlt. }
  destruct (fresh_pair_rotates user' user' w1' (clock w1') Hu1 Hlt1)
    as (fresh' & w2' & Hg2 & Hok2).
  rewrite Hg2 in Hg'. injection Hg' as -> ->.
  assert (Hclk2 : clock w2 = clock w1').
  { rewrite generateAuthTokens_eq in Hg2. cbv zeta in Hg2.
    injection Hg2 as _ <-. reflexivity. }
  assert (Htok2 : tk_token (refresh issued) = token).
  { rewrite generateAuthTokens_eq in Hg2. cbv zeta in Hg2.
    injection Hg2 as <- _. simpl. unfold token. rewrite Hid, Hclk. reflexivity. }
  rewrite <- Hclk2, at_time_clock, Htok2 in Hok2. exact Hok2.
Qed.

(** * The theorems at concrete requests *)


Lemma concurrent_rotation_witness :
  rotation.pc2
    (rotation.run
       ([rotation.client1; rotation.client1; rotation.client1]
          ++ [rotation.client2; rotation.client1])
       (rotation.start token_login world_later)) = rotation.rejected
  /\ rotation.succeeded
       (rotation.pc2
          (rotation.run
             [rotation.client1; rotation.client1; rotation.client2; rotation.client2;
              rotation.client2; rotation.client2; rotation.client1; rotation.client1]
             (rotation.start token_login world_later))) = true.
Proof.
  assert (Hw : wf world_later) by (apply wf_at_time, wf_world_login).
  assert (Hc : (count_token token_login (tokens world_later) <= 1)%nat)
    by (vm_compute; apply le_n).
  assert (H3 : rotation.pc1
                 (rotation.run [rotation.client1; rotation.client1; rotation.client1]
                               (rotation.start token_login world_later))
               = rotation.AtGenerateAuthTokens alice)
    by (vm_compute; reflexivity).
  assert (Hne : refreshTokenAt (UserDoc.id alice) (clock world_later) <> token_login)
    by (apply String.eqb_neq; vm_compute; reflexivity).
  destruct (concurrent_rotation_needs_lookup_after_delete token_login world_later
              alice [rotation.client2; rotation.client1] Hw Hc H3 Hne)
    as (_ & Hrej & Hrace).
  split.
  - apply Hrej. left. reflexivity.
  - apply Hrace; [reflexivity | vm_compute; apply le_n | vm_compute; apply le_n].
Defined.

Lemma verifyToken_lookup_witness :
  tokenService.verifyToken token_login REFRESH world_login = (Ok doc_login, world_login)
  /\ In doc_login (tokens world_login)
  /\ TokenDoc.blacklisted doc_login = false
  /\ tokenService.verifyToken token_login REFRESH (redate (fun _ => 0) world_login)
     = (Ok (TokenDoc.set_expires 0 doc_login), redate (fun _ => 0) world_login).
Proof.
  assert (Hv : tokenService.verifyToken token_login REFRESH world_login
               = (Ok doc_login, world_login)) by (vm_compute; reflexivity).
  split; [exact Hv |].
  destruct (verifyToken_lookup_ignores_expiry token_login REFRESH world_login
              world_login doc_login Hv) as [(Hin & _ & _ & Hb & _) Hdate].
  split; [exact Hin |]. split; [exact Hb |]. apply Hdate.
Defined.

Lemma password_change_witness :
  (exists w',
      authService.resetPassword token_reset "newpass99" world_login_forgot = (Ok tt, w')
      /\ authService.refreshAuth token_login (at_time 3000 w')
         = (Throw (UnauthorizedError "Please authenticate"), at_time 3000 w'))
  /\ (exists w',
         authService.changePassword "u1" "abc12345" "newpass99" world_login_forgot
           = (Ok tt, w')
         /\ authService.refreshAuth token_login (at_time 3000 w')
            = (Throw (UnauthorizedError "Please authenticate"), at_time 3000 w')).
Proof.
  assert (Hu : List.find (fun v => String.eqb (UserDoc.id v) "u1")
                         (users world_login_forgot) = Some alice)
    by (vm_compute; reflexivity).
  destruct (password_change_revokes_refresh_tokens "u1" world_login_forgot alice Hu)
    as (Hchange & Hreset & Hafter).
  assert (Hv : exists d,
             fst (tokenService.verifyToken token_reset RESET_PASSWORD world_login_forgot)
               = Ok d /\ TokenDoc.user d = "u1")
    by (eexists; split; [vm_compute; reflexivity | reflexivity]).
  destruct Hv as (d & Hv & Hd).
  split.
  - destruct (Hreset token_reset "newpass99" d Hv Hd) as [w' Hw'].
    exists w'. split; [exact Hw' |].
    assert (Hpc : password_changed "u1" world_login_forgot w').
    { right. exists token_reset, "newpass99", d. auto. }
    destruct (Hafter w' Hpc) as (_ & Hrefuse & _).
    apply (Hrefuse (mkPayload "u1" 1 2592001 REFRESH) (at_time 3000 w'));
      [reflexivity |].
    intros d' Hin _. exact Hin.
  - destruct (Hchange "abc12345" "newpass99") as [w' Hw']; [vm_compute; reflexivity |].
    exists w'. split; [exact Hw' |].
    assert (Hpc : password_changed "u1" world_login_forgot w').
    { left. exists "abc12345", "newpass99". exact Hw'. }
    destruct (Hafter w' Hpc) as (_ & Hrefuse & _).
    apply (Hrefuse (mkPayload "u1" 1 2592001 REFRESH) (at_time 3000 w'));
      [reflexivity |].
    intros d' Hin _. exact Hin.
Defined.


Lemma login_failure_witness :
  authService.login "nobody@x.com" "abc12345" world0 =
    (Throw (UnauthorizedError "Incorrect email or password"), world0)
  /\ authService.login "a@x.com" "wrong" world0 =
    (Throw (UnauthorizedError "Incorrect email or password"), world0).
Proof.
  apply (login_failure_indistinguishable world0 world0 "nobody@x.com" "a@x.com"
           "abc12345" "wrong" alice); reflexivity.
Defined.

Lemma authorize_own_id_witness :
  auth.authorize ["manageUsers"] request_own_id world0 = (Ok request_own_id, world0).
Proof.
  destruct (authorize_rights_or_own_id ["manageUsers"] request_own_id alice world0
              eq_refl ltac:(discriminate))
    as (userRights & _ & _ & _ & Hown).
  apply Hown. reflexivity.
Defined.

Lemma updateMe_witness :
  profile.updateMe "u1" body_role store0
  = (Ok (mkResponse 200 true "Profile updated successfully",
         <["name" := JStr "Al"]> alice_obj),
     <["u1" := <["name" := JStr "Al"]> alice_obj]> store0).
Proof.
  assert (Hs : store0 !! "u1" = Some alice_obj) by (vm_compute; reflexivity).
  destruct (updateMe_keeps_sensitive_fields "u1" body_role store0 alice_obj Hs)
    as (_ & _ & _ & _ & Hrun & _).
  rewrite Hrun by (vm_compute; reflexivity).
  vm_compute. reflexivity.
Defined.

(** * Further properties of the services *)

(** ** Logout *)

Lemma logout_eq (refreshToken : string) (w : World) :
  authService.logout refreshToken w =
  match TokenDoc.findOne_in
          (TokenDoc.mkQuery (Some refreshToken) (Some REFRESH) None (Some false)
                            None None) (tokens w) with
  | Some d =>
      (Ok tt, with_tokens (TokenDoc.deleteOne_in (TokenDoc._id d) (tokens w)) w)
  | None => (Throw (NotFoundError "Token not found"), w)
  end.
Proof.
  unfold authService.logout, bind, Token.findOne, Token.deleteOne, throw.
  destruct (TokenDoc.findOne_in _ (tokens w)); reflexivity.
Qed.

Lemma same_id_same_doc (d h : TokenDoc.t) (l : list TokenDoc.t) :
  List.NoDup (ids (h :: l)) -> In d (h :: l) -> TokenDoc._id h = TokenDoc._id d ->
  h = d.
Proof.
  simpl. intros Hnd [E | Hin] Hid; [exact E |].
  inversion Hnd as [| ? ? Hnotin _]; subst.
  exfalso. apply Hnotin. rewrite Hid. apply In_ids. exact Hin.
Qed.

(** Deleting a record does not disturb a search it does not satisfy. *)
Lemma find_deleteOne_in (p : TokenDoc.t -> bool) (d : TokenDoc.t)
      (l : list TokenDoc.t) :
  List.NoDup (ids l) -> In d l -> p d = false ->
  List.find p (TokenDoc.deleteOne_in (TokenDoc._id d) l) = List.find p l.
Proof.
  induction l as [| h l IH]; [reflexivity |].
  intros Hnd Hin Hp. cbn [TokenDoc.deleteOne_in].
  destruct (Nat.eqb (TokenDoc._id h) (TokenDoc._id d)) eqn:Eid.
  - apply Nat.eqb_eq in Eid.
    rewrite (same_id_same_doc d h l Hnd Hin Eid). simpl. rewrite Hp. reflexivity.
  - simpl. destruct (p h); [reflexivity |]. apply IH.
    + simpl in Hnd. inversion Hnd; assumption.
    + destruct Hin as [-> | Hin]; [| exact Hin].
      rewrite Nat.eqb_refl in Eid. discriminate.
    + exact Hp.
Qed.

Lemma length_deleteOne_in (d : TokenDoc.t) (l : list TokenDoc.t) :
  In d l -> S (length (TokenDoc.deleteOne_in (TokenDoc._id d) l)) = length l.
Proof.
  induction l as [| h l IH]; simpl; [tauto |].
  intros Hin. destruct (Nat.eqb (TokenDoc._id h) (TokenDoc._id d)) eqn:Eid;
    [reflexivity |].
  simpl. f_equal. apply IH. destruct Hin as [-> | Hin]; [| exact Hin].
  rewrite Nat.eqb_refl in Eid. discriminate.
Qed.

(** X1: [logout] answers [NotFoundError("Token not found")] exactly when the
    ledger has no refresh record of that token string that is not
    blacklisted, and a refused logout changes nothing. *)
Theorem logout_not_found_iff :
  forall (refreshToken : string) (w : World),
    (fst (authService.logout refreshToken w) = Throw (NotFoundError "Token not found")
     <-> forall d, In d (tokens w) -> TokenDoc.token d = refreshToken ->
                   TokenDoc.type d = REFRESH -> TokenDoc.blacklisted d = true)
    /\ (forall e w', authService.logout refreshToken w = (Throw e, w') ->
                     e = NotFoundError "Token not found" /\ w' = w).
Proof.
  intros refreshToken w. rewrite logout_eq.
  set (q := TokenDoc.mkQuery _ _ _ _ _ _).
  destruct (TokenDoc.findOne_in q (tokens w)) as [d |] eqn:Ef; simpl.
  - split; [| intros e w' [=]]. split; [discriminate |].
    intros Hall. apply findOne_in_Some in Ef as [Hin Hm].
    unfold TokenDoc.matches, q in Hm. simpl in Hm. rewrite !andb_true_iff in Hm.
    destruct Hm as [[[[[Ht Hty] _] Hb] _] _].
    apply String.eqb_eq in Ht. apply tokenType_eqb_eq in Hty.
    rewrite (Hall d Hin Ht Hty) in Hb. discriminate Hb.
  - split; [| intros e w' [= <- <-]; split; reflexivity].
    split; [| reflexivity]. intros _ d Hin Ht Hty.
    destruct (TokenDoc.blacklisted d) eqn:Hb; [reflexivity |].
    exfalso. unfold TokenDoc.findOne_in in Ef.
    apply (List.find_none _ _ Ef) in Hin.
    unfold TokenDoc.matches, q in Hin. simpl in Hin.
    rewrite Ht, Hty, Hb, String.eqb_refl in Hin. discriminate Hin.
Qed.

(** X2: a completed [logout] removes one record, the one it looked up, and
    leaves the users alone; every other token string is verified exactly as
    before. *)
Theorem logout_only_that_session `{Config} `{Jwt} :
  forall (refreshToken : string) (w w' : World),
    wf w ->
    authService.logout refreshToken w = (Ok tt, w') ->
    S (length (tokens w')) = length (tokens w)
    /\ users w' = users w
    /\ forall (other : string) (type : TokenType),
         other <> refreshToken ->
         tokenService.verifyToken other type w' =
         (fst (tokenService.verifyToken other type w), w').
Proof.
  intros refreshToken w w' [Hnd _]. rewrite logout_eq.
  destruct (TokenDoc.findOne_in _ (tokens w)) as [d |] eqn:Ef; [| discriminate].
  intros [= <-]. apply findOne_in_Some in Ef as [Hin Hm].
  assert (Ht : TokenDoc.token d = refreshToken)
    by (eapply matches_token; [| exact Hm]; reflexivity).
  split; [apply length_deleteOne_in; exact Hin |]. split; [reflexivity |].
  intros other type Hne. rewrite !verifyToken_eq. simpl.
  destruct (jwt_verify other jwt_secret (unix (clock w))) as [p | e]; [| reflexivity].
  unfold TokenDoc.findOne_in. rewrite find_deleteOne_in; [reflexivity | | |]; try assumption.
  unfold TokenDoc.matches. simpl. rewrite Ht.
  destruct (String.eqb_spec refreshToken other) as [E | _]; [| reflexivity].
  congruence.
Qed.

(** X3: after a completed [logout] the token is refused at rotation in
    every later world in which no record with its string has been stored
    since, when the ledger held no second record with that string. *)
Theorem logout_then_rotation_refused `{Config} `{Jwt} `{Moment} :
  forall (refreshToken : string) (w w' w'' : World),
    wf w ->
    (count_token refreshToken (tokens w) <= 1)%nat ->
    authService.logout refreshToken w = (Ok tt, w') ->
    not_stored_since refreshToken w' w'' ->
    authService.refreshAuth refreshToken w'' =
    (Throw (UnauthorizedError "Please authenticate"), w'').
Proof.
  intros refreshToken w w' w'' [Hnd _] Hc. rewrite logout_eq.
  destruct (TokenDoc.findOne_in _ (tokens w)) as [d |] eqn:Ef; [| discriminate].
  intros [= <-] Hsince. apply findOne_in_Some in Ef as [Hin Hm].
  assert (Ht : TokenDoc.token d = refreshToken)
    by (eapply matches_token; [| exact Hm]; reflexivity).
  assert (Hgone : count_token refreshToken
                    (TokenDoc.deleteOne_in (TokenDoc._id d) (tokens w)) = 0%nat).
  { subst refreshToken. apply deleteOne_in_clears_token; assumption. }
  cbn [tokens with_tokens] in Hsince.
  unfold authService.refreshAuth, try_catch, bind. rewrite verifyToken_eq.
  destruct (jwt_verify refreshToken jwt_secret (unix (clock w''))) as [p | e];
    [| reflexivity].
  set (q := TokenDoc.mkQuery _ _ _ _ _ _).
  rewrite (findOne_in_later q refreshToken
             (TokenDoc.deleteOne_in (TokenDoc._id d) (tokens w)) (tokens w''));
    [reflexivity | reflexivity | | exact Hsince].
  apply (findOne_in_no_token q _ refreshToken eq_refl Hgone).
Qed.

(** ** Failed and completed flows *)

Lemma verifyEmail_eq `{Config} `{Jwt} (verifyEmailToken : string) (w : World) :
  authService.verifyEmail verifyEmailToken w =
  match jwt_verify verifyEmailToken jwt_secret (unix (clock w)) with
  | Ok p =>
      match TokenDoc.findOne_in
              (TokenDoc.mkQuery (Some verifyEmailToken) (Some VERIFY_EMAIL)
                                (Some (sub p)) (Some false) None None) (tokens w) with
      | Some d =>
          match List.find (fun u => String.eqb (UserDoc.id u) (TokenDoc.user d))
                          (users w) with
          | Some user =>
              (Ok tt,
               welcomed (UserDoc.set_isEmailVerified true user)
                 (with_users
                    (UserDoc.replace (UserDoc.set_isEmailVerified true user) (users w))
                    (with_tokens
                       (TokenDoc.deleteMany_in
                          (TokenDoc.mkQuery None (Some VERIFY_EMAIL)
                                            (Some (UserDoc.id user)) None None None)
                          (tokens w)) w)))
          | None => (Throw (UnauthorizedError "Email verification failed"), w)
          end
      | None => (Throw (UnauthorizedError "Email verification failed"), w)
      end
  | Throw _ => (Throw (UnauthorizedError "Email verification failed"), w)
  end.
Proof.
  unfold authService.verifyEmail, try_catch, bind, throw, ret.
  rewrite verifyToken_eq.
  destruct (jwt_verify verifyEmailToken jwt_secret (unix (clock w))) as [p | e];
    [| reflexivity].
  destruct (TokenDoc.findOne_in _ (tokens w)) as [d |]; [| reflexivity].
  unfold User.findById.
  destruct (List.find _ (users w)) as [user |]; [| reflexivity].
  unfold Token.deleteMany, User.save, emailService.sendWelcomeEmail,
    emailService.sendEmail, welcomed. simpl.
  destruct (smtpUp w); reflexivity.
Qed.

Lemma resetPassword_eq `{Config} `{Jwt} `{Bcrypt}
      (resetPasswordToken newPassword : string) (w : World) :
  authService.resetPassword resetPasswordToken newPassword w =
  match jwt_verify resetPasswordToken jwt_secret (unix (clock w)) with
  | Ok p =>
      match TokenDoc.findOne_in
              (TokenDoc.mkQuery (Some resetPasswordToken) (Some RESET_PASSWORD)
                                (Some (sub p)) (Some false) None None) (tokens w) with
      | Some d =>
          match List.find (fun u => String.eqb (UserDoc.id u) (TokenDoc.user d))
                          (users w) with
          | Some user =>
              (Ok tt,
               with_tokens
                 (TokenDoc.deleteMany_in
                    (TokenDoc.mkQuery None (Some REFRESH) (Some (UserDoc.id user))
                                      None None None)
                    (TokenDoc.deleteMany_in
                       (TokenDoc.mkQuery None (Some RESET_PASSWORD)
                                         (Some (UserDoc.id user)) None None None)
                       (tokens w)))
                 (snd (User.save_password user newPassword w)))
          | None => (Throw (UnauthorizedError "Password reset failed"), w)
          end
      | None => (Throw (UnauthorizedError "Password reset failed"), w)
      end
  | Throw _ => (Throw (UnauthorizedError "Password reset failed"), w)
  end.
Proof.
  unfold authService.resetPassword, try_catch, bind, throw, ret.
  rewrite verifyToken_eq.
  destruct (jwt_verify resetPasswordToken jwt_secret (unix (clock w))) as [p | e];
    [| reflexivity].
  destruct (TokenDoc.findOne_in _ (tokens w)) as [d |]; [| reflexivity].
  unfold User.findById.
  destruct (List.find _ (users w)) as [user |]; reflexivity.
Qed.

Lemma refreshAuth_eq `{Config} `{Jwt} `{Moment} (refreshToken : string) (w : World) :
  authService.refreshAuth refreshToken w =
  match jwt_verify refreshToken jwt_secret (unix (clock w)) with
  | Ok p =>
      match TokenDoc.findOne_in
              (TokenDoc.mkQuery (Some refreshToken) (Some REFRESH) (Some (sub p))
                                (Some false) None None) (tokens w) with
      | Some d =>
          match List.find (fun u => String.eqb (UserDoc.id u) (TokenDoc.user d))
                          (users w) with
          | Some user =>
              tokenService.generateAuthTokens user
                (with_tokens (TokenDoc.deleteOne_in (TokenDoc._id d) (tokens w)) w)
          | None => (Throw (UnauthorizedError "Please authenticate"), w)
          end
      | None => (Throw (UnauthorizedError "Please authenticate"), w)
      end
  | Throw _ => (Throw (UnauthorizedError "Please authenticate"), w)
  end.
Proof.
  unfold authService.refreshAuth, try_catch, bind, throw, ret.
  rewrite verifyToken_eq.
  destruct (jwt_verify refreshToken jwt_secret (unix (clock w))) as [p | e];
    [| reflexivity].
  destruct (TokenDoc.findOne_in _ (tokens w)) as [d |]; [| reflexivity].
  unfold User.findById.
  destruct (List.find _ (users w)) as [user |]; reflexivity.
Qed.

(** X4: a failed [refreshAuth], [resetPassword] or [verifyEmail] has written
    nothing, and answers the one [UnauthorizedError] of its flow whichever
    step failed. *)
Theorem failed_flow_changes_nothing `{Config} `{Jwt} `{Bcrypt} `{Moment} :
  forall (token newPassword : string) (w w' : World) (e : Error),
    (authService.refreshAuth token w = (Throw e, w') ->
       e = UnauthorizedError "Please authenticate" /\ w' = w)
    /\ (authService.resetPassword token newPassword w = (Throw e, w') ->
       e = UnauthorizedError "Password reset failed" /\ w' = w)
    /\ (authService.verifyEmail token w = (Throw e, w') ->
       e = UnauthorizedError "Email verification failed" /\ w' = w).
Proof.
  intros token newPassword w w' e.
  rewrite refreshAuth_eq, resetPassword_eq, verifyEmail_eq.
  destruct (jwt_verify token jwt_secret (unix (clock w))) as [p | e0].
  - destruct (TokenDoc.findOne_in _ (tokens w)) as [d1 |];
      destruct (TokenDoc.findOne_in _ (tokens w)) as [d2 |];
      destruct (TokenDoc.findOne_in _ (tokens w)) as [d3 |];
      repeat match goal with
             | |- context [List.find ?f (users w)] => destruct (List.find f (users w))
             end;
      rewrite ?generateAuthTokens_eq; cbv zeta;
      (split; [| split]); intros E; try discriminate E;
      injection E as <- <-; split; reflexivity.
  - (split; [| split]); intros E; injection E as <- <-; split; reflexivity.
Qed.

(** X5: a completed rotation keeps the number of ledger records and the
    users; it removes one refresh record of the presented string and appends
    one for the same user, under the next id, carrying the refresh token it
    returns. *)
Theorem refreshAuth_success_effect `{Config} `{Jwt} `{Moment} :
  forall (refreshToken : string) (w w1 : World) (issued : AuthTokens),
    authService.refreshAuth refreshToken w = (Ok issued, w1) ->
    length (tokens w1) = length (tokens w)
    /\ users w1 = users w
    /\ outbox w1 = outbox w
    /\ exists d,
        In d (tokens w)
        /\ TokenDoc.token d = refreshToken
        /\ TokenDoc.type d = REFRESH
        /\ tokens w1 =
           TokenDoc.deleteOne_in (TokenDoc._id d) (tokens w)
           ++ [TokenDoc.mk (nextId w) (tk_token (refresh issued)) (TokenDoc.user d)
                           REFRESH (tk_expires (refresh issued)) false (clock w)].
Proof.
  intros refreshToken w w1 issued Hok.
  apply refreshAuth_Ok_inv in Hok as (p & d & user & _ & Hf & Hu & Hg).
  apply findOne_in_Some in Hf as [Hin Hm].
  rewrite generateAuthTokens_eq in Hg. cbv zeta in Hg. injection Hg as <- <-.
  pose proof (find_id _ _ _ Hu) as Hid.
  unfold TokenDoc.matches in Hm. simpl in Hm. rewrite !andb_true_iff in Hm.
  destruct Hm as [[[[[Ht Hty] _] _] _] _].
  apply String.eqb_eq in Ht. apply tokenType_eqb_eq in Hty.
  simpl. split.
  - rewrite List.length_app. simpl.
    pose proof (length_deleteOne_in d (tokens w) Hin). lia.
  - repeat split. exists d. rewrite Hid. repeat split; assumption.
Qed.

Lemma deleteMany_in_no_match (q q' : TokenDoc.Query) (l : list TokenDoc.t) :
  (forall d, TokenDoc.matches q' d = true -> TokenDoc.matches q d = true) ->
  TokenDoc.findOne_in q' (TokenDoc.deleteMany_in q l) = None.
Proof.
  intros Himp. destruct (TokenDoc.findOne_in q' _) as [d |] eqn:E; [| reflexivity].
  apply findOne_in_Some in E as [Hin Hm]. unfold TokenDoc.deleteMany_in in Hin.
  apply List.filter_In in Hin as [_ Hn]. rewrite (Himp d Hm) in Hn. discriminate Hn.
Qed.

(** X6: a completed [verifyEmail] has marked the token's user as verified,
    whether or not the welcome mail could be sent, and has used the token up:
    it is refused in every later world in which no record with its string
    has been stored since. *)
Theorem verifyEmail_single_use {J : Jwt} {JS : @JwtStable J} `{Config} :
  forall (verifyEmailToken : string) (w w' : World),
    authService.verifyEmail verifyEmailToken w = (Ok tt, w') ->
    (exists p user,
        jwt_verify verifyEmailToken jwt_secret (unix (clock w)) = Ok p
        /\ List.find (fun u => String.eqb (UserDoc.id u) (sub p)) (users w')
           = Some user
        /\ UserDoc.isEmailVerified user = true)
    /\ (forall up, fst (authService.verifyEmail verifyEmailToken (with_smtpUp up w))
                   = Ok tt)
    /\ (forall w'' : World,
          not_stored_since verifyEmailToken w' w'' ->
          authService.verifyEmail verifyEmailToken w'' =
          (Throw (UnauthorizedError "Email verification failed"), w'')).
Proof.
  intros tok w w'. rewrite verifyEmail_eq.
  destruct (jwt_verify tok jwt_secret (unix (clock w))) as [p | e] eqn:Ev;
    [| discriminate].
  destruct (TokenDoc.findOne_in _ (tokens w)) as [d |] eqn:Ef; [| discriminate].
  destruct (List.find _ (users w)) as [user |] eqn:Eu; [| discriminate].
  intros [= <-].
  pose proof (find_id _ _ _ Eu) as Hid.
  pose proof Ef as Ef'. apply findOne_in_Some in Ef' as [_ Hm].
  unfold TokenDoc.matches in Hm. simpl in Hm. rewrite !andb_true_iff in Hm.
  destruct Hm as [[[[[_ _] Hud] _] _] _]. apply String.eqb_eq in Hud.
  split; [| split].
  - exists p, (UserDoc.set_isEmailVerified true user). split; [reflexivity |].
    split; [| reflexivity].
    assert (Husers : users (welcomed (UserDoc.set_isEmailVerified true user)
                (with_users (UserDoc.replace (UserDoc.set_isEmailVerified true user)
                                             (users w))
                   (with_tokens
                      (TokenDoc.deleteMany_in
                         (TokenDoc.mkQuery None (Some VERIFY_EMAIL)
                                           (Some (UserDoc.id user)) None None None)
                         (tokens w)) w)))
              = UserDoc.replace (UserDoc.set_isEmailVerified true user) (users w)).
    { unfold welcomed. simpl. destruct (smtpUp w); reflexivity. }
    rewrite Husers, <- Hud, <- Hid.
    apply (find_replace (UserDoc.set_isEmailVerified true user) user).
    simpl. rewrite Hid. exact Eu.
  - intros up. rewrite verifyEmail_eq. simpl. rewrite Ev, Ef, Eu. reflexivity.
  - intros w'' Hsince. rewrite verifyEmail_eq.
    destruct (jwt_verify tok jwt_secret (unix (clock w''))) as [p' | e'] eqn:Ev';
      [| reflexivity].
    rewrite <- (verify_stable _ _ _ _ _ _ Ev Ev').
    assert (Htok : tokens (welcomed (UserDoc.set_isEmailVerified true user)
                     (with_users (UserDoc.replace (UserDoc.set_isEmailVerified true user)
                                                  (users w))
                        (with_tokens
                           (TokenDoc.deleteMany_in
                              (TokenDoc.mkQuery None (Some VERIFY_EMAIL)
                                                (Some (UserDoc.id user)) None None None)
                              (tokens w)) w)))
                   = TokenDoc.deleteMany_in
                       (TokenDoc.mkQuery None (Some VERIFY_EMAIL)
                                         (Some (UserDoc.id user)) None None None)
                       (tokens w)).
    { unfold welcomed. simpl. destruct (smtpUp w); reflexivity. }
    unfold not_stored_since in Hsince. rewrite Htok in Hsince.
    set (q' := TokenDoc.mkQuery (Some tok) _ _ _ _ _).
    assert (Hnone : TokenDoc.findOne_in q' (tokens w'') = None).
    { eapply (findOne_in_later q' tok); [reflexivity | | exact Hsince].
      apply deleteMany_in_no_match.
      intros d0. unfold TokenDoc.matches, q'. simpl. rewrite !andb_true_iff.
      intros [[[[[_ Hty] Hu0] _] _] _].
      apply String.eqb_eq in Hu0. rewrite Hu0, Hid, Hud, String.eqb_refl.
      repeat split; assumption. }
    rewrite Hnone. reflexivity.
Qed.

(** X7: a completed [resetPassword] has used the reset token up: with any
    password, it is refused in every later world in which no record with
    its string has been stored since. *)
Theorem resetPassword_single_use {J : Jwt} {JS : @JwtStable J} `{Config} `{Bcrypt} :
  forall (resetPasswordToken newPassword again : string) (w w' w'' : World),
    authService.resetPassword resetPasswordToken newPassword w = (Ok tt, w') ->
    not_stored_since resetPasswordToken w' w'' ->
    authService.resetPassword resetPasswordToken again w'' =
    (Throw (UnauthorizedError "Password reset failed"), w'').
Proof.
  intros tok pw again w w' w''. rewrite resetPassword_eq.
  destruct (jwt_verify tok jwt_secret (unix (clock w))) as [p | e] eqn:Ev;
    [| discriminate].
  destruct (TokenDoc.findOne_in _ (tokens w)) as [d |] eqn:Ef; [| discriminate].
  destruct (List.find _ (users w)) as [user |] eqn:Eu; [| discriminate].
  intros [= <-] Hsince.
  pose proof (find_id _ _ _ Eu) as Hid.
  apply findOne_in_Some in Ef as [_ Hm].
  unfold TokenDoc.matches in Hm. simpl in Hm. rewrite !andb_true_iff in Hm.
  destruct Hm as [[[[[_ _] Hud] _] _] _]. apply String.eqb_eq in Hud.
  rewrite resetPassword_eq.
  destruct (jwt_verify tok jwt_secret (unix (clock w''))) as [p' | e'] eqn:Ev';
    [| reflexivity].
  rewrite <- (verify_stable _ _ _ _ _ _ Ev Ev').
  unfold not_stored_since in Hsince. cbn [tokens with_tokens with_users] in Hsince.
  set (q' := TokenDoc.mkQuery (Some tok) _ _ _ _ _).
  assert (Hnone : TokenDoc.findOne_in q' (tokens w'') = None).
  { eapply (findOne_in_later q' tok); [reflexivity | | exact Hsince].
    destruct (TokenDoc.findOne_in q' _) as [d0 |] eqn:Ef0; [| reflexivity].
    exfalso. apply findOne_in_Some in Ef0 as [Hin Hm0].
    unfold TokenDoc.deleteMany_in in Hin.
    apply List.filter_In in Hin as [Hin _]. apply List.filter_In in Hin as [_ Hn].
    unfold TokenDoc.matches, q' in Hm0. simpl in Hm0. rewrite !andb_true_iff in Hm0.
    destruct Hm0 as [[[[[_ Hty] Hu0] _] _] _]. apply String.eqb_eq in Hu0.
    unfold TokenDoc.matches in Hn. simpl in Hn.
    rewrite Hty, Hu0, Hid, Hud, String.eqb_refl in Hn. discriminate Hn. }
  rewrite Hnone. reflexivity.
Qed.

Lemma map_id_replace (u : UserDoc.t) (us : list UserDoc.t) :
  List.map UserDoc.id (UserDoc.replace u us) = List.map UserDoc.id us.
Proof.
  induction us as [| v us IH]; simpl; [reflexivity |].
  destruct (String.eqb (UserDoc.id v) (UserDoc.id u)) eqn:E; simpl.
  - apply String.eqb_eq in E. rewrite E. reflexivity.
  - f_equal. exact IH.
Qed.

(** X8: [changePassword] with a wrong current password, or for a user that
    is not stored, answers [BadRequestError] and changes nothing; in every
    case it sends no mail, keeps the set of users, and keeps every ledger
    record that is not a refresh record of that user. *)
Theorem changePassword_frame `{Bcrypt} :
  forall (uid currentPassword newPassword : string) (w : World),
    let r := authService.changePassword uid currentPassword newPassword w in
    (forall d, not_refresh_of uid d -> (In d (tokens (snd r)) <-> In d (tokens w)))
    /\ List.map UserDoc.id (users (snd r)) = List.map UserDoc.id (users w)
    /\ outbox (snd r) = outbox w
    /\ (forall e, fst r = Throw e ->
          e = BadRequestError "Current password is incorrect" /\ snd r = w)
    /\ (fst r = Ok tt <->
        exists user,
          List.find (fun u => String.eqb (UserDoc.id u) uid) (users w) = Some user
          /\ User.comparePassword user currentPassword = true).
Proof.
  intros uid cur new w r. unfold r, authService.changePassword, bind,
    User.findById, throw.
  destruct (List.find _ (users w)) as [user |] eqn:Eu.
  - destruct (User.comparePassword user cur) eqn:Ec; simpl.
    + pose proof (find_id _ _ _ Eu) as Hid.
      split; [| split; [| split; [| split]]].
      * intros d Hd. unfold TokenDoc.deleteMany_in. rewrite List.filter_In.
        split; [tauto |]. intros Hin. split; [exact Hin |].
        unfold TokenDoc.matches. simpl. rewrite Hid.
        destruct Hd as [Hu | Ht].
        -- destruct (String.eqb_spec (TokenDoc.user d) uid); [contradiction |].
           rewrite andb_false_r. reflexivity.
        -- destruct (tokenType_eqb (TokenDoc.type d) REFRESH) eqn:E;
             [apply tokenType_eqb_eq in E; contradiction | reflexivity].
      * apply map_id_replace.
      * reflexivity.
      * intros e [=].
      * split; [intros _; eauto | reflexivity].
    + split; [tauto |]. split; [reflexivity |]. split; [reflexivity |]. split.
      * intros err [= <-]. split; reflexivity.
      * split; [discriminate |]. intros (user' & [= <-] & Hc). congruence.
  - simpl. split; [tauto |]. split; [reflexivity |]. split; [reflexivity |]. split.
    + intros err [= <-]. split; reflexivity.
    + split; [discriminate |]. intros (user' & [=] & _).
Qed.

(** ** Login *)

Lemma find_by_id_In (u : UserDoc.t) (us : list UserDoc.t) :
  In u us ->
  exists u0, List.find (fun v => String.eqb (UserDoc.id v) (UserDoc.id u)) us = Some u0.
Proof.
  induction us as [| v us IH]; simpl; [tauto |].
  intros [-> | Hin].
  - rewrite String.eqb_refl. eauto.
  - destruct (String.eqb (UserDoc.id v) (UserDoc.id u)); eauto.
Qed.

(** X9: [login] never touches the ledger or the outbox and keeps the set of
    users.  It fails without writing, with one of its two
    [UnauthorizedError]s; the user it returns has the presented email, is
    active, passed the password comparison, carries the clock reading as
    [lastLogin], and is what the store now holds under that id. *)
Theorem login_postcondition `{Bcrypt} :
  forall (email password : string) (w : World),
    let r := authService.login email password w in
    tokens (snd r) = tokens w
    /\ outbox (snd r) = outbox w
    /\ List.map UserDoc.id (users (snd r)) = List.map UserDoc.id (users w)
    /\ (forall e, fst r = Throw e ->
          snd r = w
          /\ (e = UnauthorizedError "Incorrect email or password"
              \/ e = UnauthorizedError "Your account has been deactivated"))
    /\ (forall user, fst r = Ok user ->
          UserDoc.email user = email
          /\ UserDoc.isActive user = true
          /\ User.comparePassword user password = true
          /\ UserDoc.lastLogin user = Some (clock w)
          /\ List.find (fun v => String.eqb (UserDoc.id v) (UserDoc.id user))
                       (users (snd r)) = Some user).
Proof.
  intros email password w r. unfold r, authService.login, bind, throw, ret,
    User.findOne_email, User.save, moment.
  destruct (List.find _ (users w)) as [user |] eqn:Eu; simpl.
  - destruct (User.comparePassword user password) eqn:Ec; simpl.
    + destruct (UserDoc.isActive user) eqn:Ea; simpl.
      * split; [reflexivity |]. split; [reflexivity |].
        split; [apply map_id_replace |]. split; [intros err [=] |].
        intros u [= <-]. apply List.find_some in Eu as [Hin He].
        apply String.eqb_eq in He.
        destruct (find_by_id_In user (users w) Hin) as [u0 Hu0].
        repeat split; try assumption.
        apply (find_replace (UserDoc.set_lastLogin (clock w) user) u0). exact Hu0.
      * split; [reflexivity |]. split; [reflexivity |]. split; [reflexivity |].
        split; [| intros u [=]].
        intros err [= <-]. split; [reflexivity | tauto].
    + split; [reflexivity |]. split; [reflexivity |]. split; [reflexivity |].
      split; [| intros u [=]].
      intros err [= <-]. split; [reflexivity | tauto].
  - split; [reflexivity |]. split; [reflexivity |]. split; [reflexivity |].
    split; [| intros u [=]].
    intros err [= <-]. split; [reflexivity | tauto].
Qed.

(** ** Issued tokens *)

(** A token generated and saved verifies, under its kind, as a record of
    its user until the second it expires in, and is refused as expired from
    then on, whatever the ledger holds by then. *)
Lemma issued_token_lifetime {J : Jwt} {JS : @JwtSound J} `{Config}
      (userId : string) (expires : Z) (type : TokenType) (w : World) (t : Z) :
  let token := jwt_sign (mkPayload userId (unix (clock w)) (unix expires) type)
                        jwt_secret in
  let w1 := snd (tokenService.saveToken token userId expires type false w) in
  (unix t < unix expires ->
     exists d, tokenService.verifyToken token type (at_time t w1)
               = (Ok d, at_time t w1)
               /\ TokenDoc.user d = userId /\ TokenDoc.type d = type
               /\ TokenDoc.token d = token)
  /\ (unix expires <= unix t ->
      forall w2 : World,
        clock w2 = t ->
        tokenService.verifyToken token type w2 = (Throw TokenExpiredError, w2)).
Proof.
  intros token w1. split.
  - intros Hlt. rewrite verifyToken_eq. unfold token at 1.
    cbn [clock at_time]. rewrite verify_sign. cbn [exp sub].
    destruct (Z.leb_spec (unix expires) (unix t)) as [Hle | _]; [lia |].
    set (q := TokenDoc.mkQuery _ _ _ _ _ _).
    set (nd := TokenDoc.mk (nextId w) token userId type expires false (clock w)).
    assert (Hm : TokenDoc.matches q nd = true).
    { unfold TokenDoc.matches, q, nd. simpl. rewrite !String.eqb_refl.
      destruct type; reflexivity. }
    destruct (find_app_last (TokenDoc.matches q) (tokens w) nd Hm) as [d Hd].
    change (tokens (at_time t w1)) with (tokens w ++ [nd]).
    unfold TokenDoc.findOne_in. rewrite Hd. exists d. split; [reflexivity |].
    apply List.find_some in Hd as [_ Hd].
    unfold TokenDoc.matches, q in Hd. simpl in Hd. rewrite !andb_true_iff in Hd.
    destruct Hd as [[[[[Ht Hty] Hu] _] _] _].
    apply String.eqb_eq in Ht, Hu. apply tokenType_eqb_eq in Hty. auto.
  - intros Hle w2 Hclock. rewrite verifyToken_eq. unfold token at 1.
    rewrite Hclock, verify_sign. cbn [exp].
    destruct (Z.leb_spec (unix expires) (unix t)) as [_ | Hlt]; [reflexivity | lia].
Qed.

(** X10: the reset and the verify-email token a generator returns verify,
    under their kind, for their user until the second they expire in; from
    that second on [verifyToken] throws [TokenExpiredError], whatever the
    ledger holds by then. *)
Theorem single_use_token_lifetime {J : Jwt} {JS : @JwtSound J} `{Config} :
  forall (userId : string) (w : World) (t : Z),
    (exists token,
        fst (tokenService.generateResetPasswordToken userId w) = Ok token
        /\ let w1 := snd (tokenService.generateResetPasswordToken userId w) in
           let expires := add_minutes jwt_resetPasswordExpirationMinutes (clock w) in
           (unix t < unix expires ->
              exists d, tokenService.verifyToken token RESET_PASSWORD (at_time t w1)
                        = (Ok d, at_time t w1) /\ TokenDoc.user d = userId)
           /\ (unix expires <= unix t ->
               forall w2 : World,
                 clock w2 = t ->
                 tokenService.verifyToken token RESET_PASSWORD w2
                 = (Throw TokenExpiredError, w2)))
    /\ (exists token,
        fst (tokenService.generateVerifyEmailToken userId w) = Ok token
        /\ let w1 := snd (tokenService.generateVerifyEmailToken userId w) in
           let expires := add_minutes jwt_verifyEmailExpirationMinutes (clock w) in
           (unix t < unix expires ->
              exists d, tokenService.verifyToken token VERIFY_EMAIL (at_time t w1)
                        = (Ok d, at_time t w1) /\ TokenDoc.user d = userId)
           /\ (unix expires <= unix t ->
               forall w2 : World,
                 clock w2 = t ->
                 tokenService.verifyToken token VERIFY_EMAIL w2
                 = (Throw TokenExpiredError, w2))).
Proof.
  intros userId w t. split.
  - eexists. split; [reflexivity |].
    destruct (issued_token_lifetime userId
                (add_minutes jwt_resetPasswordExpirationMinutes (clock w))
                RESET_PASSWORD w t) as [Hlive Hdead].
    split.
    + intros Hlt. destruct (Hlive Hlt) as (d & Hv & Hu & _). eauto.
    + exact Hdead.
  - eexists. split; [reflexivity |].
    destruct (issued_token_lifetime userId
                (add_minutes jwt_verifyEmailExpirationMinutes (clock w))
                VERIFY_EMAIL w t) as [Hlive Hdead].
    split.
    + intros Hlt. destruct (Hlive Hlt) as (d & Hv & Hu & _). eauto.
    + exact Hdead.
Qed.

(** [verifyToken] reads the clock and the ledger only. *)
Lemma verifyToken_ext `{Config} `{Jwt} (token : string) (type : TokenType)
      (w w' : World) :
  clock w = clock w' -> tokens w = tokens w' ->
  fst (tokenService.verifyToken token type w)
  = fst (tokenService.verifyToken token type w').
Proof. intros Hc Ht. rewrite !verifyToken_eq. simpl. rewrite Hc, Ht. reflexivity. Qed.

Lemma resetPassword_ok `{Config} `{Jwt} `{Bcrypt}
      (token newPassword : string) (w : World) (d : TokenDoc.t) (u0 : UserDoc.t) :
  fst (tokenService.verifyToken token RESET_PASSWORD w) = Ok d ->
  List.find (fun v => String.eqb (UserDoc.id v) (TokenDoc.user d)) (users w) = Some u0 ->
  fst (authService.resetPassword token newPassword w) = Ok tt.
Proof.
  rewrite verifyToken_eq, resetPassword_eq. simpl.
  destruct (jwt_verify token jwt_secret (unix (clock w))) as [p | e]; [| discriminate].
  destruct (TokenDoc.findOne_in _ (tokens w)) as [d0 |]; [| discriminate].
  intros [= ->] ->. reflexivity.
Qed.

(** X11: for a registered email and a working relay, [forgotPassword] stores
    one reset record and sends one mail, to that email, carrying the token;
    until the token expires, [resetPassword] accepts the mailed token. *)
Theorem forgotPassword_then_resetPassword
        {J : Jwt} {JS : @JwtSound J} `{Config} `{Bcrypt} :
  forall (email : string) (w : World) (user : UserDoc.t),
    fst (User.findOne_email email w) = Ok (Some user) ->
    smtpUp w = true ->
    exists token w1,
      authService.forgotPassword email w = (Ok tt, w1)
      /\ outbox w1 = outbox w ++ [mkMail email "Reset Your Password" token]
      /\ length (tokens w1) = S (length (tokens w))
      /\ forall (newPassword : string) (t : Z),
           unix t < unix (add_minutes jwt_resetPasswordExpirationMinutes (clock w)) ->
           fst (authService.resetPassword token newPassword (at_time t w1)) = Ok tt.
Proof.
  intros email w user Hu Hup.
  unfold User.findOne_email in Hu. simpl in Hu. injection Hu as Hu.
  unfold authService.forgotPassword, bind, User.findOne_email. rewrite Hu.
  unfold tokenService.generateResetPasswordToken, tokenService.generateToken,
    emailService.sendResetPasswordEmail, emailService.sendEmail, bind, ret, moment.
  cbn [tokenService.saveToken Token.create fst snd smtpUp with_nextId with_tokens
       outbox tokens].
  rewrite Hup. eexists _, _. split; [reflexivity |].
  cbn [outbox with_outbox tokens with_nextId with_tokens].
  split; [reflexivity |]. split; [rewrite List.length_app; simpl; lia |].
  intros newPassword t Hlt.
  destruct (issued_token_lifetime (UserDoc.id user)
              (add_minutes jwt_resetPasswordExpirationMinutes (clock w))
              RESET_PASSWORD w t) as [Hlive _].
  destruct (Hlive Hlt) as (d & Hv & Hud & _).
  apply (f_equal fst) in Hv. cbn [fst] in Hv.
  apply List.find_some in Hu as [Hin _].
  destruct (find_by_id_In user (users w) Hin) as [u0 Hu0].
  eapply (resetPassword_ok _ _ _ d u0).
  - rewrite <- Hv. apply verifyToken_ext; reflexivity.
  - rewrite Hud. exact Hu0.
Qed.

(** ** Blacklisting *)

Lemma findOneAndUpdate_in_blacklist_twice (q : TokenDoc.Query) (l : list TokenDoc.t) :
  TokenDoc.q_blacklisted q = None ->
  TokenDoc.findOneAndUpdate_in q (TokenDoc.set_blacklisted true)
    (TokenDoc.findOneAndUpdate_in q (TokenDoc.set_blacklisted true) l)
  = TokenDoc.findOneAndUpdate_in q (TokenDoc.set_blacklisted true) l.
Proof.
  intros Hq.
  assert (Hm : forall d, TokenDoc.matches q (TokenDoc.set_blacklisted true d)
                         = TokenDoc.matches q d).
  { intros d. unfold TokenDoc.matches. rewrite Hq. reflexivity. }
  induction l as [| h l IH]; simpl; [reflexivity |].
  destruct (TokenDoc.matches q h) eqn:E; simpl.
  - rewrite Hm, E. reflexivity.
  - rewrite E. f_equal. exact IH.
Qed.

Lemma ids_findOneAndUpdate_in (q : TokenDoc.Query) (l : list TokenDoc.t) :
  ids (TokenDoc.findOneAndUpdate_in q (TokenDoc.set_blacklisted true) l) = ids l.
Proof.
  induction l as [| h l IH]; simpl; [reflexivity |].
  destruct (TokenDoc.matches q h); simpl; [reflexivity | f_equal; exact IH].
Qed.

Lemma blacklisted_after_update (token : string) (type : TokenType)
      (l : list TokenDoc.t) (d : TokenDoc.t) :
  (count_token token l <= 1)%nat ->
  In d (TokenDoc.findOneAndUpdate_in
          (TokenDoc.mkQuery (Some token) (Some type) None None None None)
          (TokenDoc.set_blacklisted true) l) ->
  TokenDoc.token d = token -> TokenDoc.type d = type ->
  TokenDoc.blacklisted d = true.
Proof.
  set (q := TokenDoc.mkQuery _ _ _ _ _ _).
  induction l as [| h l IH]; simpl; [tauto |].
  intros Hc Hin Ht Hty. unfold count_token in Hc. simpl in Hc.
  destruct (TokenDoc.matches q h) eqn:Em.
  - destruct Hin as [<- | Hin]; [reflexivity |].
    exfalso. assert (Hth : TokenDoc.token h = token)
      by (eapply matches_token; [| exact Em]; reflexivity).
    rewrite Hth, String.eqb_refl in Hc. simpl in Hc.
    pose proof (count_token_In d l Hin) as H1. rewrite Ht in H1.
    unfold count_token in H1. lia.
  - destruct Hin as [<- | Hin].
    + exfalso. unfold TokenDoc.matches, q in Em. simpl in Em.
      rewrite Ht, Hty, String.eqb_refl in Em.
      destruct type; discriminate Em.
    + apply IH; try assumption.
      destruct (String.eqb (TokenDoc.token h) token); simpl in Hc;
        unfold count_token; lia.
Qed.

(** X12: [blacklistToken] keeps every record and its id, and doing it twice
    is doing it once.  When the ledger holds at most one record of the token
    string, [verifyToken] under that kind returns no record for the token in
    any later world in which no record with its string has been stored
    since. *)
Theorem blacklistToken_revokes `{Config} `{Jwt} :
  forall (token : string) (type : TokenType) (w : World),
    (count_token token (tokens w) <= 1)%nat ->
    let w' := snd (tokenService.blacklistToken token type w) in
    ids (tokens w') = ids (tokens w)
    /\ snd (tokenService.blacklistToken token type w') = w'
    /\ forall (w'' : World) (d : TokenDoc.t),
         not_stored_since token w' w'' ->
         fst (tokenService.verifyToken token type w'') <> Ok d.
Proof.
  intros token type w Hc w'. unfold w', tokenService.blacklistToken,
    Token.findOneAndUpdate. simpl. split; [apply ids_findOneAndUpdate_in |]. split.
  - unfold with_tokens. simpl. f_equal.
    apply findOneAndUpdate_in_blacklist_twice. reflexivity.
  - intros w'' d Hsince. rewrite verifyToken_eq. simpl.
    destruct (jwt_verify token jwt_secret (unix (clock w''))) as [p | e];
      [| discriminate].
    destruct (TokenDoc.findOne_in _ _) as [d0 |] eqn:Ef; [| discriminate].
    exfalso. apply findOne_in_Some in Ef as [Hin Hm].
    unfold TokenDoc.matches in Hm. simpl in Hm. rewrite !andb_true_iff in Hm.
    destruct Hm as [[[[[Ht Hty] _] Hb] _] _].
    apply String.eqb_eq in Ht. apply tokenType_eqb_eq in Hty.
    specialize (Hsince d0 Hin Ht). cbn [tokens with_tokens] in Hsince.
    rewrite (blacklisted_after_update token type (tokens w) d0 Hc Hsince Ht Hty) in Hb.
    discriminate Hb.
Qed.

(** ** The guards *)

Lemma gate_Ok_inv `{Config} `{Jwt} (req r : Request) (w w' : World) :
  auth.verifyToken req w = (Ok r, w') ->
  w' = w
  /\ exists token decoded user,
      auth.pickToken req = Some token
      /\ token <> ""
      /\ jwt_verify token jwt_secret (unix (clock w)) = Ok decoded
      /\ List.find (fun u => String.eqb (UserDoc.id u) (sub decoded)) (users w)
         = Some user
      /\ User.changedPasswordAfter user (iat decoded) = false
      /\ UserDoc.isActive user = true
      /\ r = set_req_user user req.
Proof.
  unfold auth.verifyToken, try_catch, bind, moment, lift_result, User.findById,
    throw, ret.
  destruct (auth.pickToken req) as [token |]; [| discriminate].
  destruct (truthy_string (Some token)) eqn:Et; simpl; [| discriminate].
  destruct (jwt_verify token jwt_secret (unix (clock w))) as [decoded | e] eqn:Ev.
  - destruct (List.find _ (users w)) as [user |] eqn:Eu; [| discriminate].
    destruct (User.changedPasswordAfter user (iat decoded)) eqn:Ec; [discriminate |].
    destruct (UserDoc.isActive user) eqn:Ea; simpl; [| discriminate].
    intros [= <- <-]. split; [reflexivity |].
    exists token, decoded, user. repeat split; try assumption.
    intros ->. discriminate Et.
  - destruct e as [c m o | n m]; [discriminate |].
    destruct (String.eqb n "JsonWebTokenError"); [discriminate |].
    destruct (String.eqb n "TokenExpiredError"); discriminate.
Qed.


(** X14: [optionalAuth] never fails and never writes; it attaches a user
    exactly when [verifyToken] would let the request through, and then the
    same user. *)
Theorem optionalAuth_agrees_with_gate `{Config} `{Jwt} :
  forall (req : Request) (w : World),
    authGuards.optionalAuth req w =
    (Ok (match fst (auth.verifyToken req w) with
         | Ok r => r
         | Throw _ => req
         end), w).
Proof.
  intros req w.
  unfold authGuards.optionalAuth, auth.verifyToken, try_catch, bind, moment,
    lift_result, User.findById, throw, ret.
  destruct (auth.pickToken req) as [token |]; [| reflexivity].
  destruct (truthy_string (Some token)); simpl; [| reflexivity].
  destruct (jwt_verify token jwt_secret (unix (clock w))) as [decoded | e].
  - destruct (List.find _ (users w)) as [user |]; [| reflexivity].
    destruct (UserDoc.isActive user);
      destruct (User.changedPasswordAfter user (iat decoded)); reflexivity.
  - destruct e as [c m o | n m]; [reflexivity |].
    destruct (String.eqb n "JsonWebTokenError"); [reflexivity |].
    destruct (String.eqb n "TokenExpiredError"); reflexivity.
Qed.

Lemma split_no_sep (c : ascii) (s : string) :
  ~ In c (list_ascii_of_string s) -> split c s = [s].
Proof.
  induction s as [| a s IH]; simpl; [reflexivity |].
  intros Hn. destruct (Ascii.eqb_spec a c) as [-> | _]; [tauto |].
  rewrite IH by tauto. reflexivity.
Qed.

(** X15: a header that starts with [Bearer] decides alone, whatever the
    cookie holds: [Bearer t] with no blank in [t] yields [t], and a bare
    [Bearer] yields no token, so the request is refused although the cookie
    may hold a good one.  Any other header, or none, leaves the choice to a
    non-empty [accessToken] cookie. *)
Theorem pickToken_precedence `{Config} `{Jwt} :
  forall (cookie params : option string) (body : gmap string Json)
         (u : option UserDoc.t),
    (forall t, no_blank t ->
       auth.pickToken (mkRequest (Some (String.append "Bearer " t)) cookie params body u)
       = Some t)
    /\ (forall w,
          auth.verifyToken (mkRequest (Some "Bearer") cookie params body u) w
          = (Throw (UnauthorizedError "Access denied. No token provided."), w))
    /\ (forall h, String.prefix "Bearer" h = false ->
          auth.pickToken (mkRequest (Some h) cookie params body u)
          = if truthy_string cookie then cookie else None)
    /\ auth.pickToken (mkRequest None cookie params body u)
       = if truthy_string cookie then cookie else None.
Proof.
  intros cookie params body u. split; [| split; [| split]].
  - intros t Ht. unfold auth.pickToken. cbn [headers_authorization].
    assert (Hs : split " " (String.append "Bearer " t) = "Bearer" :: split " " t)
      by reflexivity.
    rewrite Hs, (split_no_sep " " t Ht). reflexivity.
  - intros w. reflexivity.
  - intros h Hp. unfold auth.pickToken. simpl. rewrite Hp, andb_false_r. reflexivity.
  - reflexivity.
Qed.

Lemma admin_has_every_right (r : Role) (userRights adminRights : list string)
      (right : string) :
  roleRights_get (role_name r) = Some userRights ->
  roleRights_get (role_name admin_role) = Some adminRights ->
  In right userRights -> In right adminRights.
Proof.
  intros Hr Ha Hin. injection Ha as <-.
  destruct r; injection Hr as <-; simpl in Hin; simpl;
    repeat (destruct Hin as [<- | Hin]; [tauto |]); contradiction.
Qed.

(** X16: without a user on the request [authorize] answers
    [UnauthorizedError], whatever the rights; and what it lets a user
    through, it lets the same user through as an admin: every right of any
    role is an admin right. *)
Theorem authorize_admin_passes :
  forall (requiredRights : list string) (req : Request) (w : World),
    (req_user req = None ->
       auth.authorize requiredRights req w
       = (Throw (UnauthorizedError "Please authenticate first."), w))
    /\ (forall user,
          req_user req = Some user ->
          auth.authorize requiredRights req w = (Ok req, w) ->
          auth.authorize requiredRights
            (set_req_user (with_role admin_role user) req) w
          = (Ok (set_req_user (with_role admin_role user) req), w)).
Proof.
  intros requiredRights req w. split.
  - intros Hu. unfold auth.authorize. rewrite Hu. reflexivity.
  - intros user Hu. unfold auth.authorize. rewrite Hu. cbn [req_user set_req_user].
    destruct (Nat.eqb (length requiredRights) 0); [reflexivity |].
    destruct (role_has_rights (UserDoc.role user)) as [userRights Hr]. rewrite Hr.
    cbn [UserDoc.role with_role role_name UserDoc.id params_userId].
    destruct (roleRights_get "admin") as [adminRights |] eqn:Ha; [| discriminate Ha].
    destruct (List.forallb (fun right => includes userRights right) requiredRights)
      eqn:Eall.
    + intros _.
      assert (Hadm : List.forallb (fun right => includes adminRights right)
                                  requiredRights = true).
      { rewrite List.forallb_forall in *. intros right Hin.
        apply includes_In.
        apply (admin_has_every_right (UserDoc.role user) userRights adminRights right
                 Hr Ha).
        apply includes_In. auto. }
      rewrite Hadm. reflexivity.
    + simpl.
      destruct (match params_userId req with
                | Some p => String.eqb p (UserDoc.id user)
                | None => false
                end); simpl; [| discriminate].
      intros _. rewrite andb_false_r. reflexivity.
Qed.

Lemma verifyEmail_marks_verified `{Config} `{Jwt}
      (verifyEmailToken : string) (w w' : World) :
  authService.verifyEmail verifyEmailToken w = (Ok tt, w') ->
  exists p user,
    jwt_verify verifyEmailToken jwt_secret (unix (clock w)) = Ok p
    /\ List.find (fun u => String.eqb (UserDoc.id u) (sub p)) (users w') = Some user
    /\ UserDoc.isEmailVerified user = true.
Proof.
  rewrite verifyEmail_eq.
  destruct (jwt_verify verifyEmailToken jwt_secret (unix (clock w))) as [p | e];
    [| discriminate].
  destruct (TokenDoc.findOne_in _ (tokens w)) as [d |] eqn:Ef; [| discriminate].
  destruct (List.find _ (users w)) as [user |] eqn:Eu; [| discriminate].
  intros [= <-].
  pose proof (find_id _ _ _ Eu) as Hid.
  apply findOne_in_Some in Ef as [_ Hm].
  unfold TokenDoc.matches in Hm. simpl in Hm. rewrite !andb_true_iff in Hm.
  destruct Hm as [[[[[_ _] Hud] _] _] _]. apply String.eqb_eq in Hud.
  exists p, (UserDoc.set_isEmailVerified true user). split; [reflexivity |].
  split; [| reflexivity].
  assert (Husers : forall w0, users (welcomed (UserDoc.set_isEmailVerified true user) w0)
                              = users w0).
  { intros w0. unfold welcomed. destruct (smtpUp w0); reflexivity. }
  rewrite Husers. cbn [users with_users]. rewrite <- Hud, <- Hid.
  apply (find_replace (UserDoc.set_isEmailVerified true user) user).
  simpl. rewrite Hid. exact Eu.
Qed.

(** X17: once [verifyEmail] has completed, a request that the gate lets
    through for the token's user also passes [requireVerifiedEmail]. *)
Theorem verified_user_passes_requireVerifiedEmail `{Config} `{Jwt} :
  forall (verifyEmailToken : string) (w w' w'' : World) (p : Payload)
         (req r : Request) (t : Z) (user : UserDoc.t),
    authService.verifyEmail verifyEmailToken w = (Ok tt, w') ->
    jwt_verify verifyEmailToken jwt_secret (unix (clock w)) = Ok p ->
    auth.verifyToken req (at_time t w') = (Ok r, w'') ->
    req_user r = Some user ->
    UserDoc.id user = sub p ->
    authGuards.requireVerifiedEmail r w'' = (Ok r, w'').
Proof.
  intros tok w w' w'' p req r t user Hve Hp Hgate Hru Hid.
  destruct (verifyEmail_marks_verified tok w w' Hve) as (p0 & v & Hp0 & Hv & Hver).
  rewrite Hp in Hp0. injection Hp0 as <-.
  apply gate_Ok_inv in Hgate as (-> & token & decoded & u & _ & _ & _ & Hu & _ & _ & ->).
  cbn [req_user set_req_user] in Hru. injection Hru as ->.
  pose proof (find_id _ _ _ Hu) as Hid'. rewrite Hid in Hid'.
  cbn [users at_time] in Hu. rewrite <- Hid' in Hu. rewrite Hv in Hu.
  injection Hu as <-.
  unfold authGuards.requireVerifiedEmail. cbn [req_user set_req_user].
  rewrite Hver. reflexivity.
Qed.

(** ** The sweep *)

Lemma find_filter_keep {A} (p keep : A -> bool) (l : list A) (d : A) :
  List.find p l = Some d -> keep d = true ->
  List.find p (List.filter keep l) = Some d.
Proof.
  induction l as [| h l IH]; simpl; [discriminate |].
  destruct (p h) eqn:Ep.
  - intros [= ->] Hk. rewrite Hk. simpl. rewrite Ep. reflexivity.
  - intros Hf Hk. destruct (keep h); simpl; [rewrite Ep |]; apply IH; assumption.
Qed.

(** X18: the daily sweep never fails and leaves the users alone; it keeps
    exactly the records whose [expires] date is not before the clock, and a
    token that was verified before the sweep and whose record has not
    expired is verified after it, to the same record.  A record whose expiry
    second is still ahead is never swept. *)
Theorem cleanupExpiredTokens_keeps_live `{Config} `{Jwt} :
  forall (w : World),
    let w' := snd (cron.cleanupExpiredTokens w) in
    fst (cron.cleanupExpiredTokens w) = Ok tt
    /\ users w' = users w
    /\ (forall d, In d (tokens w') <-> In d (tokens w) /\ clock w <= TokenDoc.expires d)
    /\ (forall token type d,
          tokenService.verifyToken token type w = (Ok d, w) ->
          clock w <= TokenDoc.expires d ->
          tokenService.verifyToken token type w' = (Ok d, w'))
    /\ (forall d, In d (tokens w) -> unix (clock w) < unix (TokenDoc.expires d) ->
                  In d (tokens w')).
Proof.
  intros w w'. unfold w', cron.cleanupExpiredTokens, try_catch, bind, moment,
    Token.deleteMany. simpl.
  assert (Hkeep : forall d,
             negb (TokenDoc.matches
                     (TokenDoc.mkQuery None None None None (Some (clock w)) None) d)
             = true <-> clock w <= TokenDoc.expires d).
  { intros d. unfold TokenDoc.matches. simpl. rewrite andb_true_r.
    rewrite negb_true_iff, Z.ltb_ge. reflexivity. }
  assert (Hin : forall d,
             In d (TokenDoc.deleteMany_in
                     (TokenDoc.mkQuery None None None None (Some (clock w)) None)
                     (tokens w))
             <-> In d (tokens w) /\ clock w <= TokenDoc.expires d).
  { intros d. unfold TokenDoc.deleteMany_in. rewrite List.filter_In, Hkeep.
    reflexivity. }
  split; [reflexivity |]. split; [reflexivity |]. split; [exact Hin |]. split.
  - intros token type d. rewrite !verifyToken_eq. simpl.
    destruct (jwt_verify token jwt_secret (unix (clock w))) as [p | e];
      [| discriminate].
    destruct (TokenDoc.findOne_in _ (tokens w)) as [d0 |] eqn:Ef; [| discriminate].
    intros [= ->] Hlive. unfold TokenDoc.findOne_in, TokenDoc.deleteMany_in.
    rewrite (find_filter_keep _ _ _ d Ef); [reflexivity |].
    apply Hkeep. exact Hlive.
  - intros d Hd Hlt. apply Hin. split; [exact Hd |].
    destruct (Z.le_gt_cases (clock w) (TokenDoc.expires d)) as [Hle | Hgt];
      [exact Hle |].
    exfalso. unfold unix in Hlt.
    assert (TokenDoc.expires d / 1000 <= clock w / 1000)
      by (apply Z.div_le_mono; lia).
    lia.
Qed.

(** ** Error responses *)

(** X19: in production the client learns the status and the message of an
    operational [ApiError] only; for every other thrown value the response
    is status 500 with the fixed text, whatever the error said. *)
Theorem production_hides_internal_errors `{Config} :
  forall (handler : M Response) (w w' : World) (e : Error),
    config_env = "production" ->
    handler w = (Throw e, w') ->
    respond handler w =
    (match e with
     | ApiError statusCode message true =>
         mkResponse (if Z.eqb statusCode 0 then 500 else statusCode) false
                    (if String.eqb message "" then "Internal server error" else message)
     | _ => mkResponse 500 false "Internal server error"
     end, w').
Proof.
  intros handler w w' e Henv Hh. unfold respond. rewrite Hh.
  destruct e as [c m [|] | n m]; simpl; rewrite Henv; reflexivity.
Qed.

(** ** What every sequence of calls keeps *)

Lemma keeps_bind {A B} (P : World -> Prop) (c : M A) (k : A -> M B) :
  keeps P c -> (forall a, keeps P (k a)) -> keeps P (bind c k).
Proof.
  intros Hc Hk w Hw. unfold bind. specialize (Hc w Hw).
  destruct (c w) as [[a | e] w1]; simpl in *; [apply Hk |]; exact Hc.
Qed.

Lemma keeps_try_catch {A} (P : World -> Prop) (c : M A) (h : Error -> M A) :
  keeps P c -> (forall e, keeps P (h e)) -> keeps P (try_catch c h).
Proof.
  intros Hc Hh w Hw. unfold try_catch. specialize (Hc w Hw).
  destruct (c w) as [[a | e] w1]; simpl in *; [| apply Hh]; exact Hc.
Qed.

Lemma keeps_pure {A} (P : World -> Prop) (c : M A) :
  (forall w, snd (c w) = w) -> keeps P c.
Proof. intros Hc w Hw. rewrite Hc. exact Hw. Qed.

Lemma kept_create (w0 : World) (token user : string) (expires : Z)
      (type : TokenType) (blacklisted : bool) :
  type <> ACCESS -> keeps (kept w0) (Token.create token user expires type blacklisted).
Proof.
  intros Hty w (Hwf & Hacc & Hus & Hn & sent & Hout).
  split; [apply wf_create; exact Hwf |]. simpl.
  split; [| split; [exact Hus | split; [lia | exists sent; exact Hout]]].
  intros d Hin. apply List.in_app_or in Hin as [Hin | [<- | []]]; [auto | exact Hty].
Qed.

Lemma kept_deleteOne (w0 : World) (d : TokenDoc.t) :
  keeps (kept w0) (Token.deleteOne d).
Proof.
  intros w (Hwf & Hacc & Hus & Hn & Hout).
  split; [apply wf_deleteOne; exact Hwf |]. simpl.
  split; [| tauto]. intros d0 Hin. apply Hacc. eapply deleteOne_in_incl. exact Hin.
Qed.

Lemma kept_deleteMany (w0 : World) (q : TokenDoc.Query) :
  keeps (kept w0) (Token.deleteMany q).
Proof.
  intros w (Hwf & Hacc & Hus & Hn & Hout).
  split; [apply wf_deleteMany; exact Hwf |]. simpl.
  split; [| tauto]. intros d0 Hin. apply Hacc.
  unfold TokenDoc.deleteMany_in in Hin. apply List.filter_In in Hin. tauto.
Qed.

Lemma In_findOneAndUpdate_in (q : TokenDoc.Query) (l : list TokenDoc.t)
      (d : TokenDoc.t) :
  In d (TokenDoc.findOneAndUpdate_in q (TokenDoc.set_blacklisted true) l) ->
  exists d0, In d0 l /\ TokenDoc.type d = TokenDoc.type d0.
Proof.
  induction l as [| h l IH]; simpl; [tauto |].
  destruct (TokenDoc.matches q h); simpl.
  - intros [E | Hin]; [exists h; subst d | exists d]; auto.
  - intros [E | Hin]; [exists h; subst d; auto |].
    destruct (IH Hin) as (d0 & Hd0 & Ht). exists d0. auto.
Qed.

Lemma kept_findOneAndUpdate (w0 : World) (q : TokenDoc.Query) :
  keeps (kept w0) (Token.findOneAndUpdate q (TokenDoc.set_blacklisted true)).
Proof.
  intros w ([Hnd Hlt] & Hacc & Hus & Hn & Hout). unfold kept, wf. simpl.
  rewrite ids_findOneAndUpdate_in.
  split; [split; assumption |]. split; [| tauto].
  intros d Hin. apply In_findOneAndUpdate_in in Hin as (d0 & Hd0 & ->). auto.
Qed.

Lemma kept_save (w0 : World) (u : UserDoc.t) : keeps (kept w0) (User.save u).
Proof.
  intros w (Hwf & Hacc & Hus & Hn & Hout). unfold kept. simpl.
  rewrite map_id_replace. tauto.
Qed.

Lemma kept_sendEmail (w0 : World) (m : Mail) : keeps (kept w0) (emailService.sendEmail m).
Proof.
  intros w (Hwf & Hacc & Hus & Hn & sent & Hout). unfold emailService.sendEmail.
  destruct (smtpUp w); simpl; [| unfold kept; eauto 6].
  split; [exact Hwf |]. simpl. split; [exact Hacc |]. split; [exact Hus |].
  split; [exact Hn |]. exists (sent ++ [m]). rewrite Hout, List.app_assoc. reflexivity.
Qed.

Ltac keeps_step w0 :=
  lazymatch goal with
  | |- keeps _ (bind _ _) => apply keeps_bind; [| intros ?]
  | |- keeps _ (try_catch _ _) => apply keeps_try_catch; [| intros ?]
  | |- keeps _ (Token.create _ _ _ _ _) => apply kept_create; discriminate
  | |- keeps _ (Token.deleteOne _) => apply kept_deleteOne
  | |- keeps _ (Token.deleteMany _) => apply kept_deleteMany
  | |- keeps _ (Token.findOneAndUpdate _ _) => apply kept_findOneAndUpdate
  | |- keeps _ (User.save _) => apply kept_save
  | |- keeps _ (emailService.sendEmail _) => apply kept_sendEmail
  | |- keeps _ (match ?x with _ => _ end) => destruct x
  | |- keeps _ _ => apply keeps_pure; intros ?; reflexivity
  end.

Ltac keeps_all w0 :=
  unfold authService.login, authService.logout, authService.refreshAuth,
    authService.forgotPassword, authService.resetPassword, authService.verifyEmail,
    authService.changePassword, tokenService.generateAuthTokens,
    tokenService.generateResetPasswordToken, tokenService.generateVerifyEmailToken,
    tokenService.verifyToken, tokenService.generateToken, tokenService.saveToken,
    tokenService.blacklistToken, tokenService.deleteUserTokens,
    emailService.sendResetPasswordEmail, emailService.sendWelcomeEmail,
    User.save_password, cron.cleanupExpiredTokens;
  cbv zeta;
  repeat keeps_step w0.

Lemma exec_kept `{Config} `{Jwt} `{Bcrypt} `{Moment} (w0 w : World) (c : Call) :
  kept w0 w -> kept w0 (exec c w).
Proof.
  intros Hw.
  destruct c; unfold exec;
    try (match goal with
         | |- kept _ (snd (?m w)) =>
             let K := fresh in
             assert (K : keeps (kept w0) m) by keeps_all w0; exact (K w Hw)
         end).
  - exact Hw.
  - exact Hw.
Qed.

Lemma run_calls_kept_from `{Config} `{Jwt} `{Bcrypt} `{Moment} (calls : list Call)
      (w0 w : World) :
  kept w0 w -> kept w0 (run_calls calls w).
Proof.
  unfold run_calls. revert w.
  induction calls as [| c calls IH]; intros w Hk; simpl; [exact Hk |].
  apply IH. apply exec_kept. exact Hk.
Qed.

(** X20: whatever the services are called with and in whatever order, with
    time passing and the mail relay coming and going in between, the ledger
    keeps unique record ids below the next id and never holds an access
    token, no user is added, removed or reordered, ids are not handed out
    again, and the outbox only grows. *)
Theorem run_calls_kept `{Config} `{Jwt} `{Bcrypt} `{Moment} :
  forall (calls : list Call) (w : World),
    wf w ->
    (forall d, In d (tokens w) -> TokenDoc.type d <> ACCESS) ->
    kept w (run_calls calls w).
Proof.
  intros calls w Hwf Hacc. apply run_calls_kept_from.
  split; [exact Hwf |]. split; [exact Hacc |]. split; [reflexivity |].
  split; [lia |]. exists []. rewrite List.app_nil_r. reflexivity.
Qed.

(** ** The user collection *)

(** X21: [updateUserById] answers [NotFoundError] for an id that is not
    stored and [ConflictError] for an email another user has; a body with
    an own key [save] ends in the [TypeError] of calling [user.save]; every
    refused update leaves the collection unchanged.  A completed one stores
    the returned document, which is what [user.save()] persisted of the
    stored document with the body assigned.  No other user's document is
    touched in any case. *)
Theorem updateUserById_frame `{UserModel} :
  forall (userId : string) (updateBody : gmap string Json)
         (store : gmap string (gmap string Json)),
    let r := userService.updateUserById userId updateBody store in
    (forall other, other <> userId -> snd r !! other = store !! other)
    /\ (store !! userId = None -> r = (Throw (NotFoundError "User not found"), store))
    /\ (forall old, store !! userId = Some old ->
          userService.emailConflict userId updateBody store = true ->
          r = (Throw (ConflictError "Email already taken"), store))
    /\ (forall old v, store !! userId = Some old ->
          userService.emailConflict userId updateBody store = false ->
          updateBody !! "save" = Some v ->
          r = (Throw (TypeError "user.save is not a function"), store))
    /\ (forall e, fst r = Throw e -> snd r = store)
    /\ (forall user, fst r = Ok user ->
          snd r = <[userId := user]> store
          /\ updateBody !! "save" = None
          /\ exists old,
              store !! userId = Some old
              /\ user_save old (userService.Object_assign old updateBody) = Ok user).
Proof.
  intros userId updateBody store r. unfold r, userService.updateUserById,
    userService.getUserById.
  destruct (store !! userId) as [old |] eqn:Eo.
  - destruct (userService.emailConflict userId updateBody store).
    + simpl. split; [reflexivity |]. split; [discriminate |].
      split; [reflexivity |]. split; [discriminate |].
      split; [reflexivity |]. intros user E. discriminate E.
    + unfold userService.keeps_save.
      destruct (updateBody !! "save") as [sv |] eqn:Es.
      * simpl. split; [reflexivity |]. split; [discriminate |].
        split; [discriminate |]. split; [reflexivity |].
        split; [reflexivity |]. intros user E. discriminate E.
      * destruct (negb (userService.replaces_prototype updateBody)).
        -- destruct (user_save old (userService.Object_assign old updateBody))
             as [saved | err] eqn:Esave; simpl.
           ++ split; [intros other Hne; apply lookup_insert_ne; congruence |].
              split; [discriminate |]. split; [discriminate |].
              split; [discriminate |]. split; [discriminate |].
              intros user E. injection E as <-.
              split; [reflexivity |]. split; [reflexivity |].
              exists old. split; [reflexivity | exact Esave].
           ++ split; [reflexivity |]. split; [discriminate |].
              split; [discriminate |]. split; [discriminate |].
              split; [reflexivity |]. intros user E. discriminate E.
        -- simpl. split; [reflexivity |]. split; [discriminate |].
           split; [discriminate |]. split; [discriminate |].
           split; [reflexivity |]. intros user E. discriminate E.
  - simpl. split; [reflexivity |]. split; [reflexivity |].
    split; [discriminate |]. split; [discriminate |].
    split; [reflexivity |]. intros user E. discriminate E.
Qed.

(** X22: for a stored user, deactivating and then activating leaves the
    document with [isActive] true and every other key as it was, and leaves
    the other users alone; after [deleteUserById] the id is gone:
    [getUserById] and a second [deleteUserById] answer [NotFoundError]. *)
Theorem account_lifecycle :
  forall (userId : string) (store : gmap string (gmap string Json))
         (user : gmap string Json),
    store !! userId = Some user ->
    snd (userAdmin.activateUser userId (snd (userAdmin.deactivateUser userId store)))
      = <[userId := <["isActive" := JBool true]> user]> store
    /\ fst (userAdmin.deactivateUser userId store)
       = Ok (<["isActive" := JBool false]> user)
    /\ snd (userAdmin.deleteUserById userId store) = delete userId store
    /\ userService.getUserById userId (snd (userAdmin.deleteUserById userId store))
       = Throw (NotFoundError "User not found")
    /\ userAdmin.deleteUserById userId (snd (userAdmin.deleteUserById userId store))
       = (Throw (NotFoundError "User not found"), delete userId store).
Proof.
  intros userId store user Hu.
  assert (Hde : userAdmin.deactivateUser userId store
                = (Ok (<["isActive" := JBool false]> user),
                   <[userId := <["isActive" := JBool false]> user]> store)).
  { unfold userAdmin.deactivateUser, userService.getUserById. rewrite Hu. reflexivity. }
  assert (Hdel : userAdmin.deleteUserById userId store = (Ok user, delete userId store)).
  { unfold userAdmin.deleteUserById, userService.getUserById. rewrite Hu. reflexivity. }
  rewrite Hde, Hdel. cbn [fst snd].
  split; [| split; [reflexivity | split; [reflexivity |]]].
  - unfold userAdmin.activateUser, userService.getUserById.
    rewrite lookup_insert_eq. cbn [snd]. rewrite !insert_insert_eq. reflexivity.
  - unfold userAdmin.deleteUserById, userService.getUserById.
    rewrite lookup_delete_eq. split; reflexivity.
Qed.

(** ** Helpers *)

Lemma own_assign_ne (obj : Obj) (key k : string) (v : Json) :
  k <> key -> own (helpers.assign obj key v) !! k = own obj !! k.
Proof.
  intros Hne. unfold helpers.assign.
  destruct (String.eqb key "__proto__" && helpers.reaches_setter obj).
  - destruct (helpers.is_object_or_null v); reflexivity.
  - simpl. apply lookup_insert_ne. congruence.
Qed.

Lemma assign_ordinary (obj : Obj) (key : string) (v : Json) :
  key <> "__proto__" ->
  helpers.assign obj key v = mkObj (<[key := v]> (own obj)) (proto obj).
Proof.
  intros Hne. unfold helpers.assign.
  destruct (String.eqb_spec key "__proto__") as [E | _]; [contradiction | reflexivity].
Qed.

Lemma pick_fold_notin (o : gmap string Json) (keys : list string) (acc : Obj)
      (k : string) :
  ~ In k keys ->
  own (List.fold_left
         (fun obj key => match o !! key with
                         | Some v => helpers.assign obj key v
                         | None => obj
                         end) keys acc) !! k = own acc !! k.
Proof.
  revert acc. induction keys as [| a keys IH]; intros acc Hn; simpl; [reflexivity |].
  rewrite IH by (simpl in Hn; tauto).
  destruct (o !! a); [| reflexivity].
  apply own_assign_ne. simpl in Hn. intros ->. tauto.
Qed.

Lemma pick_fold_in (o : gmap string Json) (keys : list string) (acc : Obj)
      (k : string) :
  k <> "__proto__" ->
  In k keys ->
  own (List.fold_left
         (fun obj key => match o !! key with
                         | Some v => helpers.assign obj key v
                         | None => obj
                         end) keys acc) !! k
  = match o !! k with Some v => Some v | None => own acc !! k end.
Proof.
  intros Hp. revert acc.
  induction keys as [| a keys IH]; intros acc Hin; simpl; [destruct Hin |].
  destruct (in_dec string_dec k keys) as [Hk | Hk].
  - rewrite IH by exact Hk. destruct (o !! k) eqn:Ek; [reflexivity |].
    destruct (o !! a) eqn:Ea; [| reflexivity].
    apply own_assign_ne. intros ->. congruence.
  - rewrite pick_fold_notin by exact Hk.
    destruct Hin as [-> | Hin]; [| contradiction].
    destruct (o !! k) eqn:Ek; [| reflexivity].
    rewrite assign_ordinary by exact Hp. simpl. apply lookup_insert_eq.
Qed.

Lemma pick_fold_proto (o : gmap string Json) (keys : list string) (acc : Obj) :
  ~ In "__proto__" keys ->
  proto (List.fold_left
           (fun obj key => match o !! key with
                           | Some v => helpers.assign obj key v
                           | None => obj
                           end) keys acc) = proto acc.
Proof.
  revert acc. induction keys as [| a keys IH]; intros acc Hn; simpl; [reflexivity |].
  rewrite IH by (simpl in Hn; tauto).
  destruct (o !! a); [| reflexivity].
  rewrite assign_ordinary; [reflexivity |]. simpl in Hn. intros ->. tauto.
Qed.

(** X23: [pick] gives the new object exactly the own properties of the
    source that are named in the key list, with their values, for every
    name but [__proto__]; nothing is picked from a falsy object.  The key
    [__proto__], named once, never becomes an own property: it replaces the
    prototype of the result when its value is an object or [null] and is
    dropped otherwise.  Without that key the prototype stays, and picking
    again from the result with the same keys changes nothing. *)
Theorem pick_lookup :
  forall (o : gmap string Json) (keys : list string) (k : string),
    (In k keys -> k <> "__proto__" -> own (helpers.pick (Some o) keys) !! k = o !! k)
    /\ (~ In k keys -> own (helpers.pick (Some o) keys) !! k = None)
    /\ helpers.pick None keys = mkObj ∅ None
    /\ (In "__proto__" keys -> List.NoDup keys ->
        own (helpers.pick (Some o) keys) !! "__proto__" = None
        /\ proto (helpers.pick (Some o) keys)
           = match o !! "__proto__" with
             | Some v => if helpers.is_object_or_null v then Some v else None
             | None => None
             end)
    /\ (~ In "__proto__" keys ->
        proto (helpers.pick (Some o) keys) = None
        /\ helpers.pick (Some (own (helpers.pick (Some o) keys))) keys
           = helpers.pick (Some o) keys).
Proof.
  intros o keys k.
  assert (Hin : forall o' k', In k' keys -> k' <> "__proto__" ->
                  own (helpers.pick (Some o') keys) !! k' = o' !! k').
  { intros o' k' Hk Hp. unfold helpers.pick. rewrite pick_fold_in by assumption.
    destruct (o' !! k'); [reflexivity | apply lookup_empty]. }
  assert (Hout : forall o' k', ~ In k' keys ->
                   own (helpers.pick (Some o') keys) !! k' = None).
  { intros o' k' Hk. unfold helpers.pick. rewrite pick_fold_notin by exact Hk.
    apply lookup_empty. }
  split; [apply Hin |]. split; [apply Hout |]. split; [| split].
  - unfold helpers.pick. generalize (mkObj ∅ None) as acc.
    clear Hin Hout. induction keys as [| a keys IH]; intros acc; simpl;
      [reflexivity | apply IH].
  - intros Hk Hnd. apply List.in_split in Hk as (l1 & l2 & ->).
    apply List.NoDup_remove_2 in Hnd.
    assert (H1 : ~ In "__proto__" l1) by (intros Hi; apply Hnd, List.in_or_app; tauto).
    assert (H2 : ~ In "__proto__" l2) by (intros Hi; apply Hnd, List.in_or_app; tauto).
    unfold helpers.pick. rewrite List.fold_left_app. cbn [List.fold_left].
    set (f := fun obj key => match o !! key with
                             | Some v => helpers.assign obj key v
                             | None => obj
                             end).
    set (before := List.fold_left f l1 (mkObj ∅ None)).
    assert (Hown : own before !! "__proto__" = None).
    { unfold before, f. rewrite pick_fold_notin by exact H1. apply lookup_empty. }
    assert (Hproto : proto before = None).
    { unfold before, f. rewrite pick_fold_proto by exact H1. reflexivity. }
    unfold f at 1 2. rewrite pick_fold_notin by exact H2.
    rewrite pick_fold_proto by exact H2. fold f.
    destruct (o !! "__proto__") as [v |]; [| split; assumption].
    unfold helpers.assign, helpers.reaches_setter. rewrite Hown, Hproto. simpl.
    destruct (helpers.is_object_or_null v); simpl; split; assumption || reflexivity.
  - intros Hp.
    assert (Hpr : forall o', proto (helpers.pick (Some o') keys) = None).
    { intros o'. unfold helpers.pick. rewrite pick_fold_proto by exact Hp. reflexivity. }
    split; [apply Hpr |].
    set (once := helpers.pick (Some o) keys).
    set (twice := helpers.pick (Some (own once)) keys).
    assert (Eown : own twice = own once).
    { apply map_eq. intros k'. destruct (in_dec string_dec k' keys) as [Hk | Hk].
      - assert (Hne : k' <> "__proto__") by (intros ->; contradiction).
        unfold twice. rewrite (Hin (own once) k' Hk Hne). reflexivity.
      - unfold twice, once. rewrite !Hout by exact Hk. reflexivity. }
    assert (Eproto : proto twice = proto once).
    { unfold twice, once. rewrite !Hpr. reflexivity. }
    destruct twice, once. simpl in *. congruence.
Qed.

(** X24: whatever [parseInt] makes of the query, the page is a number other
    than zero; the limit is a number other than zero and at most 100, but
    has no lower bound: a negative limit is passed on as it is.  The order
    is [asc] or [desc], and the sort key is never empty. *)
Theorem getPaginationOptions_bounds :
  forall (parseInt : option string -> JsNum)
         (query_page query_limit query_sortBy query_order : option string),
    let o := helpers.getPaginationOptions parseInt query_page query_limit
                                           query_sortBy query_order in
    page o <> NaN /\ page o <> Num 0
    /\ limit o <> NaN /\ limit o <> Num 0 /\ limit o <> PosInf
    /\ (forall z, limit o = Num z -> z <= 100)
    /\ (forall z, parseInt query_limit = Num z -> z < 0 -> limit o = Num z)
    /\ (order o = "asc" \/ order o = "desc")
    /\ sortBy o <> "".
Proof.
  intros parseInt qp ql qs qo o. unfold o, helpers.getPaginationOptions. simpl.
  unfold helpers.num_or.
  split; [| split; [| split; [| split; [| split; [| split; [| split; [| split]]]]]]].
  - destruct (parseInt qp) as [| z | |]; simpl; try discriminate.
    destruct (Z.eqb z 0); discriminate.
  - destruct (parseInt qp) as [| z | |]; simpl; try discriminate.
    destruct (Z.eqb_spec z 0); simpl; [discriminate | congruence].
  - destruct (parseInt ql) as [| z | |]; simpl; try discriminate.
    destruct (Z.eqb z 0); discriminate.
  - destruct (parseInt ql) as [| z | |]; simpl; try discriminate.
    destruct (Z.eqb_spec z 0); simpl; [discriminate |].
    intros [= E]. lia.
  - destruct (parseInt ql) as [| z | |]; simpl; try discriminate.
    destruct (Z.eqb z 0); discriminate.
  - intros z0. destruct (parseInt ql) as [| z | |]; simpl; try discriminate.
    + intros [= <-]. lia.
    + destruct (Z.eqb z 0); simpl; intros [= <-]; lia.
    + intros [= <-]. lia.
  - intros z0 -> Hneg. simpl. destruct (Z.eqb_spec z0 0); [lia |]. simpl.
    f_equal. lia.
  - destruct qo as [s |]; [destruct (String.eqb s "asc") |]; tauto.
  - destruct qs as [s |]; [| discriminate].
    destruct (String.eqb_spec s ""); [discriminate | assumption].
Qed.

Lemma retry_from_success {A} (attempt : nat -> Result A) (maxRetries : nat)
      (baseDelay : Z) (a : A) (k : nat) :
  (k < maxRetries)%nat ->
  (forall j, (j < k)%nat -> exists e, attempt j = Throw e) ->
  attempt k = Ok a ->
  forall (left i : nat) (lastError : option Error) (slept : list Z),
    (i <= k)%nat -> (i + left = maxRetries)%nat ->
    helpers.retry_from attempt maxRetries baseDelay left i lastError slept
    = (inl a, slept ++ List.map (fun j => baseDelay * 2 ^ Z.of_nat j)
                                (List.seq i (k - i))).
Proof.
  intros Hk Hfail Hok. induction left as [| left IH]; intros i lastError slept Hi Hsum.
  - lia.
  - simpl. destruct (Nat.eq_dec i k) as [-> | Hne].
    + rewrite Hok, Nat.sub_diag. simpl. rewrite List.app_nil_r. reflexivity.
    + destruct (Hfail i) as [e He]; [lia |]. rewrite He.
      assert (Hlt : Nat.ltb i (maxRetries - 1) = true) by (apply Nat.ltb_lt; lia).
      rewrite Hlt, IH by lia.
      replace (k - i)%nat with (S (k - S i)) by lia. simpl.
      rewrite <- List.app_assoc. reflexivity.
Qed.

Lemma retry_from_failure {A} (attempt : nat -> Result A) (maxRetries : nat)
      (baseDelay : Z) (err : nat -> Error) :
  (forall j, (j < maxRetries)%nat -> attempt j = Throw (err j)) ->
  forall (left i : nat) (lastError : option Error) (slept : list Z),
    (i + left = maxRetries)%nat ->
    helpers.retry_from attempt maxRetries baseDelay left i lastError slept
    = (inr (match left with
            | O => lastError
            | S _ => Some (err (maxRetries - 1)%nat)
            end),
       slept ++ List.map (fun j => baseDelay * 2 ^ Z.of_nat j)
                         (List.seq i (left - 1))).
Proof.
  intros Hfail. induction left as [| left IH]; intros i lastError slept Hsum.
  - simpl. rewrite List.app_nil_r. reflexivity.
  - simpl. rewrite Hfail by lia. rewrite IH by lia.
    rewrite Nat.sub_0_r. destruct left as [| left'].
    + assert (Hlt : Nat.ltb i (maxRetries - 1) = false) by (apply Nat.ltb_ge; lia).
      rewrite Hlt. simpl. replace (maxRetries - 1)%nat with i by lia.
      rewrite List.app_nil_r. reflexivity.
    + assert (Hlt : Nat.ltb i (maxRetries - 1) = true) by (apply Nat.ltb_lt; lia).
      rewrite Hlt. simpl. rewrite Nat.sub_0_r, <- List.app_assoc. reflexivity.
Qed.

(** X25: [retryWithBackoff] returns what the first successful call returns,
    having slept [baseDelay], twice that, four times that, ... once after
    each failed call before it.  When all [maxRetries] calls fail it throws
    the error of the last call, without sleeping after it; with
    [maxRetries] zero it throws [undefined] at once. *)
Theorem retryWithBackoff_outcome {A} :
  forall (attempt : nat -> Result A) (maxRetries : nat) (baseDelay : Z),
    (forall (k : nat) (a : A),
        (k < maxRetries)%nat ->
        (forall j, (j < k)%nat -> exists e, attempt j = Throw e) ->
        attempt k = Ok a ->
        helpers.retryWithBackoff attempt maxRetries baseDelay
        = (inl a, List.map (fun j => baseDelay * 2 ^ Z.of_nat j) (List.seq 0 k)))
    /\ (forall err : nat -> Error,
          (forall j, (j < maxRetries)%nat -> attempt j = Throw (err j)) ->
          helpers.retryWithBackoff attempt maxRetries baseDelay
          = (inr (match maxRetries with
                  | O => None
                  | S _ => Some (err (maxRetries - 1)%nat)
                  end),
             List.map (fun j => baseDelay * 2 ^ Z.of_nat j)
                      (List.seq 0 (maxRetries - 1))))
    /\ helpers.retryWithBackoff attempt 0 baseDelay = (inr None, []).
Proof.
  intros attempt maxRetries baseDelay. split; [| split].
  - intros k a Hk Hfail Hok. unfold helpers.retryWithBackoff.
    rewrite (retry_from_success attempt maxRetries baseDelay a k Hk Hfail Hok)
      by lia.
    rewrite Nat.sub_0_r. reflexivity.
  - intros err Hfail. unfold helpers.retryWithBackoff.
    rewrite (retry_from_failure attempt maxRetries baseDelay err Hfail) by lia.
    reflexivity.
  - reflexivity.
Qed.

(** ** The logout handler *)

(** X26: the logout handler succeeds, clearing the cookie and writing
    nothing, when the request presents no token; a non-empty token in the
    body is the one presented, whatever the cookie holds; and a presented
    token without a live refresh record ends the handler with
    [NotFoundError] before the cookie is cleared. *)
Theorem logout_handler_edges :
  forall (body_refreshToken cookies_refreshToken : option string) (w : World),
    (truthy_string body_refreshToken = false ->
     truthy_string cookies_refreshToken = false ->
     sessionController.logout body_refreshToken cookies_refreshToken w
     = (Ok (mkReply ["refreshToken"] (mkResponse 200 true "Logout successful")), w))
    /\ (truthy_string body_refreshToken = true ->
        sessionController.logout body_refreshToken cookies_refreshToken w
        = sessionController.logout body_refreshToken None w)
    /\ (forall token,
          sessionController.presented body_refreshToken cookies_refreshToken
            = Some token ->
          token <> "" ->
          count_token token (tokens w) = 0%nat ->
          sessionController.logout body_refreshToken cookies_refreshToken w
          = (Throw (NotFoundError "Token not found"), w)).
Proof.
  intros body cookie w. split; [| split].
  - intros Hb Hc. unfold sessionController.logout, sessionController.presented, bind.
    rewrite Hb. destruct cookie as [c |]; [| reflexivity].
    rewrite Hc. reflexivity.
  - intros Hb. unfold sessionController.logout, sessionController.presented.
    rewrite Hb. reflexivity.
  - intros token Hp Hne Hc. unfold sessionController.logout, bind. rewrite Hp.
    assert (Ht : truthy_string (Some token) = true).
    { simpl. destruct (String.eqb_spec token ""); [contradiction | reflexivity]. }
    rewrite Ht, logout_eq.
    set (q := TokenDoc.mkQuery _ _ _ _ _ _).
    rewrite (findOne_in_no_token q _ token eq_refl Hc). reflexivity.
Qed.

(** * The further properties at concrete requests *)

Lemma sampleJwt_stable : @JwtStable sampleJwt.
Proof.
  intros token secret t1 t2 p1 p2. simpl. unfold sample_verify.
  destruct (pos_of_bits token) as [n |]; [| discriminate].
  destruct (decode n : option (string * string * Z * Z * nat))
    as [[[[[secret' s] i] e] c] |]; [| discriminate].
  destruct (tokenType_of_code c) as [ty |]; [| discriminate].
  destruct (negb (String.eqb secret' secret)); [discriminate |].
  destruct (Z.leb e t1); [discriminate |].
  destruct (Z.leb e t2); [discriminate |].
  intros [= <-] [= <-]. reflexivity.
Qed.

#[export] Existing Instance sampleJwt_stable.

Lemma wf_world_two_sessions : wf world_two_sessions.
Proof.
  apply (wf_create _ _ _ _ _ world_later). apply wf_at_time, wf_world_login.
Qed.

Lemma logout_only_that_session_witness :
  tokenService.verifyToken token_second REFRESH
    (snd (authService.logout token_login world_two_sessions))
  = (fst (tokenService.verifyToken token_second REFRESH world_two_sessions),
     snd (authService.logout token_login world_two_sessions)).
Proof.
  assert (E : authService.logout token_login world_two_sessions
              = (Ok tt, snd (authService.logout token_login world_two_sessions)))
    by (vm_compute; reflexivity).
  destruct (logout_only_that_session _ _ _ wf_world_two_sessions E)
    as (_ & _ & Hother).
  apply Hother. apply String.eqb_neq. vm_compute. reflexivity.
Defined.

Lemma logout_then_rotation_refused_witness :
  authService.refreshAuth token_login
    (run_calls [call_tick 3000; call_generateAuthTokens alice]
               (snd (authService.logout token_login world_later)))
  = (Throw (UnauthorizedError "Please authenticate"),
     run_calls [call_tick 3000; call_generateAuthTokens alice]
               (snd (authService.logout token_login world_later))).
Proof.
  apply (logout_then_rotation_refused token_login world_later
           (snd (authService.logout token_login world_later))).
  - apply wf_at_time, wf_world_login.
  - vm_compute. apply le_n.
  - vm_compute. reflexivity.
  - intros d Hin Ht. vm_compute in Hin. destruct Hin as [<- | []].
    vm_compute in Ht. discriminate Ht.
Defined.

Lemma refreshAuth_success_effect_witness :
  length (tokens (snd (authService.refreshAuth token_login world_later)))
  = length (tokens world_later).
Proof.
  assert (E : authService.refreshAuth token_login world_later
              = (Ok (mkAuthTokens
                       (mkTokenAndExpiry
                          (jwt_sign (mkPayload "u1" 2 1802 ACCESS) jwt_secret) 1802000)
                       (mkTokenAndExpiry token_second 2592002000)),
                 snd (authService.refreshAuth token_login world_later)))
    by (vm_compute; reflexivity).
  destruct (refreshAuth_success_effect _ _ _ _ E) as [Hlen _].
  exact Hlen.
Defined.

Lemma verifyEmail_single_use_witness :
  authService.verifyEmail token_verify
    (at_time 5000 (snd (authService.verifyEmail token_verify world_verify)))
  = (Throw (UnauthorizedError "Email verification failed"),
     at_time 5000 (snd (authService.verifyEmail token_verify world_verify))).
Proof.
  assert (E : authService.verifyEmail token_verify world_verify
              = (Ok tt, snd (authService.verifyEmail token_verify world_verify)))
    by (vm_compute; reflexivity).
  destruct (verifyEmail_single_use _ _ _ E) as (_ & _ & Hreplay).
  apply Hreplay. intros d Hin _. exact Hin.
Defined.

Lemma resetPassword_single_use_witness :
  authService.resetPassword token_reset "again4567"
    (at_time 5000 (snd (authService.resetPassword token_reset "newpass99" world_forgot)))
  = (Throw (UnauthorizedError "Password reset failed"),
     at_time 5000 (snd (authService.resetPassword token_reset "newpass99" world_forgot))).
Proof.
  apply (resetPassword_single_use token_reset "newpass99" "again4567" world_forgot
           (snd (authService.resetPassword token_reset "newpass99" world_forgot))).
  - vm_compute. reflexivity.
  - intros d Hin _. exact Hin.
Defined.

Lemma single_use_token_lifetime_witness :
  tokenService.verifyToken token_reset RESET_PASSWORD (at_time 601000 world_forgot)
  = (Throw TokenExpiredError, at_time 601000 world_forgot).
Proof.
  destruct (single_use_token_lifetime "u1" world0 601000)
    as [(token & Ht & _ & Hdead) _].
  assert (E : Ok token_reset = Ok token) by (rewrite <- Ht; vm_compute; reflexivity).
  injection E as <-.
  apply Hdead; [| reflexivity].
  vm_compute. intros Hgt. discriminate Hgt.
Defined.

Lemma forgotPassword_then_resetPassword_witness :
  exists token w1,
    authService.forgotPassword "a@x.com" world0 = (Ok tt, w1)
    /\ outbox w1 = outbox world0 ++ [mkMail "a@x.com" "Reset Your Password" token].
Proof.
  destruct (forgotPassword_then_resetPassword "a@x.com" world0 alice
              eq_refl eq_refl) as (token & w1 & Hf & Hout & _).
  exists token, w1. split; assumption.
Defined.

Lemma blacklistToken_revokes_witness :
  is_ok (fst (tokenService.verifyToken token_login REFRESH
                (at_time 3000 (snd (tokenService.blacklistToken token_login REFRESH
                                                                world_login)))))
  = false.
Proof.
  assert (Hc : (count_token token_login (tokens world_login) <= 1)%nat)
    by (vm_compute; apply le_n).
  destruct (blacklistToken_revokes token_login REFRESH world_login Hc)
    as (_ & _ & Hrev).
  destruct (fst (tokenService.verifyToken token_login REFRESH
                   (at_time 3000 (snd (tokenService.blacklistToken token_login REFRESH
                                                                   world_login)))))
    as [d | e] eqn:E.
  - exfalso. apply (Hrev (at_time 3000 (snd (tokenService.blacklistToken
                                               token_login REFRESH world_login))) d).
    + intros d' Hin _. exact Hin.
    + exact E.
  - reflexivity.
Defined.


Lemma production_hides_internal_errors_witness :
  @respond productionConfig (throw (JsError "Error" "connect ECONNREFUSED 10.0.0.5"))
           world0
  = (mkResponse 500 false "Internal server error", world0).
Proof.
  apply (@production_hides_internal_errors productionConfig
           (throw (JsError "Error" "connect ECONNREFUSED 10.0.0.5")) world0 world0
           (JsError "Error" "connect ECONNREFUSED 10.0.0.5")); reflexivity.
Defined.

Lemma run_calls_kept_witness :
  kept world0
    (run_calls [call_login "a@x.com" "abc12345"; call_generateAuthTokens alice;
                call_tick 2000; call_refreshAuth token_login;
                call_forgotPassword "a@x.com"; call_cleanupExpiredTokens]
               world0).
Proof.
  apply run_calls_kept.
  - exact wf_world0.
  - intros d [].
Defined.

Lemma account_lifecycle_witness :
  snd (userAdmin.deleteUserById "u1" store0) = delete "u1" store0.
Proof.
  assert (E : store0 !! "u1" = Some alice_obj) by (vm_compute; reflexivity).
  destruct (account_lifecycle "u1" store0 alice_obj E) as (_ & _ & Hdel & _).
  exact Hdel.
Defined.

Lemma verified_user_passes_requireVerifiedEmail_witness :
  authGuards.requireVerifiedEmail
    (set_req_user (UserDoc.set_isEmailVerified true alice) request_bearer)
    (at_time 2000 (snd (authService.verifyEmail token_verify world_verify)))
  = (Ok (set_req_user (UserDoc.set_isEmailVerified true alice) request_bearer),
     at_time 2000 (snd (authService.verifyEmail token_verify world_verify))).
Proof.
  assert (Eve : authService.verifyEmail token_verify world_verify
                = (Ok tt, snd (authService.verifyEmail token_verify world_verify)))
    by (vm_compute; reflexivity).
  assert (Ep : jwt_verify token_verify jwt_secret (unix (clock world_verify))
               = Ok (mkPayload "u1" 1 3601 VERIFY_EMAIL))
    by (vm_compute; reflexivity).
  assert (Eg : auth.verifyToken request_bearer
                 (at_time 2000 (snd (authService.verifyEmail token_verify world_verify)))
               = (Ok (set_req_user (UserDoc.set_isEmailVerified true alice)
                                   request_bearer),
                  at_time 2000 (snd (authService.verifyEmail token_verify world_verify))))
    by (vm_compute; reflexivity).
  apply (verified_user_passes_requireVerifiedEmail
           _ _ _ _ _ _ _ _ (UserDoc.set_isEmailVerified true alice) Eve Ep Eg);
    reflexivity.
Defined.
